(** * ASR-GoT graph state machine: a shallow embedding

    The development follows the JavaScript servers of the repository:

    - [Backup]    : [src/server/index-backup.js], class [ASRGoTGraph], the only
                    variant that implements stages 4 to 6 (evidence integration,
                    pruning and merging, subgraph extraction);
    - [Corrected] : [src/server/index-corrected.js], lines 22-461, the variant
                    with the stage-0 gate and the numeric node identifiers;
    - [Hardened]  : [src/server/index-corrected.js], lines 1968-2044 and
                    3672-3686, the [InputValidator] checks that the last server
                    variant runs before it calls [initialize];
    - [Analysis]  : [src/server/index-backup.js], lines 1491-1824, the
                    read-only analyses of the class;
    - [Server]    : [src/server/index-backup.js], lines 2270-2632, the
                    tool-call handler;
    - [Components]: [src/server/index-backup.js], lines 732-776, the community
                    pass that ends integrateEvidence, with its depth-first
                    search;
    - [Binary64]  : the arithmetic of lines 479-481 and 827-830 of
                    [src/server/index-backup.js] on IEEE 754 doubles.

    [Spec] holds the wording of the specification where it is compared with
    the code, [Session] and [Scenario] the concrete inputs, [View],
    [Discipline] and [Separation] the vocabulary of the statements.  The
    properties follow, one module per topic.

    Conventions.
    - JavaScript numbers are idealised as exact rationals ([Q]), except
      where the outcome turns on what the doubles do.  The pruning
      test (lines 827-830) is evaluated on doubles: a stored rational stands
      for the double nearest to it, which is what [JSON.parse] makes of the
      literal, and the sum, the quotient and the comparisons are those of
      binary64.  The clamped update (lines 479-481) is given on doubles as
      well, NaN included ([Binary64.update_confidence]).  The limit of
      generateHypotheses is read off the parsed double, which the comparison
      and the truncation that follow do not round.  Elsewhere rounding,
      infinities and NaN are outside the model: where the source would store
      NaN (an arithmetic operation on a missing array component) the
      rational model stops with the error [NotANumber], while the source
      itself does not throw there; the statements whose truth such a case
      would change exclude it by a hypothesis on the lengths.
    - A [Map] is an association list in insertion order: [Map.set] on a present
      key replaces the value in place, on a fresh key it appends.  A [Set] is a
      duplicate-free list in insertion order.
    - A method is a computation in a state-and-exception monad over the graph
      object; a thrown error keeps the mutations made before it.
    - [uuidv4().slice(0, 8)] and the clock are inputs of the environment: the
      operations that use them take the identifier token and the decay factor
      [Math.pow(decayFactor, ageHours / 24)] as arguments.
    - Strings are ASCII; [\s] is the ASCII white space.
    - A dimension label is not the name of a property that every object
      inherits ("constructor", "toString", ...): for such a label the lookup
      [tagMap[dimension]] yields the inherited property instead of an array.
    - Not modelled, because no operation below branches on them: time stamps,
      revision history, attribution, research plans, entropy and density
      metrics, community identifiers, causal and temporal edge metadata, the
      [nodeTypes] set and the log output. *)

From Stdlib Require Import QArith Qminmax List String Ascii Lia Bool Arith.
From Stdlib Require Import DecimalString DecimalNat Lqa Sorted Permutation ZArith.
From Stdlib Require Floats.
Import ListNotations.

Local Open Scope string_scope.
Local Open Scope Q_scope.

(** ** JavaScript string and array helpers *)

Module Js.

(** [\s] restricted to ASCII: TAB, LF, VT, FF, CR and SPACE. *)
Definition is_space (c : ascii) : bool :=
  let n := nat_of_ascii c in
  (((9 <=? n) && (n <=? 13)) || (n =? 32))%nat.

Definition lower_ascii (c : ascii) : ascii :=
  let n := nat_of_ascii c in
  if ((65 <=? n) && (n <=? 90))%nat then ascii_of_nat (n + 32) else c.

(** [String.prototype.toLowerCase] on ASCII. *)
Fixpoint toLowerCase (s : string) : string :=
  match s with
  | EmptyString => EmptyString
  | String c r => String (lower_ascii c) (toLowerCase r)
  end.

(** [s.split(/\s+/)]: [cur] is the token being read, [gap] tells that the
    previous character was white space.  A leading or trailing run of white
    space yields an empty first or last token, as in JavaScript. *)
Fixpoint split_ws_from (s cur : string) (gap : bool) : list string :=
  match s with
  | EmptyString => [cur]
  | String c r =>
      if is_space c
      then if gap then split_ws_from r cur true
           else cur :: split_ws_from r "" true
      else split_ws_from r (cur ++ String c "") false
  end.

Definition split_ws (s : string) : list string := split_ws_from s "" false.

(** [s.split(sep)] for a one-character separator. *)
Fixpoint split_on_from (sep : ascii) (s cur : string) : list string :=
  match s with
  | EmptyString => [cur]
  | String c r =>
      if Ascii.eqb c sep
      then cur :: split_on_from sep r ""
      else split_on_from sep r (cur ++ String c "")
  end.

Definition split_on (sep : ascii) (s : string) : list string :=
  split_on_from sep s "".

(** [s.includes(sub)]. *)
Fixpoint includes (s sub : string) : bool :=
  if String.prefix sub s then true
  else match s with
       | EmptyString => false
       | String _ r => includes r sub
       end.

(** Template-literal rendering of a non-negative integer. *)
Definition string_of_nat (n : nat) : string :=
  NilEmpty.string_of_uint (Nat.to_uint n).

Definition mem (x : string) (l : list string) : bool :=
  existsb (String.eqb x) l.

(** [new Set(l)], as the list of its elements in insertion order. *)
Definition set_add (acc : list string) (x : string) : list string :=
  if mem x acc then acc else (acc ++ [x])%list.

Definition set_of (l : list string) : list string :=
  fold_left set_add l [].

(** [a || d] on numbers: [undefined] and [0] are falsy. *)
Definition num_or (a : option Q) (d : Q) : Q :=
  match a with
  | Some q => if Qeq_bool q 0 then d else q
  | None => d
  end.

(** [a || d] on strings: [undefined] and the empty string are falsy. *)
Definition str_or (a : option string) (d : string) : string :=
  match a with
  | Some EmptyString | None => d
  | Some s => s
  end.

(** [a || null] on strings. *)
Definition str_or_null (a : option string) : option string :=
  match a with
  | Some EmptyString | None => None
  | Some s => Some s
  end.

(** [a || d] on arrays: every array, the empty one included, is truthy. *)
Definition arr_or {A : Type} (a : option (list A)) (d : list A) : list A :=
  match a with
  | Some l => l
  | None => d
  end.

Definition Qltb (x y : Q) : bool := negb (Qle_bool y x).

(** [ToIntegerOrInfinity] on a number: truncation towards zero. *)
Definition to_integer (q : Q) : Z := Z.quot (Qnum q) (Zpos (Qden q)).

(** [array.slice(0, end)]: a negative [end] counts from the end of the
    array; the result is never longer than the array. *)
Definition slice_to {A : Type} (end_ : Q) (l : list A) : list A :=
  let len := Z.of_nat (List.length l) in
  let relativeEnd := to_integer end_ in
  let final :=
    if (relativeEnd <? 0)%Z then Z.max (len + relativeEnd) 0 else Z.min relativeEnd len in
  firstn (Z.to_nat final) l.

Definition sum (l : list Q) : Q := fold_left Qplus l 0.

Definition Qnat (n : nat) : Q := inject_Z (Z.of_nat n).

End Js.

(** ** JavaScript numbers as IEEE 754 doubles

    The rational model decides a comparison by the exact values.  Two places
    of [index-backup.js] depend on what the doubles do: the pruning test
    (lines 827-830), where the mean is a rounded sum, and the clamped update
    (lines 479-481), which stores NaN for a component without a factor.  They
    are evaluated here on Rocq's primitive binary64 floats. *)

Module Binary64.

Import Floats.

(** A JavaScript number. *)
Definition number : Set := float.

(** The number a JSON literal denotes: the double nearest to the rational,
    ties to even, an infinity beyond the largest double. *)
Definition of_decimal (q : Q) : number :=
  SF2Prim (SFdiv prec emax
             (match Qnum q with
              | Z0 => S754_zero false
              | Zpos p => S754_finite false p 0
              | Zneg p => S754_finite true p 0
              end)
             (S754_finite false (Qden q) 0)).

(** The exact value of a number.  An infinity counts as [2 ^ 1024] with its
    sign, which lies beyond every double; NaN counts as 0. *)
Definition value (x : number) : Q :=
  match Prim2SF x with
  | S754_finite s m e => (if s then - (1) else 1) * inject_Z (Zpos m) * 2 ^ e
  | S754_infinity s => (if s then - (1) else 1) * 2 ^ 1024
  | S754_zero _ | S754_nan => 0
  end.

(** The value that [JSON.parse] gives a literal. *)
Definition parsed (q : Q) : Q := value (of_decimal q).

(** [x || d] on numbers: [0], [-0] and NaN are falsy. *)
Definition or_else (x d : number) : number :=
  if is_nan x || is_zero x then d else x.

(** [config.field || d] for a field that is a JSON number or absent. *)
Definition field_or (x : option Q) (d : Q) : number :=
  match x with
  | Some q => or_else (of_decimal q) (of_decimal d)
  | None => of_decimal d
  end.

(** [Math.max(x, y)]: NaN when an argument is NaN; [+0] counts as larger
    than [-0]. *)
Definition Math_max (x y : number) : number :=
  if is_nan x || is_nan y then nan
  else if ltb x y then y
  else if ltb y x then x
  else if get_sign x then y else x.

(** [Math.min(x, y)]: NaN when an argument is NaN; [-0] counts as smaller
    than [+0]. *)
Definition Math_min (x y : number) : number :=
  if is_nan x || is_nan y then nan
  else if ltb x y then x
  else if ltb y x then y
  else if get_sign x then x else y.

(** [array.reduce((a, b) => a + b, 0)]. *)
Definition reduce_sum (l : list number) : number := fold_left add l zero.

(** [array.reduce((a, b) => a + b, 0) / 4] on an array of JSON numbers. *)
Definition quarter_of_sum (l : list Q) : number :=
  div (reduce_sum (map of_decimal l)) (of_decimal 4).

(** The literals [0.01] and [0.99]. *)
Definition lower : number := Eval vm_compute in of_decimal 0.01.
Definition upper : number := Eval vm_compute in of_decimal 0.99.

(** [confidence.map((c, i) => Math.min(0.99, Math.max(0.01, c * updateFactor[i])))]
    (lines 479-481): a component whose index has no factor is multiplied by
    [undefined], which gives NaN. *)
Fixpoint update_confidence (confidence updateFactor : list number) : list number :=
  match confidence with
  | [] => []
  | c :: rest =>
      let factor := match updateFactor with [] => nan | f :: _ => f end in
      Math_min upper (Math_max lower (mul c factor))
      :: update_confidence rest (tl updateFactor)
  end.

(** A number between the two bounds of the clamp. *)
Definition clamped (x : number) : Prop := leb lower x = true /\ leb x upper = true.

End Binary64.

(** ** Insertion-ordered maps with string keys *)

Module SMap.

Section Ops.
Context {V : Type}.

Fixpoint get (k : string) (m : list (string * V)) : option V :=
  match m with
  | [] => None
  | (k', v) :: r => if String.eqb k k' then Some v else get k r
  end.

Definition has (k : string) (m : list (string * V)) : bool :=
  match get k m with Some _ => true | None => false end.

Fixpoint set (k : string) (v : V) (m : list (string * V)) : list (string * V) :=
  match m with
  | [] => [(k, v)]
  | (k', v') :: r =>
      if String.eqb k k' then (k, v) :: r else (k', v') :: set k v r
  end.

Definition delete (k : string) (m : list (string * V)) : list (string * V) :=
  filter (fun kv => negb (String.eqb k (fst kv))) m.

Definition keys (m : list (string * V)) : list string := map fst m.
End Ops.

End SMap.

(** ** A state-and-exception monad for the class methods

    A method either returns ([Ok]) or throws ([Throw]); both carry the object
    state reached, since a JavaScript exception does not roll mutations back. *)

(** [StageError c e]: [throw new Error(`Cannot ... Current stage: ${c},
    expected: ${e}`)]; [NotFound id]: [throw new Error(`... node ${id} not
    found`)]; [InvalidParams f]: the [McpError] of [InputValidator] for the
    field [f]; [TypeError]: the engine's error for a property read on
    [undefined] or a string method called on an object; [NotANumber]: the
    boundary of the rational model (see the conventions above). *)
Inductive error : Type :=
| StageError (current expected : nat)
| NotFound (id : string)
| InvalidParams (field : string)
| TypeError
| NotANumber.

Inductive outcome (St A : Type) : Type :=
| Ok (s : St) (a : A)
| Throw (s : St) (e : error).

Arguments Ok {St A} s a.
Arguments Throw {St A} s e.

Definition M (St A : Type) : Type := St -> outcome St A.

Definition ret {St A : Type} (a : A) : M St A := fun s => Ok s a.

Definition bind {St A B : Type} (c : M St A) (k : A -> M St B) : M St B :=
  fun s => match c s with
           | Ok s' a => k a s'
           | Throw s' e => Throw s' e
           end.

Definition throw {St A : Type} (e : error) : M St A := fun s => Throw s e.
Definition get_state {St : Type} : M St St := fun s => Ok s s.
Definition modify {St : Type} (f : St -> St) : M St unit := fun s => Ok (f s) tt.

Notation "x <- c ;; k" := (bind c (fun x => k))
  (at level 61, c at next level, right associativity).
Notation "c ;;; k" := (bind c (fun _ => k))
  (at level 61, right associativity).

Definition state_of {St A : Type} (o : outcome St A) : St :=
  match o with Ok s _ => s | Throw s _ => s end.

Definition succeeded {St A : Type} (o : outcome St A) : bool :=
  match o with Ok _ _ => true | Throw _ _ => false end.

(** ** The elements of the [hypotheses] argument of [generateHypotheses] *)

Module Args.

Record hypothesis_fields : Type := mk_hypothesis_fields {
  h_content : option string;
  h_confidence : option (list Q);
  h_disciplinary_tags : option (list string);
  h_falsification_criteria : option string;
  h_impact_score : option Q
}.

(** An element of the [hypotheses] array: a bare string or an object. *)
Inductive hypothesis_input : Type :=
| HText (s : string)
| HObject (f : hypothesis_fields).

Definition no_fields : hypothesis_fields := mk_hypothesis_fields None None None None None.

(** The properties read off an element; a string has none of them. *)
Definition fields_of (h : hypothesis_input) : hypothesis_fields :=
  match h with HText _ => no_fields | HObject f => f end.

(** [hypothesis.content || hypothesis], when the result is a string; [None]
    when it is the object itself. *)
Definition content_or_self (h : hypothesis_input) : option string :=
  match h with
  | HText s => Some s
  | HObject f => match h_content f with
                 | Some (String c r) => Some (String c r)
                 | _ => None
                 end
  end.

End Args.

(** ** src/server/index-backup.js: class ASRGoTGraph *)

Module Backup.

Import Js Args.

(** *** Data model *)

(** The values the [type] field of a node takes in this file. *)
Inductive node_type : Type := root | dimension | hypothesis | evidence | bridge.

Definition node_type_eqb (a b : node_type) : bool :=
  match a, b with
  | root, root | dimension, dimension | hypothesis, hypothesis
  | evidence, evidence | bridge, bridge => true
  | _, _ => false
  end.

(** [evidence.statistical_data], the record the tool schema documents. *)
Record statistical_data : Type := mk_statistical_data {
  sd_power : option Q;
  sd_sample_size : option Q
}.

(** [metadata.statistical_power], built by [_assessStatisticalPower]. *)
Record power_assessment : Type := mk_power_assessment {
  power : option Q;
  sample_size : option Q;
  assessment : string
}.

(** The fields of the P1.12 node metadata that the stages read or write. *)
Record metadata : Type := mk_metadata {
  md_node_id : string;
  provenance : string;
  md_confidence : list Q;
  epistemic_status : string;
  disciplinary_tags : list string;
  falsification_criteria : option string;
  bias_flags : list string;
  layer_id : string;
  statistical_power : option power_assessment;
  novelty_score : option Q;          (* info_metrics.novelty_score *)
  impact_score : Q;
  degree_centrality : option Q;      (* topology_metrics.degree_centrality *)
  temporal_decay_applied : option Q
}.

(** The argument of [_createNodeMetadata]: [None] is an absent property. *)
Record base_metadata : Type := mk_base_metadata {
  b_node_id : string;
  b_provenance : option string;
  b_confidence : option (list Q);
  b_epistemic_status : option string;
  b_disciplinary_tags : option (list string);
  b_falsification_criteria : option (option string);
  b_bias_flags : option (list string);
  b_layer_id : option string;
  b_statistical_power : option (option power_assessment);
  b_novelty_score : option Q;
  b_impact_score : option Q
}.

(** [content] is optional: an evidence node stores [evidence.content] as it
    came, [undefined] included. *)
Record node : Type := mk_node {
  node_id : string;
  label : string;
  type : node_type;
  content : option string;
  confidence : list Q;
  node_metadata : metadata
}.

Record edge : Type := mk_edge {
  edge_id : string;
  source : string;
  target : string;
  edge_type : string;
  edge_confidence : list Q
}.

Record hyperedge : Type := mk_hyperedge {
  hyperedge_id : string;
  he_nodes : list string;
  he_target : string;
  relationship_type : string;
  he_confidence : list Q
}.

Record graph : Type := mk_graph {
  vertices : list (string * node);
  edges : list (string * edge);
  hyperedges : list (string * hyperedge);
  layers : list (string * list string);     (* layer id -> its [nodes] set *)
  currentStage : nat
}.

Definition with_vertices (f : list (string * node) -> list (string * node)) (g : graph) : graph :=
  mk_graph (f (vertices g)) (edges g) (hyperedges g) (layers g) (currentStage g).

Definition with_edges (f : list (string * edge) -> list (string * edge)) (g : graph) : graph :=
  mk_graph (vertices g) (f (edges g)) (hyperedges g) (layers g) (currentStage g).

Definition with_hyperedges (f : list (string * hyperedge) -> list (string * hyperedge))
           (g : graph) : graph :=
  mk_graph (vertices g) (edges g) (f (hyperedges g)) (layers g) (currentStage g).

Definition with_layers (f : list (string * list string) -> list (string * list string))
           (g : graph) : graph :=
  mk_graph (vertices g) (edges g) (hyperedges g) (f (layers g)) (currentStage g).

Definition with_stage (n : nat) (g : graph) : graph :=
  mk_graph (vertices g) (edges g) (hyperedges g) (layers g) n.

Definition with_confidence (c : list Q) (n : node) : node :=
  mk_node (node_id n) (label n) (type n) (content n) c (node_metadata n).

Definition with_metadata (f : metadata -> metadata) (n : node) : node :=
  mk_node (node_id n) (label n) (type n) (content n) (confidence n) (f (node_metadata n)).

Definition set_degree_centrality (d : Q) (m : metadata) : metadata :=
  mk_metadata (md_node_id m) (provenance m) (md_confidence m) (epistemic_status m)
              (disciplinary_tags m) (falsification_criteria m) (bias_flags m) (layer_id m)
              (statistical_power m) (novelty_score m) (impact_score m) (Some d)
              (temporal_decay_applied m).

Definition set_temporal_decay_applied (d : Q) (m : metadata) : metadata :=
  mk_metadata (md_node_id m) (provenance m) (md_confidence m) (epistemic_status m)
              (disciplinary_tags m) (falsification_criteria m) (bias_flags m) (layer_id m)
              (statistical_power m) (novelty_score m) (impact_score m) (degree_centrality m)
              (Some d).

(** *** Constructor *)

(** [_initializeLayers]: the five default layers, each with an empty node set. *)
Definition _initializeLayers : list (string * list string) :=
  [("base", []); ("methodological", []); ("empirical", []);
   ("theoretical", []); ("interdisciplinary", [])].

(** [new ASRGoTGraph(config)]; the argument is [config.enable_multi_layer !== false].
    This variant starts at [currentStage = 1]. *)
Definition new_graph (enable_multi_layer : bool) : graph :=
  mk_graph [] [] [] (if enable_multi_layer then _initializeLayers else []) 1%nat.

(** [this.layers.get(lid).nodes.add(nid)]: a missing layer makes the property
    read on [undefined] throw. *)
Definition layer_add (lid nid : string) : M graph unit :=
  fun g => match SMap.get lid (layers g) with
           | None => Throw g TypeError
           | Some ns => Ok (with_layers (SMap.set lid (set_add ns nid)) g) tt
           end.

Definition default_of {A : Type} (a : option A) (d : A) : A :=
  match a with Some x => x | None => d end.

(** [_createNodeMetadata]: every default is overridden by the property of
    [baseMetadata] when that property is present (the trailing spread). *)
Definition _createNodeMetadata (b : base_metadata) : metadata :=
  mk_metadata
    (b_node_id b)
    (default_of (b_provenance b) "system_generated")
    (default_of (b_confidence b) [0.5; 0.5; 0.5; 0.5])
    (default_of (b_epistemic_status b) "pending")
    (default_of (b_disciplinary_tags b) [])
    (default_of (b_falsification_criteria b) None)
    (default_of (b_bias_flags b) [])
    (default_of (b_layer_id b) "base")
    (default_of (b_statistical_power b) None)
    (b_novelty_score b)
    (default_of (b_impact_score b) 0.5)
    None
    None.

(** *** Stage 1: initialize (lines 171-214).  No stage is required. *)
Definition initialize (taskDescription : string) (initialConfidence : option (list Q))
           (config_disciplinary_tags : option (list string)) : M graph string :=
  let initialConfidence := arr_or initialConfidence [0.8; 0.8; 0.8; 0.8] in
  let rootNodeMetadata := _createNodeMetadata
    (mk_base_metadata "n0" (Some "user_input") (Some initialConfidence) (Some "accepted")
       (Some (arr_or config_disciplinary_tags ["immunology"; "dermatology"]))
       None None (Some "base") None None (Some 0.8)) in
  let rootNode :=
    mk_node "n0" "Task Understanding" root (Some taskDescription)
            initialConfidence rootNodeMetadata in
  modify (with_vertices (SMap.set "n0" rootNode)) ;;;
  layer_add "base" "n0" ;;;
  modify (with_stage 1%nat) ;;;
  ret "n0".

(** *** Stage 2: decomposeTask (lines 217-291) *)

Definition defaultDimensions : list string :=
  ["Scope"; "Objectives"; "Constraints"; "Data Needs";
   "Use Cases"; "Potential Biases"; "Knowledge Gaps"].

(** [_inferDisciplinaryTags], on the own keys of [tagMap]; the labels that
    name an inherited property of the object are outside the model (see the
    conventions). *)
Definition _inferDisciplinaryTags (dim : string) : list string :=
  if String.eqb dim "Scope" then ["methodology"; "research_design"]
  else if String.eqb dim "Objectives" then ["goals"; "outcomes"]
  else if String.eqb dim "Constraints" then ["limitations"; "resources"]
  else if String.eqb dim "Data Needs" then ["data_science"; "methodology"]
  else if String.eqb dim "Use Cases" then ["application"; "translation"]
  else if String.eqb dim "Potential Biases" then ["methodology"; "bias_detection"]
  else if String.eqb dim "Knowledge Gaps" then ["knowledge_discovery"; "research_gaps"]
  else ["general"].

Definition check_stage (expected : nat) : M graph unit :=
  fun g => if (currentStage g =? expected)%nat then Ok g tt
           else Throw g (StageError (currentStage g) expected).

Definition decompose_body (dim : string) (index : nat) : M graph string :=
  let nodeId := "n2." ++ string_of_nat (index + 1) in
  let dimensionMetadata := _createNodeMetadata
    (mk_base_metadata nodeId (Some "task_decomposition") (Some [0.8; 0.8; 0.8; 0.8])
       (Some "pending") (Some (_inferDisciplinaryTags dim)) None None (Some "base")
       None None (Some 0.6)) in
  let dimensionNode :=
    mk_node nodeId dim dimension
            (Some ("Analysis of " ++ dim ++ " aspects of the research task"))
            [0.8; 0.8; 0.8; 0.8] dimensionMetadata in
  modify (with_vertices (SMap.set nodeId dimensionNode)) ;;;
  layer_add "base" nodeId ;;;
  let edgeId := "e_n0_" ++ nodeId in
  modify (with_edges (SMap.set edgeId
            (mk_edge edgeId "n0" nodeId "Decomposition" [0.9; 0.9; 0.9; 0.9]))) ;;;
  ret nodeId.

(** [forEach] that also collects what the body pushes on the result array. *)
Fixpoint collect_from {A : Type} (body : A -> nat -> M graph string)
         (l : list A) (index : nat) : M graph (list string) :=
  match l with
  | [] => ret []
  | x :: r =>
      id <- body x index ;;
      ids <- collect_from body r (S index) ;;
      ret (id :: ids)
  end.

Definition decomposeTask (customDimensions : option (list string)) : M graph (list string) :=
  check_stage 1 ;;;
  let taskDimensions := arr_or customDimensions defaultDimensions in
  dimensionNodes <- collect_from decompose_body taskDimensions 0%nat ;;
  modify (with_stage 2%nat) ;;;
  ret dimensionNodes.

(** *** Stage 3: generateHypotheses (lines 308-386) *)

(** [_assessInitialBiasRisk]: [toLowerCase] on an object throws. *)
Definition _assessInitialBiasRisk (h : hypothesis_input) : M graph (list string) :=
  match content_or_self h with
  | None => throw TypeError
  | Some c =>
      let content := toLowerCase c in
      ret ((if includes content "always" || includes content "never"
            then ["absolute_thinking"] else [])
           ++ (if includes content "obvious" || includes content "clearly"
               then ["confirmation_bias_risk"] else []))%list
  end.

Definition hypothesis_body (dimensionNodeId : string) (h : hypothesis_input) (index : nat)
  : M graph string :=
  let nodeId := "h_" ++ dimensionNodeId ++ "_" ++ string_of_nat (index + 1) in
  let f := fields_of h in
  biasFlags <- _assessInitialBiasRisk h ;;
  let hypothesisMetadata := _createNodeMetadata
    (mk_base_metadata nodeId (Some "hypothesis_generation")
       (Some (arr_or (h_confidence f) [0.5; 0.5; 0.5; 0.5]))
       (Some "hypothetical")
       (Some (arr_or (h_disciplinary_tags f) []))
       (Some (str_or_null (h_falsification_criteria f)))
       (Some biasFlags) (Some "theoretical") None None
       (Some (num_or (h_impact_score f) 0.6))) in
  let hypothesisNode :=
    mk_node nodeId ("Hypothesis " ++ string_of_nat (index + 1)) hypothesis
            (content_or_self h)
            (arr_or (h_confidence f) [0.5; 0.5; 0.5; 0.5]) hypothesisMetadata in
  modify (with_vertices (SMap.set nodeId hypothesisNode)) ;;;
  layer_add "theoretical" nodeId ;;;
  let edgeId := "e_" ++ dimensionNodeId ++ "_" ++ nodeId in
  modify (with_edges (SMap.set edgeId
            (mk_edge edgeId dimensionNodeId nodeId "Hypothesis" [0.8; 0.8; 0.8; 0.8]))) ;;;
  ret nodeId.

Definition check_vertex (id : string) : M graph unit :=
  fun g => if SMap.has id (vertices g) then Ok g tt else Throw g (NotFound id).

(** [Math.min(config.max_hypotheses || 5, 5)] (line 321).
    [config.max_hypotheses] is any JSON number when present: the schema sets
    no lower bound on it.  The comparison and the default act on the parsed
    double, whose value they do not round. *)
Definition maxHypotheses (config_max_hypotheses : option Q) : Q :=
  Qmin (num_or (option_map Binary64.parsed config_max_hypotheses) 5) 5.

(** A negative [maxHypotheses] makes [slice] count from the end of the
    array. *)
Definition generateHypotheses (dimensionNodeId : string) (hypotheses : list hypothesis_input)
           (config_max_hypotheses : option Q) : M graph (list string) :=
  check_stage 2 ;;;
  check_vertex dimensionNodeId ;;;
  hypothesisNodes <-
    collect_from (hypothesis_body dimensionNodeId)
                 (slice_to (maxHypotheses config_max_hypotheses) hypotheses) 0%nat ;;
  modify (with_stage 3%nat) ;;;
  ret hypothesisNodes.

(** *** Stage 4: integrateEvidence (lines 416-511) and its helpers *)

Record evidence_input : Type := mk_evidence_input {
  ev_title : option string;
  ev_content : option string;
  ev_confidence : option (list Q);
  ev_relationship : option string;
  ev_provenance : option string;
  ev_disciplinary_tags : option (list string);
  ev_impact_score : option Q;
  ev_edge_confidence : option (list Q);
  ev_statistical_data : option statistical_data;
  (* [evidence.statistical_power?.power]: a property outside the tool schema *)
  ev_statistical_power : option Q;
  (* [evidence.info_metrics?.novelty_score]: a property outside the tool schema *)
  ev_novelty_score : option Q
}.

(** [x && x >= bound]. *)
Definition at_least (x : option Q) (bound : Q) : bool :=
  match x with
  | Some q => negb (Qeq_bool q 0) && Qle_bool bound q
  | None => false
  end.

Definition _categorizeStatisticalPower (data : statistical_data) : string :=
  if at_least (sd_power data) 0.8 then "adequate"
  else if at_least (sd_power data) 0.6 then "moderate"
  else if at_least (sd_sample_size data) 100 then "large_sample"
  else "limited".

(** [x || null] on numbers. *)
Definition num_or_null (x : option Q) : option Q :=
  match x with
  | Some q => if Qeq_bool q 0 then None else Some q
  | None => None
  end.

Definition _assessStatisticalPower (ev : evidence_input) : option power_assessment :=
  match ev_statistical_data ev with
  | None => None
  | Some data =>
      Some (mk_power_assessment (num_or_null (sd_power data))
              (num_or_null (sd_sample_size data)) (_categorizeStatisticalPower data))
  end.

(** [_assessNovelty] (lines 562-567): the share of words longer than six
    characters. *)
Definition _assessNovelty (ev : evidence_input) : Q :=
  let keywords := split_ws (toLowerCase (str_or (ev_content ev) "")) in
  let novelKeywords :=
    List.length (filter (fun word => (6 <? String.length word)%nat) keywords) in
  Qmin 1 (Qnat novelKeywords / Qmax 1 (Qnat (List.length keywords))).

Definition _detectEvidenceBias (ev : evidence_input) : list string :=
  let content := toLowerCase (str_or (ev_content ev) "") in
  ((match ev_provenance ev with
    | Some p => if String.eqb p "single_source" then ["source_bias"] else []
    | None => []
    end)
   ++ (if includes content "proves" || includes content "definitively"
       then ["overconfidence_bias"] else [])
   ++ (match ev_statistical_data ev with
       | None => ["lack_quantitative_support"]
       | Some _ => []
       end))%list.

(** [_calculateSemanticSimilarity] (lines 654-661): Jaccard index of the two
    word sets; [None] when a text is [undefined] ([toLowerCase] throws). *)
Definition _calculateSemanticSimilarity (text1 text2 : option string) : option Q :=
  match text1, text2 with
  | Some t1, Some t2 =>
      let words1 := set_of (split_ws (toLowerCase t1)) in
      let words2 := set_of (split_ws (toLowerCase t2)) in
      let intersection := filter (fun x => mem x words2) words1 in
      let union := set_of (words1 ++ words2)%list in
      Some (if (0 <? List.length union)%nat
            then Qnat (List.length intersection) / Qnat (List.length union)
            else 0)
  | _, _ => None
  end.

(** [_calculateBayesianUpdate] (lines 779-807), called with the [evidence]
    argument of [integrateEvidence]; [None] when [evidence.confidence] is
    [undefined] ([reduce] throws). *)
Definition _calculateBayesianUpdate (ev : evidence_input) (edgeType : string)
  : option (list Q) :=
  match ev_confidence ev with
  | None => None
  | Some c =>
      let evidenceStrength := sum c / 4 in
      let statPower := num_or (ev_statistical_power ev) 0.8 in
      let infoValue := num_or (ev_novelty_score ev) 0.5 in
      let updateFactors := [1; 1; 1; 1] in
      let baseUpdate := evidenceStrength * statPower * infoValue * 0.3 in
      Some (if String.eqb edgeType "Supportive"
            then map (fun f => f * (1 + baseUpdate)) updateFactors
            else if String.eqb edgeType "Contradictory"
            then map (fun f => f * (1 - baseUpdate)) updateFactors
            else if String.eqb edgeType "Correlative"
            then map (fun f => f * (1 + baseUpdate * 0.5)) updateFactors
            else if String.eqb edgeType "Causal"
            then map (fun f => f * (1 + baseUpdate * 1.2)) updateFactors
            else map (fun f => f * (1 + baseUpdate * 0.3)) updateFactors)
  end.

Definition clamp (x : Q) : Q := Qmin 0.99 (Qmax 0.01 x).

(** [confidence.map((c, i) => Math.min(0.99, Math.max(0.01, c * updateFactor[i])))]
    on rationals; [None] when a component has no factor: the source stores
    NaN there and goes on, which [Binary64.update_confidence] follows. *)
Fixpoint update_confidence (c updateFactor : list Q) : option (list Q) :=
  match c, updateFactor with
  | [], _ => Some []
  | x :: cr, f :: fr =>
      match update_confidence cr fr with
      | Some r => Some (clamp (x * f) :: r)
      | None => None
      end
  | _ :: _, [] => None
  end.

(** Mutation of the node object stored under [id]. *)
Definition update_node (id : string) (f : node -> node) : M graph unit :=
  fun g => match SMap.get id (vertices g) with
           | None => Throw g TypeError
           | Some n => Ok (with_vertices (SMap.set id (f n)) g) tt
           end.

Definition get_node (id : string) : M graph node :=
  fun g => match SMap.get id (vertices g) with
           | None => Throw g TypeError
           | Some n => Ok g n
           end.

(** [_checkInterdisciplinaryBridges] (lines 614-652).  The similarity is
    computed before the test, so an [undefined] content throws whatever the
    tags are.  The function adds a vertex and a layer entry; it writes no
    edge. *)
Definition _checkInterdisciplinaryBridges (evidenceId hypothesisId : string) : M graph unit :=
  ev <- get_node evidenceId ;;
  hyp <- get_node hypothesisId ;;
  let evidenceTags := set_of (disciplinary_tags (node_metadata ev)) in
  let hypothesisTags := set_of (disciplinary_tags (node_metadata hyp)) in
  let intersection := filter (fun x => mem x hypothesisTags) evidenceTags in
  match _calculateSemanticSimilarity (content ev) (content hyp) with
  | None => throw TypeError
  | Some semanticSimilarity =>
      if (List.length intersection =? 0)%nat && Qltb 0.5 semanticSimilarity
      then
        let ibnId := "ibn_" ++ evidenceId ++ "_" ++ hypothesisId in
        let ibnMetadata := _createNodeMetadata
          (mk_base_metadata ibnId (Some "interdisciplinary_bridge") None (Some "bridge")
             (Some (evidenceTags ++ hypothesisTags)%list) None None
             (Some "interdisciplinary") None None (Some 0.8)) in
        let ibnNode :=
          mk_node ibnId "Interdisciplinary Bridge" bridge
                  (Some "Bridge connecting [object Set] and [object Set]")
                  [0.7; 0.7; 0.7; 0.7] ibnMetadata in
        modify (with_vertices (SMap.set ibnId ibnNode)) ;;;
        layer_add "interdisciplinary" ibnId
      else ret tt
  end.

(** [_checkHyperedgeCreation] (lines 664-692). *)
Definition _checkHyperedgeCreation (evidenceId : string) : M graph unit :=
  g <- get_state ;;
  let relatedNodes :=
    map (fun kv => source (snd kv))
        (filter (fun kv => String.eqb (target (snd kv)) evidenceId) (edges g)) in
  if (2 <? List.length relatedNodes)%nat
  then
    let hyperedgeId := "he_" ++ evidenceId in
    modify (with_hyperedges (SMap.set hyperedgeId
              (mk_hyperedge hyperedgeId relatedNodes evidenceId "non_additive_influence"
                            [0.6; 0.6; 0.6; 0.6])))
  else ret tt.

(** [_applyTemporalDecay] (lines 695-706); [decay] stands for
    [Math.pow(decayFactor, ageHours / 24)].  The scaled components are stored
    as they are. *)
Definition _applyTemporalDecay (nodeId : string) (decay : Q) : M graph unit :=
  update_node nodeId
    (fun n => with_metadata (set_temporal_decay_applied decay)
                (with_confidence (map (fun c => c * decay) (confidence n)) n)).

Definition incident (nodeId : string) (e : edge) : bool :=
  String.eqb (source e) nodeId || String.eqb (target e) nodeId.

Definition _calculateDegreeCentrality (g : graph) (nodeId : string) : Q :=
  let degree := List.length (filter (fun kv => incident nodeId (snd kv)) (edges g)) in
  Qnat degree / Qmax 1 (Qnat (List.length (vertices g) - 1)).

(** What [_updateCommunityStructure] can throw.  It writes a community id
    (not modelled) into every id that [_findConnectedComponent] reaches from
    a vertex, dereferencing [this.vertices.get(id)]; that read fails exactly
    when some edge joins a vertex to an id that is no vertex. *)
Definition half_dangling (g : graph) (e : edge) : bool :=
  xorb (SMap.has (source e) (vertices g)) (SMap.has (target e) (vertices g)).

Definition _updateCommunityStructure : M graph unit :=
  fun g => if existsb (fun kv => half_dangling g (snd kv)) (edges g)
           then Throw g TypeError else Ok g tt.

(** [_adaptTopology] (lines 709-720). *)
Definition _adaptTopology (evidenceId hypothesisId : string) : M graph unit :=
  g1 <- get_state ;;
  update_node evidenceId
    (with_metadata (set_degree_centrality (_calculateDegreeCentrality g1 evidenceId))) ;;;
  g2 <- get_state ;;
  update_node hypothesisId
    (with_metadata (set_degree_centrality (_calculateDegreeCentrality g2 hypothesisId))) ;;;
  _updateCommunityStructure.

Record evidence_result : Type := mk_evidence_result {
  evidence_id : string;
  updated_confidence : list Q
}.

(** [integrateEvidence] (lines 416-511).  [token] is [uuidv4().slice(0, 8)]
    and [decay] the factor the clock yields in [_applyTemporalDecay]. *)
Definition integrateEvidence (hypothesisNodeId : string) (ev : evidence_input)
           (token : string) (decay : Q) : M graph evidence_result :=
  check_stage 3 ;;;
  check_vertex hypothesisNodeId ;;;
  let evidenceId := "e_" ++ token in
  let evidenceMetadata := _createNodeMetadata
    (mk_base_metadata evidenceId
       (Some (str_or (ev_provenance ev) "evidence_integration"))
       (Some (arr_or (ev_confidence ev) [0.7; 0.7; 0.7; 0.7]))
       (Some "evaluated")
       (Some (arr_or (ev_disciplinary_tags ev) []))
       None
       (Some (_detectEvidenceBias ev))
       (Some "empirical")
       (Some (_assessStatisticalPower ev))
       (Some (_assessNovelty ev))
       (Some (num_or (ev_impact_score ev) 0.5))) in
  let evidenceNode :=
    mk_node evidenceId (str_or (ev_title ev) "Evidence") evidence (ev_content ev)
            (arr_or (ev_confidence ev) [0.7; 0.7; 0.7; 0.7]) evidenceMetadata in
  modify (with_vertices (SMap.set evidenceId evidenceNode)) ;;;
  layer_add "empirical" evidenceId ;;;
  let edgeId := "e_" ++ evidenceId ++ "_" ++ hypothesisNodeId in
  let edgeType := str_or (ev_relationship ev) "Supportive" in
  modify (with_edges (SMap.set edgeId
            (mk_edge edgeId evidenceId hypothesisNodeId edgeType
                     (arr_or (ev_edge_confidence ev) [0.8; 0.8; 0.8; 0.8])))) ;;;
  hyp <- get_node hypothesisNodeId ;;
  match _calculateBayesianUpdate ev edgeType with
  | None => throw TypeError
  | Some updateFactor =>
      match update_confidence (confidence hyp) updateFactor with
      | None => throw NotANumber
      | Some c' =>
          update_node hypothesisNodeId (with_confidence c') ;;;
          _checkInterdisciplinaryBridges evidenceId hypothesisNodeId ;;;
          _checkHyperedgeCreation evidenceId ;;;
          _applyTemporalDecay evidenceId decay ;;;
          _adaptTopology evidenceId hypothesisNodeId ;;;
          modify (with_stage 4%nat) ;;;
          hyp' <- get_node hypothesisNodeId ;;
          ret (mk_evidence_result evidenceId (confidence hyp'))
      end
  end.

(** *** Stage 5: pruneAndMergeNodes (lines 810-935) *)

(** [_removeNode] (lines 876-893): the ids of the incident edges are
    collected first and deleted one by one; the node leaves every layer and
    the vertex map. *)
Definition _removeNode (nodeId : string) : M graph unit :=
  modify (fun g =>
    let edgesToRemove := map fst (filter (fun kv => incident nodeId (snd kv)) (edges g)) in
    with_vertices (SMap.delete nodeId)
      (with_layers
         (map (fun l => (fst l, filter (fun x => negb (String.eqb x nodeId)) (snd l))))
         (with_edges (fun es => fold_left (fun m edgeId => SMap.delete edgeId m)
                                          edgesToRemove es) g))).

(** [!node.metadata.falsification_criteria]. *)
Definition lacks_criteria (n : node) : bool :=
  match falsification_criteria (node_metadata n) with
  | None | Some EmptyString => true
  | Some _ => false
  end.

(** [node.confidence.reduce((a, b) => a + b, 0) / 4] (line 827), as the
    doubles compute it: the components are added from the left, each sum is
    rounded, and the divisor is 4 whatever the length is. *)
Definition avgConfidence64 (n : node) : Binary64.number :=
  Binary64.quarter_of_sum (confidence n).

(** [node.metadata.impact_score || 0.5] (line 828). *)
Definition impact_or_half (n : node) : Binary64.number :=
  Binary64.field_or (Some (impact_score (node_metadata n))) 0.5.

(** The test the pruning loop applies to the entry [(nodeId, node)]
    (lines 825-839); the two comparisons are comparisons of doubles. *)
Definition prunable (pruningThreshold : Binary64.number) (nodeId : string) (n : node) : bool :=
  if String.eqb nodeId "n0" then false
  else
    if PrimFloat.ltb (avgConfidence64 n) pruningThreshold
       && PrimFloat.ltb (impact_or_half n) (Binary64.of_decimal 0.3)
    then if node_type_eqb (type n) hypothesis && lacks_criteria n then true
         else if negb (node_type_eqb (type n) hypothesis) then true
         else false
    else false.

(** The loop over [this.vertices.entries()].  The iterator is live, but the
    body deletes the current entry only, so the entries visited are those
    present when the loop starts. *)
Fixpoint prune_loop (pruningThreshold : Binary64.number) (entries : list (string * node))
  : M graph (list string) :=
  match entries with
  | [] => ret []
  | (nodeId, n) :: r =>
      if prunable pruningThreshold nodeId n
      then _removeNode nodeId ;;;
           prunedNodes <- prune_loop pruningThreshold r ;;
           ret (nodeId :: prunedNodes)
      else prune_loop pruningThreshold r
  end.

(** [node1.confidence.map((c1, i) => Math.max(c1, node2.confidence[i]))];
    [None] when [node2.confidence[i]] is missing (the maximum would be NaN). *)
Fixpoint max_components (c1 c2 : list Q) : option (list Q) :=
  match c1, c2 with
  | [], _ => Some []
  | x :: r1, y :: r2 =>
      match max_components r1 r2 with
      | Some r => Some (Qmax x y :: r)
      | None => None
      end
  | _ :: _, [] => None
  end.

(** A content inside a template literal. *)
Definition render (c : option string) : string := default_of c "undefined".

Definition rewire (nodeId1 nodeId2 mergedId : string) (e : edge) : edge :=
  let src := if String.eqb (source e) nodeId1 || String.eqb (source e) nodeId2
             then mergedId else source e in
  let tgt := if String.eqb (target e) nodeId1 || String.eqb (target e) nodeId2
             then mergedId else target e in
  mk_edge (edge_id e) src tgt (edge_type e) (edge_confidence e).

(** [_mergeNodes] (lines 895-935). *)
Definition _mergeNodes (nodeId1 nodeId2 : string) : M graph string :=
  node1 <- get_node nodeId1 ;;
  node2 <- get_node nodeId2 ;;
  let mergedId := "merged_" ++ nodeId1 ++ "_" ++ nodeId2 in
  match max_components (confidence node1) (confidence node2) with
  | None => throw NotANumber
  | Some maxima =>
      let mergedMetadata := _createNodeMetadata
        (mk_base_metadata mergedId (Some "node_merging") (Some maxima) None
           (Some (set_of (disciplinary_tags (node_metadata node1)
                          ++ disciplinary_tags (node_metadata node2))%list))
           None None None None None
           (Some (Qmax (impact_score (node_metadata node1))
                       (impact_score (node_metadata node2))))) in
      let mergedNode :=
        mk_node mergedId (label node1 ++ " + " ++ label node2) (type node1)
                (Some (render (content node1) ++ " | " ++ render (content node2)))
                (md_confidence mergedMetadata) mergedMetadata in
      modify (with_edges (map (fun kv => (fst kv, rewire nodeId1 nodeId2 mergedId (snd kv))))) ;;;
      _removeNode nodeId1 ;;;
      _removeNode nodeId2 ;;;
      modify (with_vertices (SMap.set mergedId mergedNode)) ;;;
      ret mergedId
  end.

Record merge_record : Type := mk_merge_record {
  merged_id : string;
  original : list string
}.

(** The inner loop of the merging pass (lines 845-858) for a fixed [i]:
    [rest] is [remainingNodes] from index [j] on; the result is what is left
    of it after the splices, with the merges recorded.  Reading [.type] off a
    vertex that is no longer in the map throws. *)
Fixpoint merge_inner (mergingThreshold : Q) (id_i : string) (rest : list string)
  : M graph (list string * list merge_record) :=
  match rest with
  | [] => ret ([], [])
  | id_j :: r =>
      g <- get_state ;;
      match SMap.get id_i (vertices g), SMap.get id_j (vertices g) with
      | Some node1, Some node2 =>
          if node_type_eqb (type node1) (type node2)
          then
            match _calculateSemanticSimilarity (content node1) (content node2) with
            | None => throw TypeError
            | Some similarity =>
                if Qle_bool mergingThreshold similarity
                then
                  mergedId <- _mergeNodes id_i id_j ;;
                  out <- merge_inner mergingThreshold id_i r ;;
                  ret (fst out, mk_merge_record mergedId [id_i; id_j] :: snd out)
                else
                  out <- merge_inner mergingThreshold id_i r ;;
                  ret (id_j :: fst out, snd out)
            end
          else
            out <- merge_inner mergingThreshold id_i r ;;
            ret (id_j :: fst out, snd out)
      | _, _ => throw TypeError
      end
  end.

(** The outer loop (line 844): [remaining] is [remainingNodes] from index [i]
    on.  Each round consumes one element and the inner loop never lengthens
    the list, so [fuel = length remaining] rounds suffice. *)
Fixpoint merge_outer (fuel : nat) (mergingThreshold : Q) (remaining : list string)
  : M graph (list merge_record) :=
  match fuel, remaining with
  | S fuel', id_i :: rest =>
      out <- merge_inner mergingThreshold id_i rest ;;
      more <- merge_outer fuel' mergingThreshold (fst out) ;;
      ret (snd out ++ more)%list
  | _, _ => ret []
  end.

Record prune_result : Type := mk_prune_result {
  pruned_nodes : list string;
  merged_nodes : list merge_record
}.

Definition pruneAndMergeNodes (config_pruning_threshold config_merging_threshold : option Q)
  : M graph prune_result :=
  check_stage 4 ;;;
  let pruningThreshold := Binary64.field_or config_pruning_threshold 0.2 in
  let mergingThreshold := num_or config_merging_threshold 0.8 in
  g <- get_state ;;
  prunedNodes <- prune_loop pruningThreshold (vertices g) ;;
  g' <- get_state ;;
  let remainingNodes := SMap.keys (vertices g') in
  mergedNodes <- merge_outer (List.length remainingNodes) mergingThreshold remainingNodes ;;
  modify (with_stage 5%nat) ;;;
  ret (mk_prune_result prunedNodes mergedNodes).

(** *** Stage 6: extractSubgraphs (lines 938-1035) *)

Definition type_name (t : node_type) : string :=
  match t with
  | root => "root" | dimension => "dimension" | hypothesis => "hypothesis"
  | evidence => "evidence" | bridge => "bridge"
  end.

Record criteria : Type := mk_criteria {
  confidence_threshold : option Q;
  impact_threshold : option Q;
  node_types : option (list string);
  edge_patterns : option (list string);
  discipline_focus : option (list string);
  layer_filter : option (list string);
  include_bridges : option bool
}.

Record topology : Type := mk_topology {
  density : Q;
  average_degree : Q;
  node_count : nat;
  edge_count : nat
}.

(** [_calculateSubgraphTopology] (lines 1024-1035), on the two selected sets. *)
Definition _calculateSubgraphTopology (nodes edges : list string) : topology :=
  let nodeCount := List.length nodes in
  let edgeCount := List.length edges in
  mk_topology
    (if (1 <? nodeCount)%nat
     then (2 * Qnat edgeCount) / (Qnat nodeCount * (Qnat nodeCount - 1))
     else 0)
    (if (0 <? nodeCount)%nat then (2 * Qnat edgeCount) / Qnat nodeCount else 0)
    nodeCount edgeCount.

Definition empty_or_includes (l : list string) (x : string) : bool :=
  (List.length l =? 0)%nat || mem x l.

(** The body of the selection loop (lines 960-983) for one entry. *)
Definition select_node (cr : criteria) (selectedNodes : list string)
           (nodeId : string) (n : node) : list string :=
  let avgConfidence := sum (confidence n) / 4 in
  let impact := num_or (Some (impact_score (node_metadata n))) 0.5 in
  let s1 :=
    if Qle_bool (default_of (confidence_threshold cr) 0.5) avgConfidence
       && Qle_bool (default_of (impact_threshold cr) 0.6) impact
       && empty_or_includes (default_of (node_types cr) []) (type_name (type n))
       && empty_or_includes (default_of (layer_filter cr) []) (layer_id (node_metadata n))
       && ((List.length (default_of (discipline_focus cr) []) =? 0)%nat
           || existsb (fun tag => mem tag (default_of (discipline_focus cr) []))
                      (disciplinary_tags (node_metadata n)))
    then set_add selectedNodes nodeId else selectedNodes in
  if default_of (include_bridges cr) true && node_type_eqb (type n) bridge
  then set_add s1 nodeId else s1.

Definition select_edge (cr : criteria) (selectedNodes selectedEdges : list string)
           (edgeId : string) (e : edge) : list string :=
  if mem (source e) selectedNodes && mem (target e) selectedNodes
     && empty_or_includes (default_of (edge_patterns cr) []) (edge_type e)
  then set_add selectedEdges edgeId else selectedEdges.

Record subgraph : Type := mk_subgraph {
  sg_nodes : list (option node);
  sg_edges : list (option edge);
  total_nodes_selected : nat;
  total_edges_selected : nat;
  topology_metrics : topology
}.

Definition extractSubgraphs (cr : criteria) : M graph subgraph :=
  check_stage 5 ;;;
  g <- get_state ;;
  let selectedNodes :=
    fold_left (fun acc kv => select_node cr acc (fst kv) (snd kv)) (vertices g) [] in
  let selectedEdges :=
    fold_left (fun acc kv => select_edge cr selectedNodes acc (fst kv) (snd kv)) (edges g) [] in
  let sg :=
    mk_subgraph (map (fun id => SMap.get id (vertices g)) selectedNodes)
                (map (fun id => SMap.get id (edges g)) selectedEdges)
                (List.length selectedNodes) (List.length selectedEdges)
                (_calculateSubgraphTopology selectedNodes selectedEdges) in
  modify (with_stage 6%nat) ;;;
  ret sg.

End Backup.

(** ** src/server/index-corrected.js, lines 22-461: class ASRGoTGraph

    This variant stops after stage 3 ("Stage 4-8 implementations would follow
    here"). *)

Module Corrected.

Import Js Args.

Inductive node_type : Type := root | dimension | hypothesis.

(** [_createProbabilityDistribution] (lines 151-160); the remaining fields of
    the object are constants. *)
Record distribution : Type := mk_distribution {
  means : list Q;
  variances : list Q
}.

Definition _createProbabilityDistribution (means : list Q) : distribution :=
  mk_distribution means (map (fun m => m * (1 - m)) means).

Record metadata : Type := mk_metadata {
  md_node_id : string;
  provenance : string;
  md_confidence : distribution;
  epistemic_status : string;
  disciplinary_tags : list string;
  falsification_criteria : option string;
  bias_flags : list string;
  layer_id : string;
  impact_score : Q
}.

Record node : Type := mk_node {
  node_id : string;
  label : string;
  type : node_type;
  content : option string;
  confidence : distribution;
  node_metadata : metadata
}.

Record edge : Type := mk_edge {
  edge_id : string;
  source : string;
  target : string;
  edge_type : string;
  edge_confidence : distribution
}.

Record graph : Type := mk_graph {
  vertices : list (string * node);
  edges : list (string * edge);
  layers : list (string * list string);
  currentStage : nat
}.

Definition with_vertices (f : list (string * node) -> list (string * node)) (g : graph) : graph :=
  mk_graph (f (vertices g)) (edges g) (layers g) (currentStage g).

Definition with_edges (f : list (string * edge) -> list (string * edge)) (g : graph) : graph :=
  mk_graph (vertices g) (f (edges g)) (layers g) (currentStage g).

Definition with_layers (f : list (string * list string) -> list (string * list string))
           (g : graph) : graph :=
  mk_graph (vertices g) (edges g) (f (layers g)) (currentStage g).

Definition with_stage (n : nat) (g : graph) : graph :=
  mk_graph (vertices g) (edges g) (layers g) n.

Definition _initializeLayerStructure : list (string * list string) :=
  [("base", []); ("methodological", []); ("empirical", []);
   ("theoretical", []); ("interdisciplinary", [])].

(** [new ASRGoTGraph(config)]: this variant starts at [currentStage = 0]. *)
Definition new_graph (enable_multi_layer : bool) : graph :=
  mk_graph [] [] (if enable_multi_layer then _initializeLayerStructure else []) 0%nat.

Definition layer_add (lid nid : string) : M graph unit :=
  fun g => match SMap.get lid (layers g) with
           | None => Throw g TypeError
           | Some ns => Ok (with_layers (SMap.set lid (set_add ns nid)) g) tt
           end.

Definition check_stage (expected : nat) : M graph unit :=
  fun g => if (currentStage g =? expected)%nat then Ok g tt
           else Throw g (StageError (currentStage g) expected).

Definition check_vertex (id : string) : M graph unit :=
  fun g => if SMap.has id (vertices g) then Ok g tt else Throw g (NotFound id).

(** *** Stage 1: initialize (lines 207-254) *)
Definition initialize (taskDescription : string) (initialConfidence : option (list Q))
           (config_disciplinary_tags : option (list string)) : M graph string :=
  check_stage 0 ;;;
  let initialConfidence := arr_or initialConfidence [0.8; 0.8; 0.8; 0.8] in
  let rootNodeMetadata :=
    mk_metadata "n0" "user_input" (_createProbabilityDistribution initialConfidence)
                "accepted" (arr_or config_disciplinary_tags ["immunology"; "dermatology"])
                None [] "base" 0.8 in
  let rootNode :=
    mk_node "n0" "Task Understanding" root (Some taskDescription)
            (_createProbabilityDistribution initialConfidence) rootNodeMetadata in
  modify (with_vertices (SMap.set "n0" rootNode)) ;;;
  layer_add "base" "n0" ;;;
  modify (with_stage 1%nat) ;;;
  ret "n0".

(** *** Stage 2: decomposeTask (lines 257-332) *)

Definition defaultDimensions : list string :=
  ["Scope"; "Objectives"; "Constraints"; "Data Needs";
   "Use Cases"; "Potential Biases"; "Knowledge Gaps"].

Definition _inferDisciplinaryTags (dim : string) : list string :=
  if String.eqb dim "Scope" then ["methodology"; "research_design"]
  else if String.eqb dim "Objectives" then ["goals"; "outcomes"]
  else if String.eqb dim "Constraints" then ["limitations"; "resources"]
  else if String.eqb dim "Data Needs" then ["data_science"; "methodology"]
  else if String.eqb dim "Use Cases" then ["application"; "translation"]
  else if String.eqb dim "Potential Biases" then ["methodology"; "bias_detection"]
  else if String.eqb dim "Knowledge Gaps" then ["knowledge_discovery"; "research_gaps"]
  else ["general"].

Definition decompose_body (dim : string) (index : nat) : M graph string :=
  let nodeId := "2." ++ string_of_nat (index + 1) in
  let dimensionMetadata :=
    mk_metadata nodeId "task_decomposition"
                (_createProbabilityDistribution [0.8; 0.8; 0.8; 0.8]) "pending"
                (_inferDisciplinaryTags dim) None [] "base" 0.6 in
  let dimensionNode :=
    mk_node nodeId dim dimension
            (Some ("Analysis of " ++ dim ++ " aspects of the research task"))
            (_createProbabilityDistribution [0.8; 0.8; 0.8; 0.8]) dimensionMetadata in
  modify (with_vertices (SMap.set nodeId dimensionNode)) ;;;
  layer_add "base" nodeId ;;;
  let edgeId := "e_n0_" ++ nodeId in
  modify (with_edges (SMap.set edgeId
            (mk_edge edgeId "n0" nodeId "Decomposition"
                     (_createProbabilityDistribution [0.9; 0.9; 0.9; 0.9])))) ;;;
  ret nodeId.

Fixpoint collect_from {A : Type} (body : A -> nat -> M graph string)
         (l : list A) (index : nat) : M graph (list string) :=
  match l with
  | [] => ret []
  | x :: r =>
      id <- body x index ;;
      ids <- collect_from body r (S index) ;;
      ret (id :: ids)
  end.

Definition decomposeTask (customDimensions : option (list string)) : M graph (list string) :=
  check_stage 1 ;;;
  let taskDimensions := arr_or customDimensions defaultDimensions in
  dimensionNodes <- collect_from decompose_body taskDimensions 0%nat ;;
  modify (with_stage 2%nat) ;;;
  ret dimensionNodes.

(** *** Stage 3: generateHypotheses (lines 349-430) *)

Definition _assessInitialBiasRisk (h : hypothesis_input) : M graph (list string) :=
  match content_or_self h with
  | None => throw TypeError
  | Some c =>
      let content := toLowerCase c in
      ret ((if includes content "always" || includes content "never"
            then ["absolute_thinking"] else [])
           ++ (if includes content "obvious" || includes content "clearly"
               then ["confirmation_bias_risk"] else [])
           ++ (if includes content "proven" || includes content "definitively"
               then ["overconfidence_bias"] else []))%list
  end.

(** [dimensionNodeId.split('.')[1]] inside a template literal. *)
Definition dimension_number (dimensionNodeId : string) : string :=
  nth 1 (split_on "." dimensionNodeId) "undefined".

Definition hypothesis_body (dimensionNodeId : string) (h : hypothesis_input) (index : nat)
  : M graph string :=
  let dimensionNumber := dimension_number dimensionNodeId in
  let nodeId := "3." ++ dimensionNumber ++ "." ++ string_of_nat (index + 1) in
  let f := fields_of h in
  biasFlags <- _assessInitialBiasRisk h ;;
  let hypothesisMetadata :=
    mk_metadata nodeId "hypothesis_generation"
                (_createProbabilityDistribution (arr_or (h_confidence f) [0.5; 0.5; 0.5; 0.5]))
                "hypothetical" (arr_or (h_disciplinary_tags f) [])
                (str_or_null (h_falsification_criteria f)) biasFlags "theoretical"
                (num_or (h_impact_score f) 0.6) in
  let hypothesisNode :=
    mk_node nodeId ("Hypothesis " ++ dimensionNumber ++ "." ++ string_of_nat (index + 1))
            hypothesis (content_or_self h) (md_confidence hypothesisMetadata)
            hypothesisMetadata in
  modify (with_vertices (SMap.set nodeId hypothesisNode)) ;;;
  layer_add "theoretical" nodeId ;;;
  let edgeId := "e_" ++ dimensionNodeId ++ "_" ++ nodeId in
  modify (with_edges (SMap.set edgeId
            (mk_edge edgeId dimensionNodeId nodeId "Hypothesis"
                     (_createProbabilityDistribution [0.8; 0.8; 0.8; 0.8])))) ;;;
  ret nodeId.

(** [Math.min(config.max_hypotheses || 5, 5)] (line 361). *)
Definition maxHypotheses (config_max_hypotheses : option Q) : Q :=
  Qmin (num_or (option_map Binary64.parsed config_max_hypotheses) 5) 5.

Definition generateHypotheses (dimensionNodeId : string) (hypotheses : list hypothesis_input)
           (config_max_hypotheses : option Q) : M graph (list string) :=
  check_stage 2 ;;;
  check_vertex dimensionNodeId ;;;
  hypothesisNodes <-
    collect_from (hypothesis_body dimensionNodeId)
                 (slice_to (maxHypotheses config_max_hypotheses) hypotheses) 0%nat ;;
  modify (with_stage 3%nat) ;;;
  ret hypothesisNodes.

End Corrected.

(** ** src/server/index-corrected.js, lines 1968-2044 and 3672-3686:
       the checks on [initial_confidence] in the last server variant *)

Module Hardened.

(** [InputValidator.validateArray(value, fieldName, {maxItems, minItems})]. *)
Definition validateArray (value : list Q) (fieldName : string) (maxItems minItems : nat)
  : option error :=
  if (negb (maxItems =? 0) && (maxItems <? List.length value))%nat
  then Some (InvalidParams fieldName)
  else if (negb (minItems =? 0) && (List.length value <? minItems))%nat
  then Some (InvalidParams fieldName)
  else None.

(** [InputValidator.validateNumber(value, fieldName, {min, max})]. *)
Definition validateNumber (value : Q) (fieldName : string) (min max : Q) : option error :=
  if Js.Qltb value min then Some (InvalidParams fieldName)
  else if Js.Qltb max value then Some (InvalidParams fieldName)
  else None.

(** [args.initial_confidence.forEach((val, idx) => validateNumber(val,
    `initial_confidence[${idx}]`, {min: 0, max: 1}))]: the first failing
    element throws. *)
Fixpoint validate_each (l : list Q) (idx : nat) : option error :=
  match l with
  | [] => None
  | val :: r =>
      match validateNumber val ("initial_confidence[" ++ Js.string_of_nat idx ++ "]") 0 1 with
      | Some e => Some e
      | None => validate_each r (S idx)
      end
  end.

(** The guard of the [initialize_asr_got_graph] handler (lines 3678-3685);
    an absent argument is not checked. *)
Definition validate_initial_confidence (initial_confidence : option (list Q)) : option error :=
  match initial_confidence with
  | None => None
  | Some l =>
      match validateArray l "initial_confidence" 4 4 with
      | Some e => Some e
      | None => validate_each l 0
      end
  end.

End Hardened.

(** ** The specification's wording of the properties that are compared with
       the code *)

Module Spec.

Import Js.

(** Section 4.3, step 3: the relationship multiplier [m]. *)
Definition multiplier (relationship : string) : Q :=
  if String.eqb relationship "Supportive" then 1
  else if String.eqb relationship "Contradictory" then -1
  else if String.eqb relationship "Correlative" then 0.5
  else if String.eqb relationship "Causal" then 1.2
  else 0.3.

(** Section 4.3, step 3: [delta = evidenceStrength * power * noveltyScore * 0.3 * m]. *)
Definition delta (evidenceStrength power noveltyScore : Q) (relationship : string) : Q :=
  evidenceStrength * power * noveltyScore * 0.3 * multiplier relationship.

(** Section 4.3, step 3: [c' = clamp(c * (1 + delta), 0.01, 0.99)]. *)
Definition updated_component (c d : Q) : Q := Qmin 0.99 (Qmax 0.01 (c * (1 + d))).

(** Section 8, confidence bounds after an update. *)
Definition in_update_range (c : Q) : Prop := 0.01 <= c /\ c <= 0.99.

Definition in_unit_interval (c : Q) : Prop := 0 <= c /\ c <= 1.

(** Section 4.4, pruning: mean confidence below the threshold and impact
    below 0.3, except that a hypothesis without falsification criteria goes
    on the confidence test alone; the root is exempt. *)
Definition prunes (pruningThreshold : Q) (nodeId : string) (n : Backup.node) : bool :=
  negb (String.eqb nodeId "n0")
  && Qltb (sum (Backup.confidence n) / 4) pruningThreshold
  && (Qltb (Backup.impact_score (Backup.node_metadata n)) 0.3
      || (Backup.node_type_eqb (Backup.type n) Backup.hypothesis
          && Backup.lacks_criteria n)).

End Spec.

(** ** Concrete sessions used as inputs *)

Module Session.

Import Args Backup.

Definition plain (text : string) (tags : list string) : hypothesis_input :=
  HObject (mk_hypothesis_fields (Some text) None (Some tags) None None).

(** Three hypotheses, the first two with the same text. *)
Definition similar_hypotheses : list hypothesis_input :=
  [plain "skin immune response" ["immunology"];
   plain "skin immune response" ["immunology"];
   plain "other idea entirely" ["immunology"]].

(** Four hypotheses with distinct texts; the second has a low confidence,
    the default impact 0.6 and no falsification criteria; the third has a low
    confidence, impact 0.1 and a falsification criterion; the fourth has a low
    confidence, impact 0.1 and no falsification criteria. *)
Definition weak_hypotheses : list hypothesis_input :=
  [plain "alpha mechanism drives response" ["immunology"];
   HObject (mk_hypothesis_fields (Some "beta pathway is irrelevant")
              (Some [0.05; 0.05; 0.05; 0.05]) (Some ["immunology"]) None None);
   HObject (mk_hypothesis_fields (Some "gamma signal")
              (Some [0.05; 0.05; 0.05; 0.05]) (Some ["immunology"])
              (Some "no gamma signal in the knockout") (Some 0.1));
   HObject (mk_hypothesis_fields (Some "delta claim")
              (Some [0.05; 0.05; 0.05; 0.05]) (Some ["immunology"]) None (Some 0.1))].

(** initialize, decomposeTask with the default dimensions, generateHypotheses
    on the first dimension. *)
Definition after_hypotheses (hs : list hypothesis_input) : outcome graph (list string) :=
  (initialize "Study X" (Some [0.8; 0.8; 0.8; 0.8]) None ;;;
   decomposeTask None ;;;
   generateHypotheses "n2.1" hs None) (new_graph true).

Definition evidence_with (text : string) (conf : list Q) (tags : list string)
  : evidence_input :=
  mk_evidence_input None (Some text) (Some conf) (Some "Supportive") None (Some tags)
                    None None None None None.

(** Evidence whose tag set is disjoint from the hypothesis's and whose text
    shares three of four words with it. *)
Definition observed : evidence_input :=
  evidence_with "skin immune response observed" [0.9; 0.9; 0.9; 0.9] ["machine_learning"].

(** Evidence whose two words are both longer than six characters. *)
Definition novel : evidence_input :=
  evidence_with "immunology dermatology" [0.9; 0.9; 0.9; 0.9] ["immunology"].

(** Evidence with one small confidence component. *)
Definition faint : evidence_input :=
  evidence_with "skin immune response observed" [0.005; 0.5; 0.5; 0.5] ["immunology"].

Definition stage3_similar : graph := state_of (after_hypotheses similar_hypotheses).
Definition stage3_weak : graph := state_of (after_hypotheses weak_hypotheses).

(** The first call of integrateEvidence in a session. *)
Definition first_call (g : graph) (hyp : string) (ev : evidence_input) :=
  integrateEvidence hyp ev "abcd1234" 1 g.

Definition stage4_similar : graph := state_of (first_call stage3_similar "h_n2.1_1" observed).
Definition stage4_weak : graph := state_of (first_call stage3_weak "h_n2.1_1" observed).

(** Two rounds of stages 1 to 4 on one graph, each integrating the same
    evidence under a fresh token. *)
Definition two_rounds : graph :=
  state_of
    ((initialize "Study X" None None ;;;
      decomposeTask None ;;;
      generateHypotheses "n2.1" weak_hypotheses None ;;;
      integrateEvidence "h_n2.1_1" observed "abcd5678" 1) stage4_weak).

(** A stage-5 graph whose three vertices are pairwise linked, and one whose
    three vertices form a path. *)
Definition vertex (id : string) : string * node :=
  (id, mk_node id id dimension (Some id) [0.8; 0.8; 0.8; 0.8]
         (_createNodeMetadata
            (mk_base_metadata id None (Some [0.8; 0.8; 0.8; 0.8]) None None None None None
                              None None (Some 0.6)))).

Definition link (id a b : string) : string * edge :=
  (id, mk_edge id a b "Correlative" [0.8; 0.8; 0.8; 0.8]).

Definition triangle : graph :=
  mk_graph [vertex "a"; vertex "b"; vertex "c"]
           [link "ab" "a" "b"; link "bc" "b" "c"; link "ca" "c" "a"]
           [] _initializeLayers 5%nat.

Definition path : graph :=
  mk_graph [vertex "a"; vertex "b"; vertex "c"]
           [link "ab" "a" "b"; link "bc" "b" "c"]
           [] _initializeLayers 5%nat.

Definition no_criteria : criteria := mk_criteria None None None None None None None.




End Session.

(** ** Vocabulary of the statements below *)

Module View.

Import Js Backup.

(** Component-wise maximum of two vectors of the same length. *)
Definition pairwise_max (c1 c2 : list Q) : list Q :=
  map (fun p => Qmax (fst p) (snd p)) (combine c1 c2).

(** The node [_mergeNodes] builds from two nodes whose confidence vectors have
    the same length. *)
Definition merged_node (id1 id2 : string) (n1 n2 : node) : node :=
  let mergedId := "merged_" ++ id1 ++ "_" ++ id2 in
  let mergedMetadata := _createNodeMetadata
    (mk_base_metadata mergedId (Some "node_merging")
       (Some (pairwise_max (confidence n1) (confidence n2))) None
       (Some (set_of (disciplinary_tags (node_metadata n1)
                      ++ disciplinary_tags (node_metadata n2))%list))
       None None None None None
       (Some (Qmax (impact_score (node_metadata n1)) (impact_score (node_metadata n2))))) in
  mk_node mergedId (label n1 ++ " + " ++ label n2) (type n1)
          (Some (render (content n1) ++ " | " ++ render (content n2)))
          (md_confidence mergedMetadata) mergedMetadata.

(** Every edge with its endpoints rewired, under its own id. *)
Definition rewired (id1 id2 mergedId : string) (es : list (string * edge))
  : list (string * edge) :=
  map (fun kv => (fst kv, rewire id1 id2 mergedId (snd kv))) es.

(** The confidence vector stored under an id. *)
Definition conf_at (g : graph) (k : string) : option (list Q) :=
  option_map confidence (SMap.get k (vertices g)).

(** The edge does not touch the node. *)
Definition untouched (nodeId : string) (kv : string * edge) : bool :=
  negb (incident nodeId (snd kv)).

(** The ids the pruning test selects among the entries, and the edges that
    touch one of a list of ids. *)
Definition pruned_of (thr : Binary64.number) (entries : list (string * node)) : list string :=
  map fst (filter (fun kv => prunable thr (fst kv) (snd kv)) entries).

Definition touched_by (ids : list string) (kv : string * edge) : bool :=
  existsb (fun id => incident id (snd kv)) ids.

End View.

(** ** src/server/index-backup.js, lines 1491-1824: the read-only analyses

    The functions below read the graph and change nothing, so they are plain
    functions of the graph.  A JavaScript object used as a counter table is an
    association list in the order in which the keys were first written. *)

Module Analysis.

Import Js Args Backup.

(** [node.confidence.reduce((a, b) => a + b, 0) / 4]. *)
Definition avgConfidence (n : node) : Q := sum (confidence n) / 4.

(** [node.metadata.impact_score || 0.5]. *)
Definition impact_or_default (n : node) : Q :=
  num_or (Some (impact_score (node_metadata n))) 0.5.

(** [table[key] = (table[key] || 0) + 1]. *)
Definition count_up (table : list (string * nat)) (key : string) : list (string * nat) :=
  SMap.set key (S (default_of (SMap.get key table) 0%nat)) table.

(** [_getLayerDistribution] (lines 1524-1530). *)
Definition _getLayerDistribution (g : graph) : list (string * nat) :=
  fold_left (fun distribution l => SMap.set (fst l) (List.length (snd l)) distribution)
            (layers g) [].

(** [_getNodeTypeBreakdown] (lines 1532-1538). *)
Definition _getNodeTypeBreakdown (g : graph) : list (string * nat) :=
  fold_left (fun breakdown kv => count_up breakdown (type_name (type (snd kv))))
            (vertices g) [].

(** [_getNeighbors] (lines 1570-1577): a self-loop pushes the id itself,
    twice; the set removes the repetitions. *)
Definition _getNeighbors (g : graph) (nodeId : string) : list string :=
  set_of (flat_map (fun kv =>
                      ((if String.eqb (source (snd kv)) nodeId then [target (snd kv)] else [])
                       ++ (if String.eqb (target (snd kv)) nodeId then [source (snd kv)] else []))%list)
                   (edges g)).

(** [_countEdgesBetweenNodes] (lines 1579-1587). *)
Definition _countEdgesBetweenNodes (g : graph) (nodeIds : list string) : nat :=
  List.length (filter (fun kv => mem (source (snd kv)) nodeIds && mem (target (snd kv)) nodeIds)
                      (edges g)).

(** The body of the loop of [_calculateClusteringCoefficient] for one vertex:
    the pair [(totalCoeff, nodeCount)] after the round. *)
Definition clustering_round (g : graph) (acc : Q * nat) (nodeId : string) : Q * nat :=
  let neighbors := _getNeighbors g nodeId in
  if (2 <=? List.length neighbors)%nat
  then
    let possibleEdges := Qnat (List.length neighbors) * (Qnat (List.length neighbors) - 1) / 2 in
    let actualEdges := _countEdgesBetweenNodes g neighbors in
    (fst acc + Qnat actualEdges / possibleEdges, S (snd acc))
  else acc.

(** [_calculateClusteringCoefficient] (lines 1552-1568). *)
Definition _calculateClusteringCoefficient (g : graph) : Q :=
  let result := fold_left (clustering_round g) (SMap.keys (vertices g)) (0, 0%nat) in
  if (0 <? snd result)%nat then fst result / Qnat (snd result) else 0.

Record topology_metrics : Type := mk_topology_metrics {
  tm_density : Q;
  tm_average_degree : Q;
  clustering_coefficient : Q
}.

(** [_getTopologyMetrics] (lines 1540-1550). *)
Definition _getTopologyMetrics (g : graph) : topology_metrics :=
  let nodes := List.length (vertices g) in
  let edges := List.length (edges g) in
  mk_topology_metrics
    (if (1 <? nodes)%nat then (2 * Qnat edges) / (Qnat nodes * (Qnat nodes - 1)) else 0)
    (if (0 <? nodes)%nat then (2 * Qnat edges) / Qnat nodes else 0)
    (_calculateClusteringCoefficient g).

Record impact_distribution : Type := mk_impact_distribution {
  high_impact : nat;
  medium_impact : nat;
  low_impact : nat
}.

(** [_getImpactDistribution] (lines 1607-1615). *)
Definition _getImpactDistribution (g : graph) : impact_distribution :=
  let impacts := map (fun kv => impact_or_default (snd kv)) (vertices g) in
  mk_impact_distribution
    (List.length (filter (fun i => Qle_bool 0.7 i) impacts))
    (List.length (filter (fun i => Qle_bool 0.4 i && Qltb i 0.7) impacts))
    (List.length (filter (fun i => Qltb i 0.4) impacts)).

(** [_countBiasFlags] (lines 1617-1623). *)
Definition _countBiasFlags (g : graph) : nat :=
  fold_left (fun total kv => (total + List.length (bias_flags (node_metadata (snd kv))))%nat)
            (vertices g) 0%nat.

(** [h.metadata.falsification_criteria] as a condition. *)
Definition has_criteria (n : node) : bool := negb (lacks_criteria n).

(** [_assessFalsifiabilityCoverage] (lines 1625-1629). *)
Definition _assessFalsifiabilityCoverage (g : graph) : Q :=
  let hypotheses :=
    filter (fun n => node_type_eqb (type n) hypothesis) (map snd (vertices g)) in
  let withCriteria := List.length (filter has_criteria hypotheses) in
  if (0 <? List.length hypotheses)%nat
  then Qnat withCriteria / Qnat (List.length hypotheses)
  else 1.

(** An element of the result of [_identifyKnowledgeGaps]; its [gap_type] is
    the constant 'high_impact_low_confidence'. *)
Record gap : Type := mk_gap {
  gap_node_id : string;
  gap_confidence : Q;
  gap_impact : Q
}.

(** [_identifyKnowledgeGaps] (lines 1686-1700). *)
Definition _identifyKnowledgeGaps (g : graph) : list gap :=
  flat_map (fun kv =>
              let node := snd kv in
              if Qltb (avgConfidence node) 0.4 && Qltb 0.6 (impact_score (node_metadata node))
              then [mk_gap (node_id node) (avgConfidence node) (impact_score (node_metadata node))]
              else [])
           (vertices g).

(** An element of [args.interventions] of the tool plan_interventions. *)
Record intervention : Type := mk_intervention {
  iv_name : string;
  iv_target_nodes : option (list string);
  iv_cost : option Q;
  iv_expected_confidence_change : option (list Q)
}.

(** [_calculateEVoI] (lines 1800-1824): an id that is no vertex adds nothing. *)
Definition _calculateEVoI (g : graph) (iv : intervention) : Q :=
  let baseCost := num_or (iv_cost iv) 1 in
  let expectedConfidenceChange :=
    arr_or (iv_expected_confidence_change iv) [0.1; 0.1; 0.1; 0.1] in
  let targetNodes := arr_or (iv_target_nodes iv) [] in
  let totalValue :=
    fold_left
      (fun totalValue nodeId =>
         match SMap.get nodeId (vertices g) with
         | Some node =>
             let currentConfidence := avgConfidence node in
             let expectedImprovement := sum expectedConfidenceChange / 4 in
             let impactWeight := impact_or_default node in
             let uncertaintyReduction := Qmax 0 (1 - currentConfidence) in
             totalValue + expectedImprovement * impactWeight * uncertaintyReduction
         | None => totalValue
         end)
      targetNodes 0 in
  if Qltb 0 baseCost then Qmin 1 (totalValue / baseCost) else 0.

End Analysis.

(** ** src/server/index-backup.js, lines 2270-2632: the tool-call handler

    The session is the module variable [currentGraph]: [None] is [null].  A
    request carries the arguments its schema requires; the identifier token
    and the decay factor of an integrate_evidence call come with it.  The
    reply keeps the result object that the handler renders with
    [JSON.stringify], not the text.  The requests are those of the six
    stage tools that the class implements over this model and of three
    analyses; compose_output, perform_reflection_audit,
    analyze_causal_relationships and detect_temporal_patterns read the causal
    and temporal annotations of the edges and the attribution of the nodes,
    get_graph_summary takes a square root, export_graph_data prints text:
    they have no request here, and neither has estimate_research_impact. *)

Module Server.

Import Js Args Backup Analysis.

(** The [McpError] codes the handler throws.  Any other error thrown inside
    the [switch] is caught and rethrown as [InternalError]. *)
Inductive mcp_error : Type :=
| InvalidParams
| InvalidRequest
| InternalError (cause : error).

(** [args.config] of initialize_asr_got_graph. *)
Record init_config : Type := mk_init_config {
  enable_multi_layer : option bool;
  cfg_disciplinary_tags : option (list string)
}.

Definition no_config : init_config := mk_init_config None None.

(** [criteria = {}], the default of the parameter of [extractSubgraphs]. *)
Definition no_criteria : criteria := mk_criteria None None None None None None None.

(** An element of [ranked_interventions]: the intervention with its score and
    its priority label. *)
Record ranked : Type := mk_ranked {
  rk_intervention : intervention;
  evoi : Q;
  priority : string
}.

(** The result of plan_interventions without its [recommendations], whose
    text prints the top score with [toFixed]. *)
Record intervention_plan : Type := mk_intervention_plan {
  total_interventions : nat;
  ranked_interventions : list ranked;
  total_evoi : Q
}.

Record gap_analysis : Type := mk_gap_analysis {
  knowledge_gaps : list gap;
  total_gaps : nat;
  critical_gaps : nat
}.

Record bias_analysis : Type := mk_bias_analysis {
  total_bias_flags : nat;
  bias_by_node : list (string * list string);
  bias_types : list (string * nat);
  recommendations : list string
}.

Inductive request : Type :=
| initialize_asr_got_graph (task_description : option string)
                           (initial_confidence : option (list Q))
                           (config : option init_config)
| decompose_research_task (dimensions : option (list string))
| generate_hypotheses (dimension_node_id : string) (hypotheses : list hypothesis_input)
                      (max_hypotheses : option Q)
| integrate_evidence (hypothesis_node_id : string) (evidence : evidence_input)
                     (token : string) (decay : Q)
| prune_and_merge_nodes (pruning_threshold merging_threshold : option Q)
| extract_subgraphs (criteria : option criteria)
| analyze_knowledge_gaps (impact_threshold confidence_threshold : option Q)
| detect_biases
| plan_interventions (interventions : option (list intervention)).

Inductive response : Type :=
| initialized (node_id : string)
| decomposed (dimension_nodes : list string)
| hypotheses_generated (hypothesis_nodes : list string)
| evidence_integrated (result : evidence_result)
| pruned_and_merged (result : prune_result)
| subgraphs_extracted (result : subgraph)
| gaps_analysed (result : gap_analysis)
| biases_detected (result : bias_analysis)
| interventions_planned (result : intervention_plan).

(** What a call leaves: the session, and the result or the error thrown. *)
Record reply : Type := mk_reply {
  session : option graph;
  answer : response + mcp_error
}.

(** A case of the [switch] that calls a method of the graph: without a graph
    it throws [InvalidRequest]; an error of the method reaches the caller as
    [InternalError], and the graph keeps what the method did before it
    threw. *)
Definition on_graph {A : Type} (s : option graph) (method : M graph A) (wrap : A -> response)
  : reply :=
  match s with
  | None => mk_reply None (inr InvalidRequest)
  | Some g =>
      match method g with
      | Ok g' a => mk_reply (Some g') (inl (wrap a))
      | Throw g' e => mk_reply (Some g') (inr (InternalError e))
      end
  end.

(** A case that only reads the graph. *)
Definition on_graph_read (s : option graph) (read : graph -> response) : reply :=
  match s with
  | None => mk_reply None (inr InvalidRequest)
  | Some g => mk_reply (Some g) (inl (read g))
  end.

(** The case analyze_knowledge_gaps (lines 2382-2402). *)
Definition analyze_gaps (impact_threshold confidence_threshold : option Q) (g : graph)
  : gap_analysis :=
  let gaps := _identifyKnowledgeGaps g in
  let filteredGaps :=
    filter (fun gap => Qle_bool (num_or impact_threshold 0.6) (gap_impact gap)
                       && Qle_bool (gap_confidence gap) (num_or confidence_threshold 0.4))
           gaps in
  mk_gap_analysis filteredGaps (List.length gaps) (List.length filteredGaps).

(** The loop of the case detect_biases (lines 2415-2423) for one entry: the
    pair [(bias_by_node, bias_types)] after the round. *)
Definition bias_round (acc : list (string * list string) * list (string * nat))
           (kv : string * node) : list (string * list string) * list (string * nat) :=
  let biases := bias_flags (node_metadata (snd kv)) in
  if (0 <? List.length biases)%nat
  then (SMap.set (fst kv) biases (fst acc), fold_left count_up biases (snd acc))
  else acc.

(** The case detect_biases (lines 2404-2439). *)
Definition detect (g : graph) : bias_analysis :=
  let tables := fold_left bias_round (vertices g) ([], []) in
  mk_bias_analysis
    (_countBiasFlags g) (fst tables) (snd tables)
    (if (0 <? _countBiasFlags g)%nat
     then ["Review and address identified biases";
           "Consider alternative perspectives and methodologies"]
     else []).

(** [ranked_interventions.sort((a, b) => b.evoi - a.evoi)].  The sort of
    JavaScript is stable and the comparison is a total preorder on the
    scores, which fixes the result: it is the one of the insertion sort that
    puts an element before the first element whose score is not above its
    own. *)
Fixpoint insert_ranked (x : ranked) (l : list ranked) : list ranked :=
  match l with
  | [] => [x]
  | y :: r => if Qle_bool (evoi y) (evoi x) then x :: y :: r else y :: insert_ranked x r
  end.

Definition sort_ranked (l : list ranked) : list ranked := fold_right insert_ranked [] l.

(** The case plan_interventions (lines 2579-2620). *)
Definition plan (interventions : option (list intervention)) (g : graph) : intervention_plan :=
  let interventions := arr_or interventions [] in
  let scored :=
    map (fun iv =>
           let evoi := _calculateEVoI g iv in
           mk_ranked iv evoi
                     (if Qltb 0.7 evoi then "high" else if Qltb 0.4 evoi then "medium" else "low"))
        interventions in
  let ranked_interventions := sort_ranked scored in
  mk_intervention_plan (List.length interventions) ranked_interventions
                       (fold_left (fun sum i => sum + evoi i) ranked_interventions 0).

(** The handler. *)
Definition handle (r : request) (s : option graph) : reply :=
  match r with
  | initialize_asr_got_graph task_description initial_confidence config =>
      match str_or_null task_description with
      | None => mk_reply s (inr InvalidParams)
      | Some task =>
          let config := default_of config no_config in
          let fresh :=
            new_graph (match enable_multi_layer config with Some false => false | _ => true end) in
          on_graph (Some fresh)
                   (initialize task initial_confidence (cfg_disciplinary_tags config))
                   initialized
      end
  | decompose_research_task dimensions =>
      on_graph s (decomposeTask dimensions) decomposed
  | generate_hypotheses dimension_node_id hypotheses max_hypotheses =>
      on_graph s (generateHypotheses dimension_node_id hypotheses max_hypotheses)
               hypotheses_generated
  | integrate_evidence hypothesis_node_id ev token decay =>
      on_graph s (integrateEvidence hypothesis_node_id ev token decay) evidence_integrated
  | prune_and_merge_nodes pruning_threshold merging_threshold =>
      on_graph s (pruneAndMergeNodes pruning_threshold merging_threshold) pruned_and_merged
  | extract_subgraphs criteria =>
      on_graph s (extractSubgraphs (default_of criteria no_criteria)) subgraphs_extracted
  | analyze_knowledge_gaps impact_threshold confidence_threshold =>
      on_graph_read s (fun g => gaps_analysed (analyze_gaps impact_threshold confidence_threshold g))
  | detect_biases =>
      on_graph_read s (fun g => biases_detected (detect g))
  | plan_interventions interventions =>
      on_graph_read s (fun g => interventions_planned (plan interventions g))
  end.

(** A sequence of calls, each on the session the previous one left; the
    replies come in the order of the calls. *)
Fixpoint serve (rs : list request) (s : option graph) : list reply :=
  match rs with
  | [] => []
  | r :: rest => let out := handle r s in out :: serve rest (session out)
  end.

End Server.

(** ** Vocabulary of the stage discipline *)

Module Discipline.

Import Js Args Backup.

(** A computation that, started in a state where [P] holds, leaves the stage
    as it was whether it returns or throws, and re-establishes [P] when it
    returns. *)
Definition steady {A : Type} (P : graph -> Prop) (c : M graph A) : Prop :=
  forall g, P g ->
            currentStage (state_of (c g)) = currentStage g /\
            (forall g' a, c g = Ok g' a -> P g').

(** A computation that, started in a state where [P] holds, ends stage [k]:
    it returns at stage [k + 1] or throws at the stage it started from. *)
Definition finishes {A : Type} (P : graph -> Prop) (k : nat) (c : M graph A) : Prop :=
  forall g, P g ->
            match c g with
            | Ok g' _ => currentStage g' = S k
            | Throw g' _ => currentStage g' = currentStage g
            end.

(** A method of stage [k]: it returns only when called at stage [k], and then
    at stage [k + 1]; when it throws, the stage is the one it was called at. *)
Definition advances {A : Type} (k : nat) (c : M graph A) : Prop :=
  forall g, match c g with
            | Ok g' _ => currentStage g = k /\ currentStage g' = S k
            | Throw g' _ => currentStage g' = currentStage g
            end.

(** A computation that creates no layer: started without any layer, it ends
    without any, whether it returns or throws. *)
Definition layerless {A : Type} (c : M graph A) : Prop :=
  forall g, layers g = [] -> layers (state_of (c g)) = [].

Definition anywhere : graph -> Prop := fun _ => True.

Definition has_vertex (id : string) : graph -> Prop :=
  fun g => SMap.has id (vertices g) = true.

(** The stage whose gate a stage tool of the handler has to pass; the
    initialize tool and the analyses have none. *)
Definition required_stage (r : Server.request) : option nat :=
  match r with
  | Server.decompose_research_task _ => Some 1%nat
  | Server.generate_hypotheses _ _ _ => Some 2%nat
  | Server.integrate_evidence _ _ _ _ => Some 3%nat
  | Server.prune_and_merge_nodes _ _ => Some 4%nat
  | Server.extract_subgraphs _ => Some 5%nat
  | _ => None
  end.

Definition is_initialize (r : Server.request) : bool :=
  match r with Server.initialize_asr_got_graph _ _ _ => true | _ => false end.

(** An initialize call that passes the check of its description. *)
Definition starts_session (r : Server.request) : bool :=
  match r with
  | Server.initialize_asr_got_graph task_description _ _ =>
      match str_or_null task_description with Some _ => true | None => false end
  | _ => false
  end.

Definition is_result (out : Server.reply) : bool :=
  match Server.answer out with inl _ => true | inr _ => false end.

End Discipline.

(** ** Further concrete inputs *)

Module Scenario.

Import Args Backup.

(** Two hypotheses, the first at mean confidence 0.2 with impact 0.9. *)
Definition bold_hypotheses : list hypothesis_input :=
  [HObject (mk_hypothesis_fields (Some "bold untested claim") (Some [0.2; 0.2; 0.2; 0.2])
              (Some ["immunology"]) None (Some 0.9));
   Session.plain "solid idea" ["immunology"]].

Definition stage3_bold : graph := state_of (Session.after_hypotheses bold_hypotheses).

(** Three hypotheses with distinct texts, impact 0.1 and no falsification
    criteria; the second and the third carry the same four confidence
    components in a different order. *)
Definition permuted_hypotheses : list hypothesis_input :=
  [Session.plain "alpha mechanism drives response" ["immunology"];
   HObject (mk_hypothesis_fields (Some "beta pathway is irrelevant")
              (Some [0.3; 0.3; 0.1; 0.1]) (Some ["immunology"]) None (Some 0.1));
   HObject (mk_hypothesis_fields (Some "gamma signal")
              (Some [0.1; 0.1; 0.3; 0.3]) (Some ["immunology"]) None (Some 0.1))].

Definition stage4_permuted : graph :=
  state_of (Session.first_call (state_of (Session.after_hypotheses permuted_hypotheses))
                               "h_n2.1_1" Session.observed).

End Scenario.

(** ** src/server/index-backup.js, lines 732-776: the community pass in full

    [Backup._updateCommunityStructure] keeps of this pass only the condition
    under which it throws.  Here the pass is followed step by step: the
    depth-first search of [_findConnectedComponent] with its stack (the top
    is the head of the list) and its visited set, then the two loops of
    [_updateCommunityStructure].  The search runs on fuel; [None] is a search
    that ran out of it. *)

Module Components.

Import Js Args Backup.

(** The inner loop of the search (lines 765-772): for each edge, in order,
    the other end of an edge that starts or ends at [nodeId] is pushed unless
    it is visited. *)
Definition push_neighbours (es : list (string * edge)) (nodeId : string)
           (visited stack : list string) : list string :=
  fold_left
    (fun st kv =>
       let e := snd kv in
       let st1 :=
         if String.eqb (source e) nodeId && negb (mem (target e) visited)
         then target e :: st else st in
       if String.eqb (target e) nodeId && negb (mem (source e) visited)
       then source e :: st1 else st1)
    es stack.

(** The [while] loop of the search (lines 757-773); [visited] and
    [component] hold the same ids, so one list stands for both. *)
Fixpoint component_loop (fuel : nat) (es : list (string * edge))
         (stack visited : list string) : option (list string) :=
  match stack with
  | [] => Some visited
  | nodeId :: rest =>
      match fuel with
      | O => None
      | S fuel' =>
          if mem nodeId visited
          then component_loop fuel' es rest visited
          else
            let visited' := (visited ++ [nodeId])%list in
            component_loop fuel' es (push_neighbours es nodeId visited' rest) visited'
      end
  end.

(** Rounds that suffice for any start: a round pops one id, and at most
    [2 |E|] ids are pushed for each of the at most [1 + 2 |E|] ids that can
    be visited. *)
Definition rounds (es : list (string * edge)) : nat :=
  2 + 2 * List.length es * (1 + 2 * List.length es).

(** [_findConnectedComponent] (lines 752-776). *)
Definition _findConnectedComponent (g : graph) (startNodeId : string) : option (list string) :=
  component_loop (rounds (edges g)) (edges g) [startNodeId] [].

(** The first loop of [_updateCommunityStructure] (lines 737-743) for one
    vertex: the map [communities] and the counter after the round. *)
Definition community_round (g : graph) (acc : option (list (string * nat) * nat))
           (nodeId : string) : option (list (string * nat) * nat) :=
  match acc with
  | None => None
  | Some (communities, communityId) =>
      if SMap.has nodeId communities then Some (communities, communityId)
      else
        match _findConnectedComponent g nodeId with
        | None => None
        | Some community =>
            Some (fold_left (fun m id => SMap.set id communityId m) community communities,
                  S communityId)
        end
  end.

Definition communities_of (g : graph) : option (list (string * nat)) :=
  option_map fst (fold_left (community_round g) (SMap.keys (vertices g)) (Some ([], 0%nat))).

(** [_updateCommunityStructure] (lines 732-750): the second loop reads
    [node.metadata] off every id of the map and throws at the first id that
    is no vertex; the community id it writes is outside the model, so a pass
    that returns leaves the graph as it was. *)
Definition _updateCommunityStructure (g : graph) : option (outcome graph unit) :=
  match communities_of g with
  | None => None
  | Some communities =>
      Some (if forallb (fun kv => SMap.has (fst kv) (vertices g)) communities
            then Ok g tt else Throw g TypeError)
  end.

(** Two ids joined by an edge, in either direction. *)
Definition adjacent (es : list (string * edge)) (x y : string) : Prop :=
  exists k e, In (k, e) es /\
              ((source e = x /\ target e = y) \/ (target e = x /\ source e = y)).

(** The ids that a walk along the edges reaches from [start]. *)
Inductive reaches (es : list (string * edge)) (start : string) : string -> Prop :=
| reaches_start : reaches es start start
| reaches_step (x y : string) : reaches es start x -> adjacent es x y -> reaches es start y.

(** The ids a search from [start] can meet: the start and the ends of the
    edges. *)
Definition universe (es : list (string * edge)) (start : string) : list string :=
  start :: flat_map (fun kv => [source (snd kv); target (snd kv)]) es.

(** What is left to do in a state of the search. *)
Definition unvisited (es : list (string * edge)) (start : string) (visited : list string)
  : list string :=
  filter (fun u => negb (mem u visited)) (universe es start).

Definition measure (es : list (string * edge)) (start : string) (stack visited : list string)
  : nat :=
  List.length stack + 2 * List.length es * List.length (unvisited es start visited).

(** The state of the first loop of [_updateCommunityStructure]: the ids in
    the map are closed under the edges, and each is reached from a vertex. *)
Definition sound (g : graph) (communities : list (string * nat)) : Prop :=
  (forall x y, SMap.has x communities = true -> adjacent (edges g) x y ->
               SMap.has y communities = true) /\
  (forall x, SMap.has x communities = true ->
             exists v, SMap.has v (vertices g) = true /\ reaches (edges g) v x).

End Components.

(** ** Vertices that the merging pass keeps apart

    The condition under which the double loop of [pruneAndMergeNodes]
    (lines 842-859) merges nothing. *)

Module Separation.

Import Js Args Backup.



End Separation.

(** * Properties *)

(** ** The monad and the maps *)

Section MonadFacts.
Context {St A B : Type}.

Lemma bind_ok_inv (c : M St A) (k : A -> M St B) (s s' : St) (b : B) :
  bind c k s = Ok s' b ->
  exists s1 a, c s = Ok s1 a /\ k a s1 = Ok s' b.
Proof.
  unfold bind. destruct (c s) as [s1 a | s1 e]; intros H.
  - exists s1, a. split; [reflexivity | exact H].
  - discriminate H.
Qed.

Lemma bind_ok (c : M St A) (k : A -> M St B) (s s1 : St) (a : A) :
  c s = Ok s1 a -> bind c k s = k a s1.
Proof. unfold bind. intros ->. reflexivity. Qed.

Lemma bind_throw (c : M St A) (k : A -> M St B) (s s1 : St) (e : error) :
  c s = Throw s1 e -> bind c k s = Throw s1 e.
Proof. unfold bind. intros ->. reflexivity. Qed.

Lemma bind_ext (c : M St A) (k k' : A -> M St B) (s : St) :
  (forall s1 a, c s = Ok s1 a -> k a s1 = k' a s1) -> bind c k s = bind c k' s.
Proof.
  intros H. unfold bind. destruct (c s) as [s1 a | s1 e]; [apply H |]; reflexivity.
Qed.
End MonadFacts.

Ltac bind_inv H :=
  let s := fresh "s" in
  let a := fresh "a" in
  let E := fresh "E" in
  apply bind_ok_inv in H; destruct H as (s & a & E & H).

Section MapFacts.
Context {V : Type}.
Implicit Types (m : list (string * V)) (k : string) (v : V).

Lemma get_set_same m k v : SMap.get k (SMap.set k v m) = Some v.
Proof.
  induction m as [| [k' v'] m IH]; simpl.
  - rewrite String.eqb_refl. reflexivity.
  - destruct (String.eqb k k') eqn:E; simpl.
    + rewrite String.eqb_refl. reflexivity.
    + rewrite E. exact IH.
Qed.

Lemma get_set_other m k k' v : k <> k' -> SMap.get k (SMap.set k' v m) = SMap.get k m.
Proof.
  intros N. induction m as [| [k0 v0] m IH]; simpl.
  - apply String.eqb_neq in N. rewrite N. reflexivity.
  - destruct (String.eqb k' k0) eqn:E; simpl.
    + apply String.eqb_eq in E. subst k0.
      apply String.eqb_neq in N. rewrite N. reflexivity.
    + destruct (String.eqb k k0); [reflexivity | exact IH].
Qed.

Lemma get_delete_same m k : SMap.get k (SMap.delete k m) = None.
Proof.
  unfold SMap.delete. induction m as [| [k' v'] m IH]; simpl; [reflexivity |].
  destruct (String.eqb k k') eqn:E; simpl; [exact IH |].
  rewrite E. exact IH.
Qed.

Lemma get_delete_other m k k' : k <> k' -> SMap.get k (SMap.delete k' m) = SMap.get k m.
Proof.
  intros N. unfold SMap.delete. induction m as [| [k0 v0] m IH]; simpl; [reflexivity |].
  destruct (String.eqb k' k0) eqn:E; simpl.
  - apply String.eqb_eq in E. subst k0.
    apply String.eqb_neq in N. rewrite N. exact IH.
  - destruct (String.eqb k k0); [reflexivity | exact IH].
Qed.

Lemma has_get m k : SMap.has k m = true <-> exists v, SMap.get k m = Some v.
Proof.
  unfold SMap.has. destruct (SMap.get k m) as [v |]; split.
  - intros _. exists v. reflexivity.
  - reflexivity.
  - discriminate.
  - intros [v H]. discriminate H.
Qed.

Lemma get_in m k v : SMap.get k m = Some v -> In (k, v) m.
Proof.
  induction m as [| [k' v'] m IH]; simpl; [discriminate |].
  destruct (String.eqb k k') eqn:E.
  - apply String.eqb_eq in E. subst k'. intros [= ->]. left. reflexivity.
  - intros H. right. apply IH. exact H.
Qed.

Lemma in_get m k v : NoDup (SMap.keys m) -> In (k, v) m -> SMap.get k m = Some v.
Proof.
  unfold SMap.keys. induction m as [| [k' v'] m IH]; simpl; [contradiction |].
  intros ND [E | Hin].
  - inversion E; subst. rewrite String.eqb_refl. reflexivity.
  - inversion ND as [| x l Hnot ND']; subst.
    destruct (String.eqb k k') eqn:E.
    + apply String.eqb_eq in E. subst k'. exfalso. apply Hnot.
      change k with (fst (k, v)). apply in_map. exact Hin.
    + apply IH; assumption.
Qed.
End MapFacts.

Lemma length_append (a b : string) :
  String.length (a ++ b) = (String.length a + String.length b)%nat.
Proof. induction a as [| c a IH]; simpl; [reflexivity | rewrite IH; reflexivity]. Qed.

Lemma longer_is_different (prefix suffix s : string) :
  (0 < String.length prefix)%nat -> prefix ++ suffix ++ s <> s.
Proof.
  intros Hp E. apply (f_equal String.length) in E.
  rewrite !length_append in E. lia.
Qed.

(** ** Stage 4: the stage gate of integrateEvidence *)

Module StageGate.

Import Args Backup.

Lemma check_stage_ok (n : nat) (g : graph) :
  currentStage g = n -> check_stage n g = Ok g tt.
Proof. unfold check_stage. intros ->. rewrite Nat.eqb_refl. reflexivity. Qed.

Lemma check_stage_throw (n : nat) (g : graph) :
  currentStage g <> n -> check_stage n g = Throw g (StageError (currentStage g) n).
Proof.
  unfold check_stage. intros N. apply Nat.eqb_neq in N. rewrite N. reflexivity.
Qed.

(** A call that returns leaves the graph at stage 4. *)
Lemma integrateEvidence_ok_stage hyp ev token decay g g' r :
  integrateEvidence hyp ev token decay g = Ok g' r -> currentStage g' = 4%nat.
Proof.
  unfold integrateEvidence. intros H.
  do 6 bind_inv H.
  destruct (_calculateBayesianUpdate ev _) as [uf |]; [| discriminate H].
  destruct (update_confidence _ uf) as [c' |]; [| discriminate H].
  do 6 bind_inv H.
  unfold modify in E10. injection E10 as <- _.
  bind_inv H. unfold get_node in E10.
  destruct (SMap.get hyp _); [| discriminate E10].
  injection E10 as <- _. unfold ret in H. injection H as <- _.
  reflexivity.
Qed.

(** At stage 4 the gate throws before anything is read or written. *)
Lemma integrateEvidence_at_stage_4 hyp ev token decay g :
  currentStage g = 4%nat ->
  integrateEvidence hyp ev token decay g = Throw g (StageError 4 3).
Proof.
  intros Hs. unfold integrateEvidence.
  erewrite bind_throw; [reflexivity |].
  rewrite check_stage_throw; rewrite Hs; [reflexivity | discriminate].
Qed.

(** C1 (code defect).  The claim: once a first integrateEvidence call has
    succeeded, every further call that names an existing hypothesis succeeds
    too.  The code: after a call that returned, every further call throws the
    stage error "current stage 4, expected 3" and leaves the graph as it was,
    whatever its arguments are. *)
Theorem integrateEvidence_second_call_throws hyp ev token decay g g' r :
  integrateEvidence hyp ev token decay g = Ok g' r ->
  forall hyp2 ev2 token2 decay2,
    integrateEvidence hyp2 ev2 token2 decay2 g' = Throw g' (StageError 4 3).
Proof.
  intros H hyp2 ev2 token2 decay2.
  apply integrateEvidence_at_stage_4.
  eapply integrateEvidence_ok_stage. exact H.
Qed.

(** The session of [Session.stage3_similar]: the first call returns, the
    second one, on the existing hypothesis "h_n2.1_2", throws. *)
Lemma integrateEvidence_second_call_throws_witness :
  SMap.has "h_n2.1_1" (vertices Session.stage3_similar) = true /\
  succeeded (Session.first_call Session.stage3_similar "h_n2.1_1" Session.observed) = true /\
  SMap.has "h_n2.1_2" (vertices Session.stage4_similar) = true /\
  integrateEvidence "h_n2.1_2" Session.observed "abcd1235" 1 Session.stage4_similar
  = Throw Session.stage4_similar (StageError 4 3).
Proof.
  split; [vm_compute; reflexivity |].
  split; [vm_compute; reflexivity |].
  split; [vm_compute; reflexivity |].
  unfold Session.stage4_similar, Session.first_call.
  destruct (integrateEvidence "h_n2.1_1" Session.observed "abcd1234" 1 Session.stage3_similar)
    as [g r | g e] eqn:H; [| vm_compute in H; discriminate H].
  exact (integrateEvidence_second_call_throws _ _ _ _ _ _ _ H
           "h_n2.1_2" Session.observed "abcd1235" 1).
Defined.

End StageGate.

(** ** Sets as duplicate-free lists *)

Module SetFacts.

Import Js.

Lemma mem_in (x : string) (l : list string) : mem x l = true <-> In x l.
Proof.
  unfold mem. rewrite existsb_exists. split.
  - intros [y [Hy E]]. apply String.eqb_eq in E. subst y. exact Hy.
  - intros H. exists x. split; [exact H | apply String.eqb_refl].
Qed.

Lemma set_add_in (acc : list string) (x y : string) :
  In y (set_add acc x) <-> In y acc \/ y = x.
Proof.
  unfold set_add. destruct (mem x acc) eqn:E.
  - apply mem_in in E. split; [tauto |]. intros [H | ->]; assumption.
  - rewrite in_app_iff. simpl. split.
    + intros [H | [<- | []]]; [left; exact H | right; reflexivity].
    + intros [H | ->]; [left; exact H | right; left; reflexivity].
Qed.

Lemma set_add_nodup (acc : list string) (x : string) :
  NoDup acc -> NoDup (set_add acc x).
Proof.
  intros ND. unfold set_add. destruct (mem x acc) eqn:E; [exact ND |].
  assert (Hx : ~ In x acc).
  { intros H. apply mem_in in H. rewrite H in E. discriminate E. }
  clear E. induction acc as [| a acc IH]; simpl.
  - constructor; [intros [] | constructor].
  - inversion ND as [| a' l Ha ND']; subst. constructor.
    + rewrite in_app_iff. simpl. intros [H | [H | []]]; [exact (Ha H) |].
      apply Hx. left. symmetry. exact H.
    + apply IH; [exact ND' |]. intros H. apply Hx. right. exact H.
Qed.

Lemma fold_set_add_in (l acc : list string) (y : string) :
  In y (fold_left set_add l acc) <-> In y acc \/ In y l.
Proof.
  revert acc. induction l as [| x l IH]; intros acc; simpl.
  - tauto.
  - rewrite IH, set_add_in. split; intros H; intuition auto.
Qed.

Lemma fold_set_add_nodup (l acc : list string) :
  NoDup acc -> NoDup (fold_left set_add l acc).
Proof.
  revert acc. induction l as [| x l IH]; intros acc ND; simpl; [exact ND |].
  apply IH, set_add_nodup, ND.
Qed.

(** [new Set(l)] has the elements of [l], each once. *)
Lemma set_of_in (l : list string) (y : string) : In y (set_of l) <-> In y l.
Proof. unfold set_of. rewrite fold_set_add_in. simpl. tauto. Qed.

Lemma set_of_nodup (l : list string) : NoDup (set_of l).
Proof. apply fold_set_add_nodup. constructor. Qed.

End SetFacts.

(** ** Stage 5: what _mergeNodes builds *)

Module Merge.

Import Js Args Backup View.

Lemma max_components_same_length (c1 c2 : list Q) :
  List.length c1 = List.length c2 -> max_components c1 c2 = Some (pairwise_max c1 c2).
Proof.
  revert c2. induction c1 as [| x c1 IH]; intros [| y c2] H; simpl in *;
    try discriminate; [reflexivity |].
  injection H as H. rewrite (IH _ H). reflexivity.
Qed.

Lemma get_node_ok (id : string) (g : graph) (n : node) :
  SMap.get id (vertices g) = Some n -> get_node id g = Ok g n.
Proof. unfold get_node. intros ->. reflexivity. Qed.

Lemma get_node_missing (id : string) (g : graph) :
  SMap.get id (vertices g) = None -> get_node id g = Throw g TypeError.
Proof. unfold get_node. intros ->. reflexivity. Qed.

(** A rewired edge touches neither original, provided the merged id differs
    from both. *)
Lemma rewire_avoids (id1 id2 mergedId : string) (e : edge) :
  mergedId <> id1 -> mergedId <> id2 ->
  let e' := rewire id1 id2 mergedId e in
  source e' <> id1 /\ source e' <> id2 /\ target e' <> id1 /\ target e' <> id2.
Proof.
  intros N1 N2. unfold rewire. simpl.
  destruct (String.eqb_spec (source e) id1), (String.eqb_spec (source e) id2),
           (String.eqb_spec (target e) id1), (String.eqb_spec (target e) id2);
    simpl; repeat split; assumption.
Qed.

Lemma no_incident_after_rewire (id id1 id2 mergedId : string) (es : list (string * edge)) :
  mergedId <> id1 -> mergedId <> id2 -> id = id1 \/ id = id2 ->
  filter (fun kv => incident id (snd kv)) (rewired id1 id2 mergedId es) = [].
Proof.
  intros N1 N2 Hid. unfold rewired. induction es as [| [k e] es IH]; simpl; [reflexivity |].
  destruct (rewire_avoids id1 id2 mergedId e N1 N2) as (A & B & C & D).
  unfold incident.
  assert (Hs : String.eqb (source (rewire id1 id2 mergedId e)) id = false).
  { apply String.eqb_neq. destruct Hid; subst id; assumption. }
  assert (Ht : String.eqb (target (rewire id1 id2 mergedId e)) id = false).
  { apply String.eqb_neq. destruct Hid; subst id; assumption. }
  rewrite Hs, Ht. simpl. exact IH.
Qed.

Lemma merged_id_fresh (id1 id2 : string) :
  "merged_" ++ id1 ++ "_" ++ id2 <> id1 /\ "merged_" ++ id1 ++ "_" ++ id2 <> id2.
Proof.
  split; intros E; apply (f_equal String.length) in E;
    rewrite !length_append in E; simpl in E; lia.
Qed.

(** The run of [_mergeNodes]: the vertex map loses the two ids and gains the
    merged node, every edge is rewired, and no edge is deleted. *)
Lemma mergeNodes_run (g : graph) (id1 id2 : string) (n1 n2 : node) :
  SMap.get id1 (vertices g) = Some n1 ->
  SMap.get id2 (vertices g) = Some n2 ->
  List.length (confidence n1) = List.length (confidence n2) ->
  let mergedId := "merged_" ++ id1 ++ "_" ++ id2 in
  exists g',
    _mergeNodes id1 id2 g = Ok g' mergedId /\
    vertices g'
    = SMap.set mergedId (merged_node id1 id2 n1 n2)
               (SMap.delete id2 (SMap.delete id1 (vertices g))) /\
    edges g' = rewired id1 id2 mergedId (edges g).
Proof.
  intros H1 H2 Hlen mergedId.
  destruct (merged_id_fresh id1 id2) as [N1 N2]. fold mergedId in N1, N2.
  unfold _mergeNodes.
  rewrite (bind_ok _ _ _ _ _ (get_node_ok _ _ _ H1)).
  rewrite (bind_ok _ _ _ _ _ (get_node_ok _ _ _ H2)).
  rewrite (max_components_same_length _ _ Hlen).
  fold mergedId.
  unfold bind, modify, _removeNode, ret; simpl.
  fold (rewired id1 id2 mergedId (edges g)).
  rewrite (no_incident_after_rewire id1 id1 id2 mergedId (edges g) N1 N2 (or_introl eq_refl)).
  simpl.
  rewrite (no_incident_after_rewire id2 id1 id2 mergedId (edges g) N1 N2 (or_intror eq_refl)).
  simpl.
  eexists. split; [reflexivity |]. split; reflexivity.
Qed.



(** *** The merging pass after a merge *)

(** Once the vertex at index [i] has left the map, the next round of the
    inner loop reads [.type] off [undefined]. *)
Lemma merge_inner_removed (thr : Q) (id_i id_j : string) (rest : list string) (g : graph) :
  SMap.get id_i (vertices g) = None ->
  merge_inner thr id_i (id_j :: rest) g = Throw g TypeError.
Proof.
  intros H. simpl. unfold bind, get_state. rewrite H. reflexivity.
Qed.

(** X5.  A merge at [(i, j)] followed by any further element of the list
    makes the inner loop throw a type error. *)
Lemma merge_inner_throws_after_merge (thr : Q) (id_i id_j next : string)
      (rest : list string) (g : graph) (n1 n2 : node) (similarity : Q) :
  SMap.get id_i (vertices g) = Some n1 ->
  SMap.get id_j (vertices g) = Some n2 ->
  node_type_eqb (type n1) (type n2) = true ->
  _calculateSemanticSimilarity (content n1) (content n2) = Some similarity ->
  Qle_bool thr similarity = true ->
  List.length (confidence n1) = List.length (confidence n2) ->
  exists g', merge_inner thr id_i (id_j :: next :: rest) g = Throw g' TypeError.
Proof.
  intros H1 H2 Ht Hs Hle Hlen.
  destruct (mergeNodes_run g id_i id_j n1 n2 H1 H2 Hlen) as (g' & Hm & Hv & _).
  assert (Hgone : SMap.get id_i (vertices g') = None).
  { destruct (merged_id_fresh id_i id_j) as [N1 _].
    rewrite Hv. rewrite get_set_other by (intros E; apply N1; symmetry; exact E).
    destruct (String.eqb_spec id_i id_j) as [-> | N].
    - apply get_delete_same.
    - rewrite get_delete_other by exact N. apply get_delete_same. }
  exists g'.
  change (merge_inner thr id_i (id_j :: next :: rest) g)
    with (bind get_state
            (fun g0 =>
               match SMap.get id_i (vertices g0), SMap.get id_j (vertices g0) with
               | Some node1, Some node2 =>
                   if node_type_eqb (type node1) (type node2)
                   then
                     match _calculateSemanticSimilarity (content node1) (content node2) with
                     | None => throw TypeError
                     | Some sim =>
                         if Qle_bool thr sim
                         then
                           mergedId <- _mergeNodes id_i id_j ;;
                           out <- merge_inner thr id_i (next :: rest) ;;
                           ret (fst out, mk_merge_record mergedId [id_i; id_j] :: snd out)
                         else
                           out <- merge_inner thr id_i (next :: rest) ;;
                           ret (id_j :: fst out, snd out)
                     end
                   else
                     out <- merge_inner thr id_i (next :: rest) ;;
                     ret (id_j :: fst out, snd out)
               | _, _ => throw TypeError
               end) g).
  unfold bind at 1. unfold get_state. rewrite H1, H2, Ht, Hs, Hle.
  rewrite (bind_ok _ _ _ _ _ Hm).
  erewrite bind_throw; [reflexivity |].
  apply merge_inner_removed. exact Hgone.
Qed.

(** The first two hypotheses of [Session.stage4_similar], followed by the
    third. *)
Lemma merge_inner_throws_after_merge_witness :
  exists g',
    merge_inner 0.8 "h_n2.1_1" ["h_n2.1_2"; "h_n2.1_3"] Session.stage4_similar
    = Throw g' TypeError.
Proof.
  destruct (SMap.get "h_n2.1_1" (vertices Session.stage4_similar)) as [n1 |] eqn:H1;
    [| vm_compute in H1; discriminate H1].
  destruct (SMap.get "h_n2.1_2" (vertices Session.stage4_similar)) as [n2 |] eqn:H2;
    [| vm_compute in H2; discriminate H2].
  apply (merge_inner_throws_after_merge 0.8 "h_n2.1_1" "h_n2.1_2" "h_n2.1_3" []
           Session.stage4_similar n1 n2 (3 # 3) H1 H2).
  - vm_compute in H1. injection H1 as <-. vm_compute in H2. injection H2 as <-. reflexivity.
  - vm_compute in H1. injection H1 as <-. vm_compute in H2. injection H2 as <-.
    vm_compute. reflexivity.
  - reflexivity.
  - vm_compute in H1. injection H1 as <-. vm_compute in H2. injection H2 as <-. reflexivity.
Defined.

(** The inner loop never lengthens the list. *)
Lemma merge_inner_length (thr : Q) (id_i : string) (rest : list string)
      (g g' : graph) (out : list string * list merge_record) :
  merge_inner thr id_i rest g = Ok g' out ->
  (List.length (fst out) <= List.length rest)%nat.
Proof.
  revert g g' out. induction rest as [| id_j rest IH]; intros g g' out H.
  - simpl in H. unfold ret in H. injection H as _ <-. simpl. lia.
  - simpl in H. bind_inv H. unfold get_state in E. injection E as <- <-.
    destruct (SMap.get id_i (vertices g)) as [node1 |]; [| discriminate H].
    destruct (SMap.get id_j (vertices g)) as [node2 |]; [| discriminate H].
    destruct (node_type_eqb (type node1) (type node2)).
    + destruct (_calculateSemanticSimilarity (content node1) (content node2)) as [sim |];
        [| discriminate H].
      destruct (Qle_bool thr sim).
      * bind_inv H. bind_inv H. unfold ret in H. injection H as _ <-. simpl.
        apply IH in E0. lia.
      * bind_inv H. unfold ret in H. injection H as _ <-. simpl.
        apply IH in E. lia.
    + bind_inv H. unfold ret in H. injection H as _ <-. simpl.
      apply IH in E. lia.
Qed.

(** Any fuel that covers the list gives the same run of the outer loop. *)
Lemma merge_outer_fuel (thr : Q) (n m : nat) (remaining : list string) (g : graph) :
  (List.length remaining <= n)%nat -> (List.length remaining <= m)%nat ->
  merge_outer n thr remaining g = merge_outer m thr remaining g.
Proof.
  revert m remaining g. induction n as [| n IH]; intros m remaining g Hn Hm.
  - destruct remaining; [| simpl in Hn; lia]. destruct m; reflexivity.
  - destruct remaining as [| id_i rest]; [destruct m; reflexivity |].
    destruct m as [| m]; [simpl in Hm; lia |].
    simpl in Hn, Hm. simpl. apply bind_ext. intros s1 out Hout.
    apply merge_inner_length in Hout.
    unfold bind. rewrite (IH m (fst out) s1) by lia. reflexivity.
Qed.

(** The fuel that pruneAndMergeNodes passes is therefore never the reason
    the pass stops. *)
Lemma merge_outer_enough_fuel (thr : Q) (extra : nat) (remaining : list string) (g : graph) :
  merge_outer (List.length remaining + extra) thr remaining g
  = merge_outer (List.length remaining) thr remaining g.
Proof. apply merge_outer_fuel; lia. Qed.

(** A pair at the end of the list, present, of one type and similar enough:
    the inner loop is one call of [_mergeNodes]. *)
Lemma merge_inner_last_pair (thr : Q) (id_i id_j : string) (g : graph)
      (n1 n2 : node) (similarity : Q) :
  SMap.get id_i (vertices g) = Some n1 ->
  SMap.get id_j (vertices g) = Some n2 ->
  node_type_eqb (type n1) (type n2) = true ->
  _calculateSemanticSimilarity (content n1) (content n2) = Some similarity ->
  Qle_bool thr similarity = true ->
  merge_inner thr id_i [id_j] g
  = (mergedId <- _mergeNodes id_i id_j ;;
     ret ([], [mk_merge_record mergedId [id_i; id_j]])) g.
Proof.
  intros H1 H2 Ht Hs Hle. simpl. unfold bind at 1. unfold get_state.
  rewrite H1, H2, Ht, Hs, Hle. apply bind_ext. intros s1 a _. reflexivity.
Qed.

(** A session in which pruneAndMergeNodes merges a pair and returns: two
    rounds of stages 1 to 4 on one graph (this variant's [initialize] has no
    stage gate) leave two evidence nodes with the same text at the end of the
    vertex map. *)
Lemma pruneAndMergeNodes_merges_last_pair :
  exists g r m,
    pruneAndMergeNodes None None Session.two_rounds = Ok g r /\
    merged_nodes r = [mk_merge_record "merged_e_abcd1234_e_abcd5678"
                                      ["e_abcd1234"; "e_abcd5678"]] /\
    currentStage g = 5%nat /\
    SMap.get "merged_e_abcd1234_e_abcd5678" (vertices g) = Some m /\
    type m = evidence /\
    confidence m = [0.9; 0.9; 0.9; 0.9] /\
    content m = Some "skin immune response observed | skin immune response observed" /\
    SMap.has "e_abcd1234" (vertices g) = false /\
    SMap.has "e_abcd5678" (vertices g) = false /\
    map (fun kv => (source (snd kv), target (snd kv)))
        (filter (fun kv => incident "merged_e_abcd1234_e_abcd5678" (snd kv)) (edges g))
    = [("merged_e_abcd1234_e_abcd5678", "h_n2.1_1");
       ("merged_e_abcd1234_e_abcd5678", "h_n2.1_1")].
Proof. eexists. eexists. eexists. vm_compute. repeat split; reflexivity. Qed.

(** C10 (code defect).  The claim: pruneAndMerge runs to completion on every
    stage-4 graph.  The code, on the stage-4 graph of a session whose first
    two hypotheses have the same text: the pass merges them, then reads the
    removed first id again for the third hypothesis and throws a type error;
    the graph is left at stage 4 with the merged node in place. *)
Theorem pruneAndMergeNodes_throws_after_merge :
  exists g,
    pruneAndMergeNodes None None Session.stage4_similar = Throw g TypeError /\
    currentStage Session.stage4_similar = 4%nat /\
    SMap.has "merged_h_n2.1_1_h_n2.1_2" (vertices g) = true /\
    SMap.has "h_n2.1_1" (vertices g) = false /\
    currentStage g = 4%nat.
Proof. eexists. vm_compute. repeat split; reflexivity. Qed.

End Merge.

(** ** Stage 4: the confidence update *)

Module Update.

Import Js Args Backup.

(** X1.  The four factors are equal, and the common factor is the
    specification's [1 + delta] with the novelty term read from the
    [info_metrics.novelty_score] property of the argument (0.5 when absent or
    zero) and the power from its [statistical_power.power] property (0.8 when
    absent or zero). *)
Lemma calculateBayesianUpdate_factor (ev : evidence_input) (edgeType : string) (c : list Q) :
  ev_confidence ev = Some c ->
  exists f,
    _calculateBayesianUpdate ev edgeType = Some [f; f; f; f] /\
    f == 1 + Spec.delta (sum c / 4) (num_or (ev_statistical_power ev) 0.8)
                        (num_or (ev_novelty_score ev) 0.5) edgeType.
Proof.
  intros Hc. unfold _calculateBayesianUpdate, Spec.delta, Spec.multiplier. rewrite Hc.
  destruct (String.eqb edgeType "Supportive");
    [eexists; split; [reflexivity | ring] |].
  destruct (String.eqb edgeType "Contradictory");
    [eexists; split; [reflexivity | ring] |].
  destruct (String.eqb edgeType "Correlative");
    [eexists; split; [reflexivity | ring] |].
  destruct (String.eqb edgeType "Causal");
    eexists; split; try reflexivity; ring.
Qed.

(** Supportive evidence at confidence 0.9 without the two properties: the
    factor is 1.108. *)
Lemma calculateBayesianUpdate_factor_witness :
  exists f,
    _calculateBayesianUpdate Session.novel "Supportive" = Some [f; f; f; f] /\
    f == 1.108.
Proof.
  destruct (calculateBayesianUpdate_factor Session.novel "Supportive"
              [0.9; 0.9; 0.9; 0.9] eq_refl) as (f & H & Hf).
  exists f. split; [exact H |]. rewrite Hf. vm_compute. reflexivity.
Defined.

(** The novelty that [_assessNovelty] computes goes into the metadata of the
    evidence node only. *)
Lemma novelty_is_stored_not_used (ev : evidence_input) (edgeType : string) (n : Q) :
  let ev' := mk_evidence_input (ev_title ev) (ev_content ev) (ev_confidence ev)
               (ev_relationship ev) (ev_provenance ev) (ev_disciplinary_tags ev)
               (ev_impact_score ev) (ev_edge_confidence ev) (ev_statistical_data ev)
               (ev_statistical_power ev) (Some n) in
  _assessNovelty ev' = _assessNovelty ev.
Proof. reflexivity. Qed.

(** The same reading of the argument instead of the stored node: evidence that
    gives its content only (all the tool schema requires) is stored with the
    default confidence [0.7, 0.7, 0.7, 0.7], and the update then throws on the
    argument's missing [confidence], leaving the graph at stage 3. *)
Lemma integrateEvidence_without_confidence :
  let ev := mk_evidence_input None (Some "skin immune response observed") None None None
                              None None None None None None in
  exists g e,
    Session.first_call Session.stage3_similar "h_n2.1_1" ev = Throw g TypeError /\
    SMap.get "e_abcd1234" (vertices g) = Some e /\
    confidence e = [0.7; 0.7; 0.7; 0.7] /\
    currentStage g = 3%nat.
Proof. eexists. eexists. vm_compute. repeat split; reflexivity. Qed.

(** C2 (code defect).  The claim: [delta] uses the lexical novelty estimate
    of the evidence.  The code, for the evidence "immunology dermatology"
    (novelty estimate 1, confidence 0.9 four times, Supportive, no power) on
    a hypothesis at [0.5, 0.5, 0.5, 0.5]: the estimate is computed and stored
    on the evidence node, but the update multiplies by 0.5, so every
    component becomes 0.554 where the claim's formula gives 0.608. *)
Theorem integrateEvidence_ignores_novelty :
  exists g r ev_node,
    option_map confidence (SMap.get "h_n2.1_1" (vertices Session.stage3_similar))
    = Some [0.5; 0.5; 0.5; 0.5] /\
    Session.first_call Session.stage3_similar "h_n2.1_1" Session.novel = Ok g r /\
    SMap.get "e_abcd1234" (vertices g) = Some ev_node /\
    novelty_score (node_metadata ev_node) = Some (_assessNovelty Session.novel) /\
    _assessNovelty Session.novel == 1 /\
    Forall (fun c => c == 0.554) (updated_confidence r) /\
    Spec.updated_component 0.5
      (Spec.delta (sum [0.9; 0.9; 0.9; 0.9] / 4) 0.8 (_assessNovelty Session.novel)
                  "Supportive") == 0.608 /\
    ~ 0.554 == 0.608.
Proof.
  eexists. eexists. eexists.
  split; [vm_compute; reflexivity |].
  split; [vm_compute; reflexivity |].
  split; [vm_compute; reflexivity |].
  split; [vm_compute; reflexivity |].
  split; [vm_compute; reflexivity |].
  split; [repeat constructor; vm_compute; reflexivity |].
  split; [vm_compute; reflexivity |].
  intros H. vm_compute in H. discriminate H.
Qed.

End Update.

(** ** Stage 4: the interdisciplinary bridge *)

Module Bridge.

Import Js Args Backup.

(** X2.  [_checkInterdisciplinaryBridges] never touches the edge map, whether
    it returns or throws. *)
Lemma checkInterdisciplinaryBridges_edges (evidenceId hypothesisId : string) (g : graph) :
  edges (state_of (_checkInterdisciplinaryBridges evidenceId hypothesisId g)) = edges g.
Proof.
  unfold _checkInterdisciplinaryBridges, bind, get_node.
  destruct (SMap.get evidenceId (vertices g)) as [ev |]; [| reflexivity].
  destruct (SMap.get hypothesisId (vertices g)) as [hyp |]; [| reflexivity].
  destruct (_calculateSemanticSimilarity (content ev) (content hyp)) as [sim |];
    [| reflexivity].
  destruct ((List.length _ =? 0)%nat && Qltb 0.5 sim); [| reflexivity].
  unfold modify, layer_add. simpl.
  destruct (SMap.get "interdisciplinary" (layers g)); reflexivity.
Qed.

(** C6 (code defect).  The claim: the bridge node comes with edges that link
    it to the evidence and the hypothesis.  The code, for evidence tagged
    "machine_learning" on a hypothesis tagged "immunology" whose texts share
    three words of four: the bridge node is created in the interdisciplinary
    layer with the union of the tags, and no edge of the graph has it as an
    endpoint. *)
Theorem bridge_has_no_edges :
  exists g r ibn,
    Session.first_call Session.stage3_similar "h_n2.1_1" Session.observed = Ok g r /\
    _calculateSemanticSimilarity (Some "skin immune response observed")
                                 (Some "skin immune response") = Some (3 # 4) /\
    SMap.get "ibn_e_abcd1234_h_n2.1_1" (vertices g) = Some ibn /\
    type ibn = bridge /\
    disciplinary_tags (node_metadata ibn) = ["machine_learning"; "immunology"] /\
    layer_id (node_metadata ibn) = "interdisciplinary" /\
    SMap.get "interdisciplinary" (layers g) = Some ["ibn_e_abcd1234_h_n2.1_1"] /\
    filter (fun kv => incident "ibn_e_abcd1234_h_n2.1_1" (snd kv)) (edges g) = [] /\
    SMap.keys (edges g)
    = (SMap.keys (edges Session.stage3_similar) ++ ["e_e_abcd1234_h_n2.1_1"])%list.
Proof. eexists. eexists. eexists. vm_compute. repeat split; reflexivity. Qed.

End Bridge.

(** ** Stage 1: initialize *)

Module Init.

Import Js.

(** X3.  The stage gate of the corrected variant: outside stage 0 the call
    throws, naming the current stage and the expected stage 0, and leaves the
    graph as it was. *)
Lemma initialize_requires_stage_0 task conf tags (g : Corrected.graph) :
  Corrected.currentStage g <> 0%nat ->
  Corrected.initialize task conf tags g
  = Throw g (StageError (Corrected.currentStage g) 0).
Proof.
  intros N. unfold Corrected.initialize, bind, Corrected.check_stage.
  apply Nat.eqb_neq in N. rewrite N. reflexivity.
Qed.

(** A second call on an initialised graph. *)
Lemma initialize_requires_stage_0_witness :
  let g1 := state_of (Corrected.initialize "Study X" None None (Corrected.new_graph true)) in
  Corrected.initialize "again" None None g1 = Throw g1 (StageError 1 0).
Proof.
  intros g1.
  exact (initialize_requires_stage_0 "again" None None g1 ltac:(discriminate)).
Defined.

(** X4.  On a fresh graph the call creates the root "n0" of kind root in layer
    base with the confidence it was given, and moves to stage 1, whatever the
    confidence vector is. *)
Lemma initialize_creates_root task (conf : list Q) tags :
  exists g root,
    Corrected.initialize task (Some conf) tags (Corrected.new_graph true) = Ok g "n0" /\
    Corrected.currentStage g = 1%nat /\
    SMap.get "n0" (Corrected.vertices g) = Some root /\
    Corrected.type root = Corrected.root /\
    Corrected.means (Corrected.confidence root) = conf /\
    Corrected.layer_id (Corrected.node_metadata root) = "base" /\
    SMap.get "base" (Corrected.layers g) = Some ["n0"].
Proof.
  eexists. eexists.
  split; [unfold Corrected.initialize, bind; simpl; reflexivity |].
  repeat split; reflexivity.
Qed.

(** C8 (code defect).  The claim: initialize fails when the confidence vector
    is not four components in [0, 1].  The code, for the vector [1.5, 0.2]:
    both variants of [initialize] return, store the vector on the root and
    move to stage 1; the check that rejects this vector exists only in the
    request handler of the last server variant. *)
Theorem initialize_accepts_malformed_confidence :
  (exists g root,
      Corrected.initialize "Study X" (Some [1.5; 0.2]) None (Corrected.new_graph true)
      = Ok g "n0" /\
      Corrected.currentStage g = 1%nat /\
      SMap.get "n0" (Corrected.vertices g) = Some root /\
      Corrected.means (Corrected.confidence root) = [1.5; 0.2]) /\
  (exists g root,
      Backup.initialize "Study X" (Some [1.5; 0.2]) None (Backup.new_graph true)
      = Ok g "n0" /\
      Backup.currentStage g = 1%nat /\
      SMap.get "n0" (Backup.vertices g) = Some root /\
      Backup.confidence root = [1.5; 0.2]) /\
  Hardened.validate_initial_confidence (Some [1.5; 0.2])
  = Some (InvalidParams "initial_confidence") /\
  Hardened.validate_initial_confidence (Some [1.5; 0.2; 0.2; 0.2])
  = Some (InvalidParams "initial_confidence[0]").
Proof.
  split; [eexists; eexists; vm_compute; repeat split; reflexivity |].
  split; [eexists; eexists; vm_compute; repeat split; reflexivity |].
  split; vm_compute; reflexivity.
Qed.

(** The backup variant has no stage gate: a second call returns as well. *)
Lemma backup_initialize_any_stage :
  succeeded (Backup.initialize "again" None None Session.stage4_similar) = true.
Proof. vm_compute. reflexivity. Qed.

End Init.

(** ** Stage 6: the topology of an extracted subgraph *)

Module Extract.

Import Js Args Backup.

Lemma topology_density (nodes es : list string) :
  let N := List.length nodes in
  let E := List.length es in
  ((1 < N)%nat ->
   density (_calculateSubgraphTopology nodes es) = 2 * Qnat E / (Qnat N * (Qnat N - 1))) /\
  ((N <= 1)%nat -> density (_calculateSubgraphTopology nodes es) = 0) /\
  ((0 < N)%nat -> average_degree (_calculateSubgraphTopology nodes es) = 2 * Qnat E / Qnat N) /\
  (N = 0%nat -> average_degree (_calculateSubgraphTopology nodes es) = 0).
Proof.
  intros N E. unfold _calculateSubgraphTopology. fold N. fold E. simpl.
  repeat split; intros H.
  - apply Nat.ltb_lt in H. rewrite H. reflexivity.
  - destruct (1 <? N)%nat eqn:L; [apply Nat.ltb_lt in L; lia | reflexivity].
  - apply Nat.ltb_lt in H. rewrite H. reflexivity.
  - rewrite H. reflexivity.
Qed.

(** What a returning call of [extractSubgraphs] reports. *)
Lemma extractSubgraphs_ok (cr : criteria) (g g' : graph) (sg : subgraph) :
  extractSubgraphs cr g = Ok g' sg ->
  exists nodes es,
    topology_metrics sg = _calculateSubgraphTopology nodes es /\
    total_nodes_selected sg = List.length nodes /\
    total_edges_selected sg = List.length es /\
    List.length (sg_nodes sg) = List.length nodes /\
    List.length (sg_edges sg) = List.length es.
Proof.
  unfold extractSubgraphs. intros H.
  bind_inv H. bind_inv H. unfold ret in H. injection H as _ <-.
  eexists. eexists. split; [reflexivity |].
  cbn [total_nodes_selected total_edges_selected sg_nodes sg_edges].
  rewrite !length_map. repeat split; reflexivity.
Qed.

(** C9.  A returning call of [extractSubgraphs] that selected [N] nodes and
    [E] edges (the lengths of the node and edge lists it returns) reports the
    density [2E / (N (N - 1))] when [N > 1] and 0 otherwise, and the average
    degree [2E / N] (0 when nothing is selected); hence density 1 for three
    nodes with three edges and 2/3 for three nodes with two edges. *)
Theorem extractSubgraphs_topology (cr : criteria) (g g' : graph) (sg : subgraph) :
  extractSubgraphs cr g = Ok g' sg ->
  let N := List.length (sg_nodes sg) in
  let E := List.length (sg_edges sg) in
  let t := topology_metrics sg in
  total_nodes_selected sg = N /\ total_edges_selected sg = E /\
  node_count t = N /\ edge_count t = E /\
  ((1 < N)%nat -> density t == 2 * Qnat E / (Qnat N * (Qnat N - 1))) /\
  ((N <= 1)%nat -> density t == 0) /\
  ((0 < N)%nat -> average_degree t == 2 * Qnat E / Qnat N) /\
  (N = 0%nat -> average_degree t == 0) /\
  (N = 3%nat -> E = 3%nat -> density t == 1) /\
  (N = 3%nat -> E = 2%nat -> density t == 2 # 3).
Proof.
  intros H N E t.
  destruct (extractSubgraphs_ok cr g g' sg H) as (nodes & es & Ht & Hn & He & Ln & Le).
  destruct (topology_density nodes es) as (D1 & D0 & A1 & A0).
  subst t. rewrite Ht. subst N E. rewrite Hn, He, Ln, Le.
  split; [reflexivity |]. split; [reflexivity |].
  split; [reflexivity |]. split; [reflexivity |].
  split; [intros L; rewrite (D1 L); reflexivity |].
  split; [intros L; rewrite (D0 L); reflexivity |].
  split; [intros L; rewrite (A1 L); reflexivity |].
  split; [intros L; rewrite (A0 L); reflexivity |].
  split.
  - intros L3 E3. rewrite D1 by lia. rewrite L3, E3. reflexivity.
  - intros L3 E2. rewrite D1 by lia. rewrite L3, E2. reflexivity.
Qed.

(** Three pairwise linked vertices: density 1; three vertices on a path:
    density 2/3. *)
Lemma extractSubgraphs_topology_witness :
  (exists g' sg,
      extractSubgraphs Session.no_criteria Session.triangle = Ok g' sg /\
      List.length (sg_nodes sg) = 3%nat /\ List.length (sg_edges sg) = 3%nat /\
      density (topology_metrics sg) == 1 /\
      average_degree (topology_metrics sg) == 2) /\
  (exists g' sg,
      extractSubgraphs Session.no_criteria Session.path = Ok g' sg /\
      List.length (sg_nodes sg) = 3%nat /\ List.length (sg_edges sg) = 2%nat /\
      density (topology_metrics sg) == 2 # 3).
Proof.
  split.
  - eexists. eexists.
    match goal with |- ?A /\ _ => assert (H : A) by (vm_compute; reflexivity) end.
    split; [exact H |].
    destruct (extractSubgraphs_topology _ _ _ _ H)
      as (_ & _ & _ & _ & _ & _ & A1 & _ & D3 & _).
    split; [reflexivity |]. split; [reflexivity |].
    split; [apply D3; reflexivity |].
    rewrite A1 by (simpl; lia). reflexivity.
  - eexists. eexists.
    match goal with |- ?A /\ _ => assert (H : A) by (vm_compute; reflexivity) end.
    split; [exact H |].
    destruct (extractSubgraphs_topology _ _ _ _ H)
      as (_ & _ & _ & _ & _ & _ & _ & _ & _ & D2).
    split; [reflexivity |]. split; [reflexivity |].
    apply D2; reflexivity.
Defined.

End Extract.

(** ** Stages 2 and 3 of the corrected variant: node identifiers *)

Module Ids.

Import Js Args Corrected.

Lemma layer_add_ok (lid nid : string) (g : graph) (ns : list string) :
  SMap.get lid (layers g) = Some ns ->
  layer_add lid nid g = Ok (with_layers (SMap.set lid (set_add ns nid)) g) tt.
Proof. unfold layer_add. intros ->. reflexivity. Qed.

(** One round of the decomposition loop. *)
Lemma decompose_body_ok (dim : string) (index : nat) (g : graph) (ns : list string) :
  SMap.get "base" (layers g) = Some ns ->
  let nodeId := "2." ++ string_of_nat (index + 1) in
  exists g',
    decompose_body dim index g = Ok g' nodeId /\
    currentStage g' = currentStage g /\
    SMap.get "base" (layers g') = Some (set_add ns nodeId) /\
    (forall lid, lid <> "base" -> SMap.get lid (layers g') = SMap.get lid (layers g)) /\
    (exists n, SMap.get nodeId (vertices g') = Some n /\
               label n = dim /\ type n = dimension /\
               means (confidence n) = [0.8; 0.8; 0.8; 0.8]) /\
    (forall id, id <> nodeId -> SMap.get id (vertices g') = SMap.get id (vertices g)) /\
    SMap.get ("e_n0_" ++ nodeId) (edges g')
    = Some (mk_edge ("e_n0_" ++ nodeId) "n0" nodeId "Decomposition"
                    (_createProbabilityDistribution [0.9; 0.9; 0.9; 0.9])).
Proof.
  intros Hb nodeId. unfold decompose_body. fold nodeId.
  unfold bind at 1. unfold modify at 1.
  unfold bind at 1. rewrite (layer_add_ok "base" nodeId _ ns) by exact Hb.
  unfold bind, modify, ret.
  eexists. split; [reflexivity |]. simpl.
  split; [reflexivity |].
  split; [apply get_set_same |].
  split; [intros lid N; apply get_set_other; exact N |].
  split.
  { eexists. split; [apply get_set_same |]. repeat split; reflexivity. }
  split; [intros id N; apply get_set_other; exact N |].
  apply get_set_same.
Qed.

(** One round of the hypothesis loop. *)
Lemma hypothesis_body_ok (dimId : string) (h : hypothesis_input) (index : nat)
      (g : graph) (nt : list string) (c : string) :
  SMap.get "theoretical" (layers g) = Some nt ->
  content_or_self h = Some c ->
  let nodeId := "3." ++ dimension_number dimId ++ "." ++ string_of_nat (index + 1) in
  exists g',
    hypothesis_body dimId h index g = Ok g' nodeId /\
    currentStage g' = currentStage g /\
    SMap.get "theoretical" (layers g') = Some (set_add nt nodeId) /\
    (exists n, SMap.get nodeId (vertices g') = Some n /\
               content n = Some c /\ type n = hypothesis) /\
    (forall id, id <> nodeId -> SMap.get id (vertices g') = SMap.get id (vertices g)) /\
    (exists e, SMap.get ("e_" ++ dimId ++ "_" ++ nodeId) (edges g') = Some e /\
               source e = dimId /\ target e = nodeId /\ edge_type e = "Hypothesis").
Proof.
  intros Ht Hc nodeId. unfold hypothesis_body. fold nodeId.
  unfold _assessInitialBiasRisk. rewrite Hc.
  unfold bind at 1. unfold ret at 1.
  unfold bind at 1. unfold modify at 1.
  unfold bind at 1. rewrite (layer_add_ok "theoretical" nodeId _ nt) by exact Ht.
  unfold bind, modify, ret.
  eexists. split; [reflexivity |]. simpl.
  split; [reflexivity |].
  split; [apply get_set_same |].
  split.
  { eexists. split; [apply get_set_same |]. split; reflexivity. }
  split; [intros id N; apply get_set_other; exact N |].
  eexists. split; [apply get_set_same |]. repeat split; reflexivity.
Qed.

Lemma corrected_check_stage_ok (n : nat) (g : graph) :
  currentStage g = n -> check_stage n g = Ok g tt.
Proof. unfold check_stage. intros ->. rewrite Nat.eqb_refl. reflexivity. Qed.

(** The identifiers of the corrected variant.  On any stage-1 graph that has
    the layers "base" and "theoretical": decomposeTask with the labels ["A", "B"]
    returns exactly ["2.1", "2.2"], the node "2.1" being the dimension "A"
    and "2.2" the dimension "B"; on the graph it leaves, generateHypotheses
    on "2.1" with three hypotheses returns exactly
    ["3.1.1", "3.1.2", "3.1.3"], each id holding the hypothesis at the same
    position of the input and being the target of a Hypothesis edge from
    "2.1". *)
Lemma deterministic_ids (g : graph) (h1 h2 h3 : hypothesis_input)
        (c1 c2 c3 : string) (nb nt : list string) :
  currentStage g = 1%nat ->
  SMap.get "base" (layers g) = Some nb ->
  SMap.get "theoretical" (layers g) = Some nt ->
  content_or_self h1 = Some c1 ->
  content_or_self h2 = Some c2 ->
  content_or_self h3 = Some c3 ->
  exists g1 g2 a b n1 n2 n3,
    decomposeTask (Some ["A"; "B"]) g = Ok g1 ["2.1"; "2.2"] /\
    SMap.get "2.1" (vertices g1) = Some a /\ label a = "A" /\ type a = dimension /\
    SMap.get "2.2" (vertices g1) = Some b /\ label b = "B" /\ type b = dimension /\
    generateHypotheses "2.1" [h1; h2; h3] None g1 = Ok g2 ["3.1.1"; "3.1.2"; "3.1.3"] /\
    SMap.get "3.1.1" (vertices g2) = Some n1 /\ content n1 = Some c1 /\
    SMap.get "3.1.2" (vertices g2) = Some n2 /\ content n2 = Some c2 /\
    SMap.get "3.1.3" (vertices g2) = Some n3 /\ content n3 = Some c3 /\
    type n1 = hypothesis /\ type n2 = hypothesis /\ type n3 = hypothesis /\
    currentStage g2 = 3%nat.
Proof.
  intros Hs Hb Ht H1 H2 H3.
  destruct (decompose_body_ok "A" 0 g nb Hb)
    as (ga & Ea & Sa & La & Oa & (a & Ga & Al & At & _) & Va & _).
  destruct (decompose_body_ok "B" 1 ga _ La)
    as (gb & Eb & Sb & Lb & Ob & (b & Gb & Bl & Bt & _) & Vb & _).
  change ("2." ++ string_of_nat (0 + 1)) with "2.1" in *.
  change ("2." ++ string_of_nat (1 + 1)) with "2.2" in *.
  assert (Htb : SMap.get "theoretical" (layers gb) = Some nt).
  { rewrite Ob by discriminate. rewrite Oa by discriminate. exact Ht. }
  assert (Gab : SMap.get "2.1" (vertices gb) = Some a).
  { rewrite Vb by discriminate. exact Ga. }
  set (g1 := with_stage 2 gb).
  assert (D : decomposeTask (Some ["A"; "B"]) g = Ok g1 ["2.1"; "2.2"]).
  { unfold decomposeTask. rewrite (bind_ok _ _ _ _ _ (corrected_check_stage_ok 1 g Hs)).
    simpl arr_or. simpl collect_from.
    unfold bind at 1. unfold bind at 1. rewrite Ea.
    unfold bind at 1. unfold bind at 1. rewrite Eb.
    reflexivity. }
  destruct (hypothesis_body_ok "2.1" h1 0 g1 nt c1 Htb H1)
    as (k1 & E1 & S1 & L1 & (n1 & G1 & C1 & T1) & V1 & _).
  destruct (hypothesis_body_ok "2.1" h2 1 k1 _ c2 L1 H2)
    as (k2 & E2 & S2 & L2 & (n2 & G2 & C2 & T2) & V2 & _).
  destruct (hypothesis_body_ok "2.1" h3 2 k2 _ c3 L2 H3)
    as (k3 & E3 & S3 & L3 & (n3 & G3 & C3 & T3) & V3 & _).
  change ("3." ++ dimension_number "2.1" ++ "." ++ string_of_nat (0 + 1)) with "3.1.1" in *.
  change ("3." ++ dimension_number "2.1" ++ "." ++ string_of_nat (1 + 1)) with "3.1.2" in *.
  change ("3." ++ dimension_number "2.1" ++ "." ++ string_of_nat (2 + 1)) with "3.1.3" in *.
  exists g1, (with_stage 3 k3), a, b, n1, n2, n3.
  split; [exact D |].
  split; [exact Gab |]. split; [exact Al |]. split; [exact At |].
  split; [exact Gb |]. split; [exact Bl |]. split; [exact Bt |].
  split.
  { unfold generateHypotheses.
    rewrite (bind_ok _ _ _ _ _ (corrected_check_stage_ok 2 g1 eq_refl)).
    assert (Hv : check_vertex "2.1" g1 = Ok g1 tt).
    { unfold check_vertex, SMap.has. simpl vertices. rewrite Gab. reflexivity. }
    rewrite (bind_ok _ _ _ _ _ Hv).
    simpl firstn. simpl collect_from.
    unfold bind at 1. unfold bind at 1. rewrite E1.
    unfold bind at 1. unfold bind at 1. rewrite E2.
    unfold bind at 1. unfold bind at 1. rewrite E3.
    reflexivity. }
  simpl vertices.
  split; [rewrite V3 by discriminate; rewrite V2 by discriminate; exact G1 |].
  split; [exact C1 |].
  split; [rewrite V3 by discriminate; exact G2 |].
  split; [exact C2 |].
  split; [exact G3 |].
  split; [exact C3 |].
  repeat split; assumption.
Qed.

(** The session that starts from a fresh graph, with three plain strings as
    hypotheses. *)
Lemma deterministic_ids_witness :
  exists g1 g2,
    decomposeTask (Some ["A"; "B"])
      (state_of (initialize "Study X" None None (new_graph true)))
    = Ok g1 ["2.1"; "2.2"] /\
    generateHypotheses "2.1" [HText "h1"; HText "h2"; HText "h3"] None g1
    = Ok g2 ["3.1.1"; "3.1.2"; "3.1.3"] /\
    SMap.keys (vertices g2) = ["n0"; "2.1"; "2.2"; "3.1.1"; "3.1.2"; "3.1.3"].
Proof.
  destruct (deterministic_ids
              (state_of (initialize "Study X" None None (new_graph true)))
              (HText "h1") (HText "h2") (HText "h3") "h1" "h2" "h3" ["n0"] []
              eq_refl eq_refl eq_refl eq_refl eq_refl eq_refl)
    as (g1 & g2 & a & b & n1 & n2 & n3 & D & _ & _ & _ & _ & _ & _ & G & _).
  exists g1, g2. split; [exact D |]. split; [exact G |].
  vm_compute in D. injection D as <-.
  vm_compute in G. injection G as <-.
  reflexivity.
Defined.

(** The backup variant on the same inputs: the ids carry the prefixes "n" and
    "h_", and "2.1" names no vertex. *)
Lemma backup_identifiers :
  let g0 := state_of (Backup.initialize "Study X" None None (Backup.new_graph true)) in
  exists g1 g2,
    Backup.decomposeTask (Some ["A"; "B"]) g0 = Ok g1 ["n2.1"; "n2.2"] /\
    Backup.generateHypotheses "2.1" [HText "h1"; HText "h2"; HText "h3"] None g1
    = Throw g1 (NotFound "2.1") /\
    Backup.generateHypotheses "n2.1" [HText "h1"; HText "h2"; HText "h3"] None g1
    = Ok g2 ["h_n2.1_1"; "h_n2.1_2"; "h_n2.1_3"].
Proof. eexists. eexists. vm_compute. repeat split; reflexivity. Qed.

(** C7 (code defect).  The claim's session on the two variants it cites.
    [index-backup.js]: decomposeTask with the labels ["A", "B"] returns
    ["n2.1", "n2.2"], no vertex is called "2.1" or "2.2", generateHypotheses
    on "2.1" throws "Dimension node 2.1 not found" and leaves the graph as it
    was, and on "n2.1" it returns ["h_n2.1_1", "h_n2.1_2", "h_n2.1_3"].
    [index-corrected.js]: the same calls return ["2.1", "2.2"] and
    ["3.1.1", "3.1.2", "3.1.3"], in the order of the input, and the
    hypotheses of "2.2" are numbered "3.2.1", "3.2.2", "3.2.3". *)
Theorem identifiers_by_variant :
  let hs := [HText "h1"; HText "h2"; HText "h3"] in
  let b0 := state_of (Backup.initialize "Study X" None None (Backup.new_graph true)) in
  let c0 := state_of (initialize "Study X" None None (new_graph true)) in
  (exists b1 b2,
      Backup.decomposeTask (Some ["A"; "B"]) b0 = Ok b1 ["n2.1"; "n2.2"] /\
      SMap.keys (Backup.vertices b1) = ["n0"; "n2.1"; "n2.2"] /\
      Backup.generateHypotheses "2.1" hs None b1 = Throw b1 (NotFound "2.1") /\
      Backup.generateHypotheses "n2.1" hs None b1
      = Ok b2 ["h_n2.1_1"; "h_n2.1_2"; "h_n2.1_3"] /\
      map (fun id => option_map Backup.content (SMap.get id (Backup.vertices b2)))
          ["h_n2.1_1"; "h_n2.1_2"; "h_n2.1_3"]
      = [Some (Some "h1"); Some (Some "h2"); Some (Some "h3")]) /\
  (exists c1 c2 c3,
      decomposeTask (Some ["A"; "B"]) c0 = Ok c1 ["2.1"; "2.2"] /\
      map (fun id => option_map label (SMap.get id (vertices c1))) ["2.1"; "2.2"]
      = [Some "A"; Some "B"] /\
      generateHypotheses "2.1" hs None c1 = Ok c2 ["3.1.1"; "3.1.2"; "3.1.3"] /\
      map (fun id => option_map content (SMap.get id (vertices c2)))
          ["3.1.1"; "3.1.2"; "3.1.3"]
      = [Some (Some "h1"); Some (Some "h2"); Some (Some "h3")] /\
      generateHypotheses "2.2" hs None c1 = Ok c3 ["3.2.1"; "3.2.2"; "3.2.3"]).
Proof.
  intros hs b0 c0. split.
  - eexists. eexists. vm_compute. repeat split; reflexivity.
  - eexists. eexists. eexists. vm_compute. repeat split; reflexivity.
Qed.

End Ids.

(** ** Stage 4: bounds on the confidence components *)

Module Bounds.

Import Js Args Backup View.

Lemma clamp_range (x : Q) : Spec.in_update_range (clamp x).
Proof.
  unfold Spec.in_update_range, clamp. split.
  - apply Q.min_glb; [discriminate | apply Q.le_max_l].
  - apply Q.le_min_l.
Qed.

Lemma update_confidence_range (c f c' : list Q) :
  update_confidence c f = Some c' -> Forall Spec.in_update_range c'.
Proof.
  revert f c'. induction c as [| x c IH]; intros f c' H; simpl in H.
  - injection H as <-. constructor.
  - destruct f as [| y f]; [discriminate H |].
    destruct (update_confidence c f) as [r |] eqn:E; [| discriminate H].
    injection H as <-. constructor; [apply clamp_range | eapply IH; exact E].
Qed.

Lemma update_node_same (k : string) (f : node -> node) (g g' : graph) (u : unit) :
  update_node k f g = Ok g' u ->
  conf_at g' k = option_map (fun n => confidence (f n)) (SMap.get k (vertices g)).
Proof.
  unfold update_node, conf_at.
  destruct (SMap.get k (vertices g)) as [n |]; [| discriminate].
  intros [= <- _]. simpl. rewrite get_set_same. reflexivity.
Qed.

Lemma update_node_other (k k' : string) (f : node -> node) (g g' : graph) (u : unit) :
  update_node k f g = Ok g' u -> k' <> k -> conf_at g' k' = conf_at g k'.
Proof.
  unfold update_node, conf_at.
  destruct (SMap.get k (vertices g)) as [n |]; [| discriminate].
  intros [= <- _] N. simpl. rewrite get_set_other by exact N. reflexivity.
Qed.

(** A mutation of the metadata changes no confidence vector. *)
Lemma update_node_metadata (k k' : string) (f : metadata -> metadata)
      (g g' : graph) (u : unit) :
  update_node k (with_metadata f) g = Ok g' u -> conf_at g' k' = conf_at g k'.
Proof.
  intros H. destruct (String.eqb_spec k' k) as [-> | N].
  - rewrite (update_node_same _ _ _ _ _ H). unfold conf_at.
    destruct (SMap.get k (vertices g)); reflexivity.
  - exact (update_node_other _ _ _ _ _ _ H N).
Qed.

Lemma bridges_conf (evidenceId hypothesisId k : string) (g g' : graph) (u : unit) :
  _checkInterdisciplinaryBridges evidenceId hypothesisId g = Ok g' u ->
  k <> "ibn_" ++ evidenceId ++ "_" ++ hypothesisId ->
  conf_at g' k = conf_at g k.
Proof.
  unfold _checkInterdisciplinaryBridges, bind, get_node. intros H N.
  destruct (SMap.get evidenceId (vertices g)) as [ev |]; [| discriminate H].
  destruct (SMap.get hypothesisId (vertices g)) as [hyp |]; [| discriminate H].
  destruct (_calculateSemanticSimilarity (content ev) (content hyp)) as [sim |];
    [| discriminate H].
  destruct ((List.length _ =? 0)%nat && Qltb 0.5 sim).
  - unfold modify, layer_add in H. simpl in H.
    destruct (SMap.get "interdisciplinary" (layers g)); [| discriminate H].
    injection H as <- _. unfold conf_at. simpl.
    rewrite get_set_other by exact N. reflexivity.
  - unfold ret in H. injection H as <- _. reflexivity.
Qed.

Lemma hyperedge_vertices (evidenceId : string) (g g' : graph) (u : unit) :
  _checkHyperedgeCreation evidenceId g = Ok g' u -> vertices g' = vertices g.
Proof.
  unfold _checkHyperedgeCreation, bind, get_state. intros H.
  destruct (2 <? _)%nat.
  - unfold modify in H. injection H as <- _. reflexivity.
  - unfold ret in H. injection H as <- _. reflexivity.
Qed.

Lemma adaptTopology_conf (evidenceId hypothesisId k : string) (g g' : graph) (u : unit) :
  _adaptTopology evidenceId hypothesisId g = Ok g' u -> conf_at g' k = conf_at g k.
Proof.
  unfold _adaptTopology. intros H.
  bind_inv H. bind_inv H. bind_inv H. bind_inv H.
  unfold get_state in E, E1. injection E as <- _. injection E1 as <- _.
  unfold _updateCommunityStructure in H.
  destruct (existsb _ _); [discriminate H |]. injection H as <- _.
  rewrite (update_node_metadata _ k _ _ _ _ E2).
  exact (update_node_metadata _ k _ _ _ _ E0).
Qed.

Lemma ibn_id_fresh (evidenceId hypothesisId : string) :
  hypothesisId <> "ibn_" ++ evidenceId ++ "_" ++ hypothesisId /\
  evidenceId <> "ibn_" ++ evidenceId ++ "_" ++ hypothesisId.
Proof.
  split; intros E; apply (f_equal String.length) in E;
    rewrite !length_append in E; simpl in E; lia.
Qed.

Lemma scaled_in_unit_interval (decay : Q) (c : list Q) :
  0 <= decay -> decay <= 1 ->
  Forall Spec.in_unit_interval c ->
  Forall Spec.in_unit_interval (map (fun x => x * decay) c).
Proof.
  intros D0 D1 H. induction H as [| x c [X0 X1] _ IH]; simpl; constructor; [| exact IH].
  split.
  - apply Qmult_le_0_compat; assumption.
  - apply Qle_trans with (1 * decay).
    + apply Qmult_le_compat_r; assumption.
    + rewrite Qmult_1_l. exact D1.
Qed.

Lemma conf_at_vertices (g1 g2 : graph) (k : string) :
  vertices g1 = vertices g2 -> conf_at g1 k = conf_at g2 k.
Proof. unfold conf_at. intros ->. reflexivity. Qed.

Lemma layer_add_vertices (lid nid : string) (g g' : graph) (u : unit) :
  layer_add lid nid g = Ok g' u -> vertices g' = vertices g.
Proof.
  unfold layer_add. destruct (SMap.get lid (layers g)); [| discriminate].
  intros [= <- _]. reflexivity.
Qed.

Lemma get_node_inv (k : string) (g g' : graph) (n : node) :
  get_node k g = Ok g' n -> g' = g /\ SMap.get k (vertices g) = Some n.
Proof.
  unfold get_node. destruct (SMap.get k (vertices g)); [| discriminate].
  intros [= <- <-]. split; reflexivity.
Qed.

(** What a returning call of [integrateEvidence] leaves under the two ids it
    works on. *)
Lemma integrateEvidence_confidences hyp ev token decay g g' r :
  "e_" ++ token <> hyp ->
  integrateEvidence hyp ev token decay g = Ok g' r ->
  conf_at g' hyp = Some (updated_confidence r) /\
  Forall Spec.in_update_range (updated_confidence r) /\
  conf_at g' ("e_" ++ token)
  = Some (map (fun c => c * decay) (arr_or (ev_confidence ev) [0.7; 0.7; 0.7; 0.7])).
Proof.
  intros Hne H. unfold integrateEvidence in H.
  do 6 bind_inv H.
  destruct (_calculateBayesianUpdate ev _) as [uf |]; [| discriminate H].
  destruct (update_confidence _ uf) as [c' |] eqn:Hu; [| discriminate H].
  do 7 bind_inv H.
  set (evidenceId := "e_" ++ token) in *.
  set (conf0 := arr_or (ev_confidence ev) [0.7; 0.7; 0.7; 0.7]) in *.
  destruct (ibn_id_fresh evidenceId hyp) as [Fh Fe].
  assert (Hne' : hyp <> evidenceId) by (intros X; apply Hne; symmetry; exact X).
  (* the evidence node is stored *)
  assert (C1 : conf_at s1 evidenceId = Some conf0).
  { unfold modify in E1. injection E1 as <- _. unfold conf_at. simpl.
    rewrite get_set_same. reflexivity. }
  assert (C3 : conf_at s3 evidenceId = Some conf0).
  { unfold modify in E3. injection E3 as <- _.
    rewrite <- C1. apply conf_at_vertices. simpl.
    exact (layer_add_vertices _ _ _ _ _ E2). }
  destruct (get_node_inv _ _ _ _ E4) as [-> G4].
  (* the hypothesis is updated *)
  assert (H5 : conf_at s5 hyp = Some c').
  { rewrite (update_node_same _ _ _ _ _ E5), G4. reflexivity. }
  assert (C5 : conf_at s5 evidenceId = Some conf0).
  { rewrite (update_node_other _ _ _ _ _ _ E5 Hne). exact C3. }
  assert (H7 : conf_at s7 hyp = Some c').
  { rewrite (conf_at_vertices _ _ _ (hyperedge_vertices _ _ _ _ E7)).
    rewrite (bridges_conf _ _ _ _ _ _ E6 Fh). exact H5. }
  assert (C7 : conf_at s7 evidenceId = Some conf0).
  { rewrite (conf_at_vertices _ _ _ (hyperedge_vertices _ _ _ _ E7)).
    rewrite (bridges_conf _ _ _ _ _ _ E6 Fe). exact C5. }
  (* the decay scales the evidence node *)
  unfold _applyTemporalDecay in E8.
  assert (C8 : conf_at s8 evidenceId = Some (map (fun c => c * decay) conf0)).
  { rewrite (update_node_same _ _ _ _ _ E8).
    unfold conf_at in C7. destruct (SMap.get evidenceId (vertices s7)) as [n |];
      [| discriminate C7].
    simpl in C7. injection C7 as C7. simpl. rewrite C7. reflexivity. }
  assert (H8 : conf_at s8 hyp = Some c').
  { rewrite (update_node_other _ _ _ _ _ _ E8 Hne'). exact H7. }
  assert (H10 : conf_at s10 hyp = Some c' /\
                conf_at s10 evidenceId = Some (map (fun c => c * decay) conf0)).
  { unfold modify in E10. injection E10 as <- _.
    split.
    - rewrite <- H8, <- (adaptTopology_conf _ _ hyp _ _ _ E9). reflexivity.
    - rewrite <- C8, <- (adaptTopology_conf _ _ evidenceId _ _ _ E9). reflexivity. }
  destruct H10 as [H10 C10].
  destruct (get_node_inv _ _ _ _ E11) as [-> G11].
  unfold ret in H. injection H as <- <-. simpl.
  assert (Hc : confidence a11 = c').
  { unfold conf_at in H10. rewrite G11 in H10. simpl in H10.
    injection H10 as H10. exact H10. }
  rewrite Hc. split; [exact H10 |]. split; [| exact C10].
  exact (update_confidence_range _ _ _ Hu).
Qed.

(** The rational model returns from the update exactly when every
    component of the target has a factor. *)
Lemma update_confidence_defined (c f : list Q) :
  update_confidence c f = None <-> (List.length f < List.length c)%nat.
Proof.
  revert f. induction c as [| x c IH]; intros f; simpl.
  - split; [discriminate | lia].
  - destruct f as [| y f]; simpl; [split; [lia | reflexivity] |].
    specialize (IH f). destruct (update_confidence c f) as [r |].
    + split; [discriminate |]. intros H.
      assert (X : @None (list Q) = Some r) by (symmetry; apply IH; lia). discriminate X.
    + split; [intros _ | reflexivity]. assert (List.length f < List.length c)%nat; [| lia].
      apply IH. reflexivity.
Qed.

(** In the rational model, where a returning call means that the target has
    no more components than there are update factors: after a returning
    call of integrateEvidence whose new evidence id differs from the target
    id, every confidence component of the target node, which is the vector
    the call returns, lies in [0.01, 0.99]; the evidence node holds the
    supplied vector (or the default [0.7, 0.7, 0.7, 0.7]) scaled by the decay
    factor and not clamped, so its components stay in [0, 1] when they were
    there and the factor is in [0, 1]. *)
Lemma confidence_bounds hyp ev token decay g g' r :
  "e_" ++ token <> hyp ->
  integrateEvidence hyp ev token decay g = Ok g' r ->
  (exists h, SMap.get hyp (vertices g') = Some h /\
             confidence h = updated_confidence r /\
             Forall Spec.in_update_range (confidence h)) /\
  (exists e, SMap.get ("e_" ++ token) (vertices g') = Some e /\
             confidence e
             = map (fun c => c * decay) (arr_or (ev_confidence ev) [0.7; 0.7; 0.7; 0.7]) /\
             (0 <= decay -> decay <= 1 ->
              Forall Spec.in_unit_interval (arr_or (ev_confidence ev) [0.7; 0.7; 0.7; 0.7]) ->
              Forall Spec.in_unit_interval (confidence e))).
Proof.
  intros Hne H.
  destruct (integrateEvidence_confidences _ _ _ _ _ _ _ Hne H) as (Hh & Hr & He).
  unfold conf_at in Hh, He. split.
  - destruct (SMap.get hyp (vertices g')) as [h |]; [| discriminate Hh].
    simpl in Hh. injection Hh as Hh. exists h.
    split; [reflexivity |]. split; [exact Hh |]. rewrite Hh. exact Hr.
  - destruct (SMap.get ("e_" ++ token) (vertices g')) as [e |]; [| discriminate He].
    simpl in He. injection He as He. exists e.
    split; [reflexivity |]. split; [exact He |].
    intros D0 D1 Hu. rewrite He. apply scaled_in_unit_interval; assumption.
Qed.

(** The session of [Session.stage3_similar] with the evidence
    [Session.faint] and no ageing. *)
Lemma confidence_bounds_witness :
  exists g r h e,
    Session.first_call Session.stage3_similar "h_n2.1_1" Session.faint = Ok g r /\
    SMap.get "h_n2.1_1" (vertices g) = Some h /\
    Forall Spec.in_update_range (confidence h) /\
    SMap.get "e_abcd1234" (vertices g) = Some e /\
    Forall Spec.in_unit_interval (confidence e).
Proof.
  unfold Session.first_call.
  destruct (integrateEvidence "h_n2.1_1" Session.faint "abcd1234" 1 Session.stage3_similar)
    as [g r | g err] eqn:H; [| vm_compute in H; discriminate H].
  assert (Hne : "e_" ++ "abcd1234" <> "h_n2.1_1") by discriminate.
  destruct (confidence_bounds "h_n2.1_1" Session.faint "abcd1234" 1
              Session.stage3_similar g r Hne H)
    as ((h & Gh & _ & Rh) & (e & Ge & _ & Re)).
  exists g, r, h, e. split; [reflexivity |]. split; [exact Gh |].
  split; [exact Rh |]. split; [exact Ge |].
  apply Re; [discriminate | discriminate |].
  repeat constructor; discriminate.
Defined.

(** C3, the claim as stated, refuted.  In the same session the evidence
    vector [0.005, 0.5, 0.5, 0.5] has all its components in [0, 1]; after
    the call, with decay factor 1, the evidence node, whose confidence the
    temporal decay has just rewritten, has the component 0.005 below 0.01. *)
Lemma decay_is_not_clamped :
  exists g r e c,
    Session.first_call Session.stage3_similar "h_n2.1_1" Session.faint = Ok g r /\
    Forall Spec.in_unit_interval [0.005; 0.5; 0.5; 0.5] /\
    SMap.get "e_abcd1234" (vertices g) = Some e /\
    temporal_decay_applied (node_metadata e) = Some 1 /\
    In c (confidence e) /\
    ~ Spec.in_update_range c.
Proof.
  eexists. eexists. eexists. exists (0.005 * 1).
  split; [vm_compute; reflexivity |].
  split; [repeat constructor; discriminate |].
  split; [vm_compute; reflexivity |].
  split; [reflexivity |].
  split; [left; reflexivity |].
  intros [L _]. vm_compute in L. apply L. reflexivity.
Qed.

End Bounds.

(** ** Stage 4: the clamped update on doubles *)

Module Doubles.

Import Floats Binary64.

Lemma compare_nan_r (x : spec_float) : SFcompare x S754_nan = None.
Proof. destruct x; reflexivity. Qed.

(** Two numbers are comparable unless one of them is NaN. *)
Lemma compare_defined (x y : spec_float) :
  SFcompare x y = None <-> x = S754_nan \/ y = S754_nan.
Proof.
  split.
  - destruct x as [s1 | s1 | | s1 m1 e1], y as [s2 | s2 | | s2 m2 e2]; simpl;
      try discriminate; try (intros _; left; reflexivity); try (intros _; right; reflexivity).
  - intros [-> | ->]; [reflexivity | apply compare_nan_r].
Qed.

Lemma compare_swap (x y : spec_float) :
  SFcompare y x = option_map CompOpp (SFcompare x y).
Proof.
  destruct x as [s1 | s1 | | s1 m1 e1], y as [s2 | s2 | | s2 m2 e2]; simpl;
    try reflexivity;
    try (destruct s1; reflexivity); try (destruct s2; reflexivity);
    try (destruct s1, s2; reflexivity).
  destruct s1, s2; try reflexivity;
    rewrite (Z.compare_antisym e1 e2); destruct (e1 ?= e2)%Z; simpl; try reflexivity;
    change (Pos.compare_cont Eq m2 m1) with (Pos.compare m2 m1);
    change (Pos.compare_cont Eq m1 m2) with (Pos.compare m1 m2);
    rewrite (Pos.compare_antisym m1 m2); destruct (m1 ?= m2)%positive; reflexivity.
Qed.

Lemma is_nan_spec (x : number) : is_nan x = true <-> Prim2SF x = S754_nan.
Proof.
  unfold is_nan. rewrite eqb_spec. unfold SFeqb.
  destruct (SFcompare (Prim2SF x) (Prim2SF x)) as [c |] eqn:E.
  - assert (N : SFcompare (Prim2SF x) (Prim2SF x) <> None) by (rewrite E; discriminate).
    rewrite compare_defined in N.
    pose proof (compare_swap (Prim2SF x) (Prim2SF x)) as S. rewrite E in S. simpl in S.
    injection S as S. destruct c; try discriminate S. simpl.
    split; [discriminate | intros H; exfalso; apply N; left; exact H].
  - simpl. apply compare_defined in E. split; [intros _ | reflexivity].
    destruct E; assumption.
Qed.

Lemma ltb_leb (x y : number) : ltb x y = true -> leb x y = true.
Proof.
  rewrite ltb_spec, leb_spec. unfold SFltb, SFleb.
  destruct (SFcompare (Prim2SF x) (Prim2SF y)) as [[| |] |]; try discriminate; reflexivity.
Qed.

Lemma not_ltb_leb (x y : number) :
  is_nan x = false -> is_nan y = false -> ltb x y = false -> leb y x = true.
Proof.
  intros Nx Ny. rewrite ltb_spec, leb_spec. unfold SFltb, SFleb.
  rewrite (compare_swap (Prim2SF x) (Prim2SF y)).
  destruct (SFcompare (Prim2SF x) (Prim2SF y)) as [[| |] |] eqn:E; simpl;
    try discriminate; try reflexivity.
  intros _. apply compare_defined in E.
  destruct E as [E | E]; apply is_nan_spec in E; congruence.
Qed.

(** NaN is below nothing and above nothing. *)
Lemma leb_nan (x y : number) : leb x y = true -> is_nan x = false /\ is_nan y = false.
Proof.
  rewrite leb_spec. unfold SFleb.
  destruct (SFcompare (Prim2SF x) (Prim2SF y)) as [c |] eqn:E; [| discriminate].
  intros _.
  assert (N : SFcompare (Prim2SF x) (Prim2SF y) <> None) by (rewrite E; discriminate).
  rewrite compare_defined in N.
  split; [destruct (is_nan x) eqn:X | destruct (is_nan y) eqn:Y]; try reflexivity;
    exfalso; apply N; [left | right]; apply is_nan_spec; assumption.
Qed.

(** A product with NaN is NaN. *)
Lemma mul_nan (c : number) : is_nan (mul c nan) = true.
Proof.
  apply is_nan_spec. rewrite mul_spec.
  change (Prim2SF nan) with S754_nan. destruct (Prim2SF c); reflexivity.
Qed.

Lemma Math_max_lower (p : number) :
  is_nan p = false ->
  is_nan (Math_max lower p) = false /\ leb lower (Math_max lower p) = true.
Proof.
  intros Np. unfold Math_max. rewrite Np.
  change (is_nan lower) with false. simpl orb.
  destruct (ltb lower p) eqn:A.
  - split; [exact Np | apply ltb_leb; exact A].
  - destruct (ltb p lower) eqn:B.
    + split; reflexivity.
    + change (get_sign lower) with false. cbv iota. split; reflexivity.
Qed.

(** The clamp of a number that is not NaN lies between the bounds. *)
Lemma clamp_in_range (p : number) :
  is_nan p = false -> clamped (Math_min upper (Math_max lower p)).
Proof.
  intros Np. destruct (Math_max_lower p Np) as (Nm & Lm).
  set (m := Math_max lower p) in *.
  unfold Math_min, clamped. change (is_nan upper) with false. rewrite Nm. simpl orb.
  destruct (ltb upper m) eqn:A.
  - split; reflexivity.
  - destruct (ltb m upper) eqn:B.
    + split; [exact Lm | apply ltb_leb; exact B].
    + change (get_sign upper) with false. cbv iota.
      split; [exact Lm |]. apply not_ltb_leb; [reflexivity | exact Nm | exact A].
Qed.

(** The clamp of NaN is NaN. *)
Lemma clamp_nan (p : number) :
  is_nan p = true -> Math_min upper (Math_max lower p) = nan.
Proof.
  intros Np. unfold Math_max. rewrite Np, orb_true_r.
  unfold Math_min. change (is_nan nan) with true. rewrite orb_true_r. reflexivity.
Qed.

(** C3 (as amended).  The update of integrateEvidence (lines 479-481) keeps
    the length of the target's confidence vector, and every component it
    stores is NaN or lies in [0.01, 0.99], never both.  A component is NaN
    exactly when its product with its update factor is NaN, a missing factor
    counting as NaN: so every component beyond the last factor, with the four
    factors of [_calculateBayesianUpdate] every component beyond the fourth,
    becomes NaN. *)
Theorem update_is_clamped (confidence updateFactor : list number) :
  let updated := update_confidence confidence updateFactor in
  List.length updated = List.length confidence /\
  (forall i x,
      nth_error updated i = Some x ->
      (is_nan x = true \/ clamped x) /\ ~ (is_nan x = true /\ clamped x)) /\
  (forall i c x,
      nth_error confidence i = Some c ->
      nth_error updated i = Some x ->
      (is_nan x = true <-> is_nan (mul c (nth i updateFactor nan)) = true)) /\
  (forall i x,
      (List.length updateFactor <= i)%nat ->
      nth_error updated i = Some x -> is_nan x = true).
Proof.
  intros updated. subst updated.
  assert (Step : forall p : number,
             let x := Math_min upper (Math_max lower p) in
             ((is_nan x = true \/ clamped x) /\ ~ (is_nan x = true /\ clamped x)) /\
             (is_nan x = true <-> is_nan p = true)).
  { intros p x. subst x. destruct (is_nan p) eqn:Np.
    - rewrite (clamp_nan p Np). split; [split |].
      + left. reflexivity.
      + intros [_ [L _]]. apply leb_nan in L. destruct L as [_ L]. discriminate L.
      + split; reflexivity.
    - pose proof (clamp_in_range p Np) as R. split; [split |].
      + right. exact R.
      + intros [X [L _]]. apply leb_nan in L. destruct L as [_ L].
        rewrite L in X. discriminate X.
      + destruct R as [L _]. apply leb_nan in L. destruct L as [_ L]. rewrite L.
        split; discriminate. }
  split; [| split; [| split]].
  - revert updateFactor. induction confidence as [| c rest IH]; intros updateFactor; simpl;
      [reflexivity | rewrite IH; reflexivity].
  - revert updateFactor. induction confidence as [| c rest IH]; intros updateFactor i x H;
      [destruct i; discriminate H |].
    destruct i as [| i]; simpl in H.
    + injection H as <-. apply Step.
    + exact (IH _ i x H).
  - revert updateFactor. induction confidence as [| c rest IH]; intros updateFactor i c0 x Hc H;
      [destruct i; discriminate Hc |].
    destruct i as [| i]; simpl in Hc, H.
    + injection Hc as <-. injection H as <-.
      destruct (Step (mul c match updateFactor with [] => nan | f :: _ => f end)) as [_ E].
      rewrite E. destruct updateFactor; reflexivity.
    + rewrite (IH _ i c0 x Hc H). destruct updateFactor as [| f fs]; simpl; [| reflexivity].
      destruct i; reflexivity.
  - revert updateFactor. induction confidence as [| c rest IH]; intros updateFactor i x Hi H;
      [destruct i; discriminate H |].
    destruct i as [| i]; simpl in H.
    + injection H as <-. destruct updateFactor as [| f fs]; [| simpl in Hi; lia].
      destruct (Step (mul c nan)) as [_ E]. apply E. apply mul_nan.
    + apply (IH (tl updateFactor) i x); [| exact H].
      destruct updateFactor as [| f fs]; simpl in *; lia.
Qed.

(** The run with a target of five components: every factor is 1.108, and
    the fifth component comes out as NaN. *)
Lemma fifth_component_is_nan :
  map is_nan
      (update_confidence (map of_decimal [0.5; 0.5; 0.5; 0.5; 0.5])
                         (map of_decimal [1.108; 1.108; 1.108; 1.108]))
  = [false; false; false; false; true].
Proof. vm_compute. reflexivity. Qed.

End Doubles.

(** ** Stage 5: the pruning pass *)

Module Prune.

Import Js Args Backup View.

Section Keys.
Context {V : Type}.
Implicit Types (m : list (string * V)).

Lemma filter_all m (f : string * V -> bool) :
  (forall kv, In kv m -> f kv = true) -> filter f m = m.
Proof.
  induction m as [| kv m IH]; intros H; simpl; [reflexivity |].
  rewrite (H kv (or_introl eq_refl)). f_equal. apply IH.
  intros kv' Hin. apply H. right. exact Hin.
Qed.

Lemma filter_twice m (f h : string * V -> bool) :
  filter f (filter h m) = filter (fun kv => h kv && f kv) m.
Proof.
  induction m as [| kv m IH]; simpl; [reflexivity |].
  destruct (h kv); simpl; [destruct (f kv); rewrite IH; reflexivity | exact IH].
Qed.

(** Deleting a list of keys one by one keeps the entries whose key is not
    in the list. *)
Lemma delete_keys m (ks : list string) :
  fold_left (fun acc k => SMap.delete k acc) ks m
  = filter (fun kv => negb (mem (fst kv) ks)) m.
Proof.
  revert m. induction ks as [| k ks IH]; intros m; simpl.
  - symmetry. apply filter_all. reflexivity.
  - rewrite IH. unfold SMap.delete. rewrite filter_twice.
    apply filter_ext. intros kv. rewrite (String.eqb_sym k (fst kv)).
    destruct (String.eqb (fst kv) k); reflexivity.
Qed.

Lemma keys_unique m (k : string) (v v' : V) :
  NoDup (SMap.keys m) -> In (k, v) m -> In (k, v') m -> v = v'.
Proof.
  intros ND H H'. apply (in_get _ _ _ ND) in H. apply (in_get _ _ _ ND) in H'.
  rewrite H in H'. injection H' as ->. reflexivity.
Qed.

Lemma key_mem_filter m (f : string * V -> bool) (kv : string * V) :
  NoDup (SMap.keys m) -> In kv m ->
  mem (fst kv) (map fst (filter f m)) = f kv.
Proof.
  intros ND Hin. destruct (f kv) eqn:E.
  - apply SetFacts.mem_in. apply in_map. apply filter_In. split; assumption.
  - destruct (mem (fst kv) (map fst (filter f m))) eqn:M; [| reflexivity].
    apply SetFacts.mem_in in M. apply in_map_iff in M.
    destruct M as [[k' v'] [Ek Hf]]. apply filter_In in Hf. destruct Hf as [Hin' Ef].
    destruct kv as [k v]. simpl in Ek. subst k'.
    rewrite (keys_unique m k v v' ND Hin Hin') in E. rewrite E in Ef. discriminate Ef.
Qed.

Lemma nodup_keys_filter m (f : string * V -> bool) :
  NoDup (SMap.keys m) -> NoDup (SMap.keys (filter f m)).
Proof.
  unfold SMap.keys. induction m as [| kv m IH]; intros ND; simpl; [constructor |].
  inversion ND as [| x l Hnot ND']; subst.
  destruct (f kv); simpl; [| apply IH; exact ND'].
  constructor; [| apply IH; exact ND'].
  intros Hin. apply Hnot. apply in_map_iff in Hin. destruct Hin as [kv' [E Hf]].
  apply filter_In in Hf. apply in_map_iff. exists kv'. split; [exact E | apply Hf].
Qed.

Lemma get_filter_keys m (f : string -> bool) (k : string) :
  SMap.get k (filter (fun kv => f (fst kv)) m) = if f k then SMap.get k m else None.
Proof.
  induction m as [| [k' v'] m IH]; simpl; [destruct (f k); reflexivity |].
  destruct (String.eqb_spec k k') as [<- | N].
  - destruct (f k) eqn:E; simpl.
    + rewrite String.eqb_refl. reflexivity.
    + exact IH.
  - destruct (f k'); simpl; [| exact IH].
    apply String.eqb_neq in N. rewrite N. exact IH.
Qed.
End Keys.

(** [_removeNode] on a graph whose edge ids are distinct. *)
Lemma removeNode_effect (nodeId : string) (g : graph) :
  NoDup (SMap.keys (edges g)) ->
  exists g',
    _removeNode nodeId g = Ok g' tt /\
    vertices g' = SMap.delete nodeId (vertices g) /\
    edges g' = filter (untouched nodeId) (edges g) /\
    currentStage g' = currentStage g.
Proof.
  intros ND. unfold _removeNode, modify. eexists. split; [reflexivity |]. simpl.
  split; [reflexivity |]. split; [| reflexivity].
  rewrite delete_keys. apply filter_ext_in. intros kv Hin.
  unfold untouched. f_equal.
  exact (key_mem_filter (edges g) (fun kv => incident nodeId (snd kv)) kv ND Hin).
Qed.

(** The pruning loop over any list of entries. *)
Lemma prune_loop_effect (thr : Binary64.number) (entries : list (string * node)) (g : graph) :
  NoDup (SMap.keys (edges g)) ->
  exists g',
    prune_loop thr entries g = Ok g' (pruned_of thr entries) /\
    vertices g'
    = filter (fun kv => negb (mem (fst kv) (pruned_of thr entries))) (vertices g) /\
    edges g' = filter (fun kv => negb (touched_by (pruned_of thr entries) kv)) (edges g) /\
    currentStage g' = currentStage g.
Proof.
  revert g. induction entries as [| [nodeId n] entries IH]; intros g ND.
  - exists g. split; [reflexivity |]. unfold pruned_of. simpl.
    split; [symmetry; apply filter_all; reflexivity |].
    split; [symmetry; apply filter_all; reflexivity | reflexivity].
  - unfold pruned_of. simpl. destruct (prunable thr nodeId n) eqn:P.
    + destruct (removeNode_effect nodeId g ND) as (g1 & R & V1 & E1 & S1).
      assert (ND1 : NoDup (SMap.keys (edges g1))).
      { rewrite E1. apply nodup_keys_filter. exact ND. }
      destruct (IH g1 ND1) as (g' & L & V' & E' & S').
      exists g'. split.
      { rewrite (bind_ok _ _ _ _ _ R). rewrite (bind_ok _ _ _ _ _ L). reflexivity. }
      fold (pruned_of thr entries). simpl.
      split.
      { rewrite V', V1. unfold SMap.delete. rewrite filter_twice.
        apply filter_ext. intros kv. rewrite (String.eqb_sym nodeId (fst kv)).
        destruct (String.eqb (fst kv) nodeId); reflexivity. }
      split; [| rewrite S'; exact S1].
      rewrite E', E1. rewrite filter_twice. apply filter_ext. intros kv.
      unfold untouched, touched_by. simpl.
      destruct (incident nodeId (snd kv)); reflexivity.
    + destruct (IH g ND) as (g' & L & V' & E' & S').
      exists g'. fold (pruned_of thr entries).
      repeat split; assumption.
Qed.

Lemma Qltb_lt (x y : Q) : Qltb x y = true <-> x < y.
Proof.
  unfold Qltb. rewrite negb_true_iff. split.
  - intros H. apply Qnot_le_lt. intros L. apply Qle_bool_iff in L.
    rewrite L in H. discriminate H.
  - intros H. destruct (Qle_bool y x) eqn:L; [| reflexivity].
    apply Qle_bool_iff in L. exfalso. exact (Qlt_not_le _ _ H L).
Qed.

(** The test of the pruning loop, in words. *)
Lemma prunable_iff (thr : Binary64.number) (nodeId : string) (n : node) :
  prunable thr nodeId n = true <->
  nodeId <> "n0" /\
  PrimFloat.ltb (avgConfidence64 n) thr = true /\
  PrimFloat.ltb (impact_or_half n) (Binary64.of_decimal 0.3) = true /\
  (type n <> hypothesis \/ lacks_criteria n = true).
Proof.
  unfold prunable. destruct (String.eqb_spec nodeId "n0") as [-> | N].
  - split; [discriminate | intros [X _]; exfalso; apply X; reflexivity].
  - destruct (PrimFloat.ltb (avgConfidence64 n) thr);
      destruct (PrimFloat.ltb (impact_or_half n) (Binary64.of_decimal 0.3));
      destruct (type n); destruct (lacks_criteria n); simpl;
      split; try discriminate; try reflexivity;
      try (intros _; repeat split; try assumption;
           first [left; discriminate | right; reflexivity]);
      try (intros (_ & X & _); discriminate X);
      try (intros (_ & _ & X & _); discriminate X);
      intros (_ & _ & _ & [X | X]); try discriminate X; exfalso; apply X; reflexivity.
Qed.

(** The mean is a rounded sum: the order of the components decides at the
    threshold.  [0.3 + 0.3 + 0.1 + 0.1] comes to 0.7999999999999999 and the
    mean is below 0.2; [0.1 + 0.1 + 0.3 + 0.3] comes to 0.8 and the mean is
    0.2. *)
Lemma mean_is_rounded :
  PrimFloat.ltb (Binary64.quarter_of_sum [0.3; 0.3; 0.1; 0.1]) (Binary64.of_decimal 0.2) = true /\
  PrimFloat.ltb (Binary64.quarter_of_sum [0.1; 0.1; 0.3; 0.3]) (Binary64.of_decimal 0.2) = false.
Proof. split; vm_compute; reflexivity. Qed.

(** The same at the level of the call: of two hypotheses that differ in the
    order of their components only, pruneAndMergeNodes with the default
    threshold prunes the one whose rounded sum is below 0.8 and keeps the
    other. *)
Lemma pruning_follows_rounding :
  exists g r,
    pruneAndMergeNodes None None Scenario.stage4_permuted = Ok g r /\
    pruned_nodes r = ["h_n2.1_2"] /\
    merged_nodes r = [] /\
    option_map confidence (SMap.get "h_n2.1_2" (vertices Scenario.stage4_permuted))
    = Some [0.3; 0.3; 0.1; 0.1] /\
    option_map confidence (SMap.get "h_n2.1_3" (vertices g)) = Some [0.1; 0.1; 0.3; 0.3].
Proof. eexists. eexists. vm_compute. repeat split; reflexivity. Qed.

Lemma touched_by_false (ids : list string) (kv : string * edge) :
  touched_by ids kv = false <->
  forall id, In id ids -> source (snd kv) <> id /\ target (snd kv) <> id.
Proof.
  unfold touched_by, incident. induction ids as [| i ids IH]; simpl.
  - split; [intros _ id [] | reflexivity].
  - rewrite orb_false_iff, IH, orb_false_iff, !String.eqb_neq. split.
    + intros [[A B] H] id [<- | Hin]; [split; assumption | apply H; exact Hin].
    + intros H. split; [apply H; left; reflexivity |].
      intros id Hin. apply H. right. exact Hin.
Qed.

(** C4 (as amended).  On a graph whose vertex ids and edge ids are distinct,
    the pruning pass of pruneAndMergeNodes returns, and the ids it reports
    are exactly those of the non-root nodes whose mean confidence, as the
    doubles compute it (the components added from the left, the sum divided
    by 4), is below the threshold, whose impact score (a zero score counting
    as 0.5) is below 0.3, and that are either no hypothesis or a hypothesis
    without falsification criteria.  The reported nodes leave the vertex map,
    the other vertices stay as they were; the edges that remain are those
    with no endpoint among the reported ids; "n0" is never reported; the
    stage is unchanged; and when pruneAndMergeNodes returns, its
    [pruned_nodes] is this list. *)
Theorem pruning_pass_exact (thr : Binary64.number) (g : graph) :
  NoDup (SMap.keys (vertices g)) ->
  NoDup (SMap.keys (edges g)) ->
  exists g' pruned,
    prune_loop thr (vertices g) g = Ok g' pruned /\
    (forall id,
        In id pruned <->
        exists n, SMap.get id (vertices g) = Some n /\
                  id <> "n0" /\
                  PrimFloat.ltb (avgConfidence64 n) thr = true /\
                  PrimFloat.ltb (impact_or_half n) (Binary64.of_decimal 0.3) = true /\
                  (type n <> hypothesis \/ lacks_criteria n = true)) /\
    (forall id,
        SMap.get id (vertices g')
        = if mem id pruned then None else SMap.get id (vertices g)) /\
    (forall k e,
        In (k, e) (edges g') <->
        In (k, e) (edges g) /\
        forall id, In id pruned -> source e <> id /\ target e <> id) /\
    ~ In "n0" pruned /\
    currentStage g' = currentStage g /\
    (forall pt mt g2 r,
        Binary64.field_or pt 0.2 = thr ->
        pruneAndMergeNodes pt mt g = Ok g2 r -> pruned_nodes r = pruned).
Proof.
  intros NDv NDe.
  destruct (prune_loop_effect thr (vertices g) g NDe) as (g' & L & V' & E' & S').
  exists g', (pruned_of thr (vertices g)).
  assert (Hin : forall id,
             In id (pruned_of thr (vertices g)) <->
             exists n, SMap.get id (vertices g) = Some n /\ prunable thr id n = true).
  { intros id. unfold pruned_of. rewrite in_map_iff. split.
    - intros [[k n] [Ek Hf]]. simpl in Ek. subst k. apply filter_In in Hf.
      destruct Hf as [Hv Hp]. exists n. split; [apply in_get; assumption | exact Hp].
    - intros [n [Hg Hp]]. exists (id, n). split; [reflexivity |].
      apply filter_In. split; [apply get_in; exact Hg | exact Hp]. }
  split; [exact L |].
  split.
  { intros id. rewrite Hin. split; intros [n [Hg Hp]]; exists n; (split; [exact Hg |]);
      apply prunable_iff; exact Hp. }
  split.
  { intros id. rewrite V'.
    rewrite (get_filter_keys (vertices g)
               (fun k => negb (mem k (pruned_of thr (vertices g)))) id).
    destruct (mem id (pruned_of thr (vertices g))); reflexivity. }
  split.
  { intros k e. rewrite E', filter_In, negb_true_iff.
    rewrite (touched_by_false (pruned_of thr (vertices g)) (k, e)). reflexivity. }
  split.
  { intros H. apply Hin in H. destruct H as [n [_ Hp]].
    apply prunable_iff in Hp. destruct Hp as [X _]. apply X. reflexivity. }
  split; [exact S' |].
  intros pt mt g2 r Ht H. unfold pruneAndMergeNodes in H.
  bind_inv H. unfold check_stage in E. destruct (currentStage g =? 4)%nat; [| discriminate E].
  injection E as <- _.
  bind_inv H. unfold get_state in E. injection E as <- <-.
  bind_inv H. rewrite Ht, L in E. injection E as <- <-.
  do 3 bind_inv H. unfold ret in H. injection H as _ <-. reflexivity.
Qed.

Ltac distinct_keys :=
  vm_compute;
  repeat (constructor; [simpl; intuition discriminate |]);
  constructor.

(** The stage-4 graph of [Session.stage4_weak]: only the fourth hypothesis is
    reported, and its edge from the dimension goes with it. *)
Lemma pruning_pass_exact_witness :
  exists g',
    prune_loop (Binary64.of_decimal 0.2) (vertices Session.stage4_weak) Session.stage4_weak
    = Ok g' ["h_n2.1_4"] /\
    SMap.get "h_n2.1_4" (vertices g') = None /\
    SMap.has "e_n2.1_h_n2.1_4" (edges Session.stage4_weak) = true /\
    SMap.has "e_n2.1_h_n2.1_4" (edges g') = false /\
    SMap.has "n0" (vertices g') = true.
Proof.
  assert (NDv : NoDup (SMap.keys (vertices Session.stage4_weak))) by distinct_keys.
  assert (NDe : NoDup (SMap.keys (edges Session.stage4_weak))) by distinct_keys.
  destruct (pruning_pass_exact (Binary64.of_decimal 0.2) Session.stage4_weak NDv NDe)
    as (g' & pruned & L & _).
  exists g'. vm_compute in L. injection L as <- <-.
  vm_compute. repeat split; reflexivity.
Defined.

(** C4, the claim as stated, refuted.  In the same graph the second
    hypothesis has mean confidence 0.05, impact 0.6 and no falsification
    criteria, and the third has mean confidence 0.05, impact 0.1 and a
    falsification criterion.  The claim prunes both; pruneAndMergeNodes
    returns without reporting either, and both are still vertices. *)
Lemma pruning_differs_from_claim :
  exists g r n2 n3,
    pruneAndMergeNodes None None Session.stage4_weak = Ok g r /\
    pruned_nodes r = ["h_n2.1_4"] /\
    SMap.get "h_n2.1_2" (vertices Session.stage4_weak) = Some n2 /\
    SMap.get "h_n2.1_3" (vertices Session.stage4_weak) = Some n3 /\
    Spec.prunes 0.2 "h_n2.1_2" n2 = true /\
    Spec.prunes 0.2 "h_n2.1_3" n3 = true /\
    SMap.get "h_n2.1_2" (vertices g) = Some n2 /\
    SMap.get "h_n2.1_3" (vertices g) = Some n3.
Proof. eexists. eexists. eexists. eexists. vm_compute. repeat split; reflexivity. Qed.

End Prune.

(** ** Stages 2 and 3 of the backup variant: what a returning call builds *)

Module Stages.
Import Js Args Backup.

Lemma string_of_nat_inj (n m : nat) : string_of_nat n = string_of_nat m -> n = m.
Proof.
  unfold string_of_nat. intros H.
  apply (f_equal NilEmpty.uint_of_string) in H. rewrite !NilEmpty.usu in H.
  injection H as H. apply Unsigned.to_uint_inj. exact H.
Qed.

Lemma append_inj (p a b : string) : p ++ a = p ++ b -> a = b.
Proof.
  induction p as [| c p IH]; simpl; intros H; [exact H |].
  injection H as H. apply IH. exact H.
Qed.

Lemma backup_layer_add_ok (lid nid : string) (g : graph) (ns : list string) :
  SMap.get lid (layers g) = Some ns ->
  layer_add lid nid g = Ok (with_layers (SMap.set lid (set_add ns nid)) g) tt.
Proof. unfold layer_add. intros ->. reflexivity. Qed.

Lemma backup_layer_add_missing (lid nid : string) (g : graph) :
  SMap.get lid (layers g) = None -> layer_add lid nid g = Throw g TypeError.
Proof. unfold layer_add. intros ->. reflexivity. Qed.

(** One round of the decomposition loop of the backup variant. *)
Lemma backup_decompose_body (dim : string) (index : nat) (g : graph) (nb : list string) :
  SMap.get "base" (layers g) = Some nb ->
  let nodeId := "n2." ++ string_of_nat (index + 1) in
  exists g',
    decompose_body dim index g = Ok g' nodeId /\
    currentStage g' = currentStage g /\
    SMap.get "base" (layers g') = Some (set_add nb nodeId) /\
    (exists n, SMap.get nodeId (vertices g') = Some n /\
               label n = dim /\ type n = dimension /\
               confidence n = [0.8; 0.8; 0.8; 0.8]) /\
    (forall id, id <> nodeId -> SMap.get id (vertices g') = SMap.get id (vertices g)) /\
    SMap.get ("e_n0_" ++ nodeId) (edges g')
    = Some (mk_edge ("e_n0_" ++ nodeId) "n0" nodeId "Decomposition" [0.9; 0.9; 0.9; 0.9]) /\
    (forall id, id <> "e_n0_" ++ nodeId -> SMap.get id (edges g') = SMap.get id (edges g)).
Proof.
  intros Hb nodeId. unfold decompose_body. fold nodeId.
  unfold bind at 1. unfold modify at 1.
  unfold bind at 1. rewrite (backup_layer_add_ok "base" nodeId _ nb) by exact Hb.
  unfold bind, modify, ret.
  eexists. split; [reflexivity |]. simpl.
  split; [reflexivity |].
  split; [apply get_set_same |].
  split.
  { eexists. split; [apply get_set_same |]. repeat split; reflexivity. }
  split; [intros id N; apply get_set_other; exact N |].
  split; [apply get_set_same |].
  intros id N. apply get_set_other. exact N.
Qed.

(** The decomposition loop from any index on. *)
Lemma backup_decompose_loop (l : list string) (index : nat) (g : graph) (nb : list string) :
  SMap.get "base" (layers g) = Some nb ->
  exists g',
    collect_from decompose_body l index g
    = Ok g' (map (fun i => "n2." ++ string_of_nat (i + 1)) (seq index (List.length l))) /\
    currentStage g' = currentStage g /\
    (forall i dim,
        nth_error l i = Some dim ->
        exists n,
          SMap.get ("n2." ++ string_of_nat (index + i + 1)) (vertices g') = Some n /\
          label n = dim /\ type n = dimension /\ confidence n = [0.8; 0.8; 0.8; 0.8]) /\
    (forall i,
        (i < List.length l)%nat ->
        SMap.get ("e_n0_n2." ++ string_of_nat (index + i + 1)) (edges g')
        = Some (mk_edge ("e_n0_n2." ++ string_of_nat (index + i + 1)) "n0"
                        ("n2." ++ string_of_nat (index + i + 1)) "Decomposition"
                        [0.9; 0.9; 0.9; 0.9])) /\
    (forall id,
        (forall i, (i < List.length l)%nat -> id <> "n2." ++ string_of_nat (index + i + 1)) ->
        SMap.get id (vertices g') = SMap.get id (vertices g)) /\
    (forall id,
        (forall i, (i < List.length l)%nat -> id <> "e_n0_n2." ++ string_of_nat (index + i + 1)) ->
        SMap.get id (edges g') = SMap.get id (edges g)).
Proof.
  revert index g nb. induction l as [| dim l IH]; intros index g nb Hb.
  - exists g. split; [reflexivity |]. split; [reflexivity |].
    split; [intros [| i] d H; discriminate H |].
    split; [intros i H; simpl in H; lia |].
    split; reflexivity.
  - destruct (backup_decompose_body dim index g nb Hb)
      as (g1 & R & S1 & L1 & (n & Gn & Ln & Tn & Cn) & V1 & E1 & O1).
    destruct (IH (S index) g1 _ L1) as (g' & R' & S' & N' & E' & V' & O').
    exists g'. split.
    { simpl collect_from. rewrite (bind_ok _ _ _ _ _ R). rewrite (bind_ok _ _ _ _ _ R').
      reflexivity. }
    split; [rewrite S'; exact S1 |].
    assert (Hfresh : forall i, "n2." ++ string_of_nat (index + 1)
                               <> "n2." ++ string_of_nat (S index + i + 1)).
    { intros i X. apply append_inj, string_of_nat_inj in X. lia. }
    split.
    { intros [| i] d H; simpl in H.
      - injection H as <-. exists n. rewrite Nat.add_0_r.
        rewrite V' by (intros i _; apply Hfresh).
        repeat split; assumption.
      - replace (index + S i + 1)%nat with (S index + i + 1)%nat by lia.
        apply N'. exact H. }
    split.
    { intros [| i] H; simpl in H.
      - rewrite Nat.add_0_r. rewrite O'; [exact E1 |].
        intros i _ X. apply (append_inj "e_n0_") in X. exact (Hfresh i X).
      - replace (index + S i + 1)%nat with (S index + i + 1)%nat by lia.
        apply E'. lia. }
    split.
    { intros id H. rewrite V'.
      - apply V1. specialize (H 0%nat). rewrite Nat.add_0_r in H. apply H. simpl. lia.
      - intros i Hi. replace (S index + i + 1)%nat with (index + S i + 1)%nat by lia.
        apply H. simpl. lia. }
    intros id H. rewrite O'.
    + apply O1. specialize (H 0%nat). rewrite Nat.add_0_r in H. apply H. simpl. lia.
    + intros i Hi. replace (S index + i + 1)%nat with (index + S i + 1)%nat by lia.
      apply H. simpl. lia.
Qed.


(** X6.  decomposeTask on any stage-1 graph that has the layer "base": the
    call returns the ids "n2.1", "n2.2", ... in the order of the labels (the
    custom ones, or the seven defaults when none are given; an empty custom
    list gives no node at all), moves to stage 2, stores under the i-th id a
    dimension node with the i-th label and confidence [0.8, 0.8, 0.8, 0.8],
    links it to "n0" by a Decomposition edge "e_n0_<id>", and leaves every
    other vertex as it was.  Whether "n0" is a vertex is not checked. *)
Theorem decomposeTask_result (dims : option (list string)) (g : graph) (nb : list string) :
  currentStage g = 1%nat ->
  SMap.get "base" (layers g) = Some nb ->
  let labels := arr_or dims defaultDimensions in
  exists g',
    decomposeTask dims g
    = Ok g' (map (fun i => "n2." ++ string_of_nat (i + 1)) (seq 0 (List.length labels))) /\
    currentStage g' = 2%nat /\
    (forall i dim,
        nth_error labels i = Some dim ->
        exists n,
          SMap.get ("n2." ++ string_of_nat (i + 1)) (vertices g') = Some n /\
          label n = dim /\ type n = dimension /\ confidence n = [0.8; 0.8; 0.8; 0.8] /\
          SMap.get ("e_n0_n2." ++ string_of_nat (i + 1)) (edges g')
          = Some (mk_edge ("e_n0_n2." ++ string_of_nat (i + 1)) "n0"
                          ("n2." ++ string_of_nat (i + 1)) "Decomposition"
                          [0.9; 0.9; 0.9; 0.9])) /\
    (forall id,
        (forall i, (i < List.length labels)%nat -> id <> "n2." ++ string_of_nat (i + 1)) ->
        SMap.get id (vertices g') = SMap.get id (vertices g)).
Proof.
  intros Hs Hb labels.
  destruct (backup_decompose_loop labels 0 g nb Hb) as (g1 & R & S1 & N1 & E1 & V1 & _).
  exists (with_stage 2 g1). split.
  { unfold decomposeTask.
    rewrite (bind_ok _ _ _ _ _ (StageGate.check_stage_ok 1 g Hs)).
    fold labels. rewrite (bind_ok _ _ _ _ _ R). reflexivity. }
  split; [reflexivity |]. simpl vertices. simpl edges.
  split.
  { intros i dim H. destruct (N1 i dim H) as (n & Gn & Ln & Tn & Cn).
    exists n. simpl in Gn. repeat split; try assumption.
    apply (E1 i). apply nth_error_Some. rewrite H. discriminate. }
  intros id H. apply V1. exact H.
Qed.

(** A fresh graph, never initialised, with two custom labels: the call
    returns, and the two edges start at "n0", which is no vertex. *)
Lemma decomposeTask_result_witness :
  exists g',
    decomposeTask (Some ["A"; "B"]) (new_graph true) = Ok g' ["n2.1"; "n2.2"] /\
    currentStage g' = 2%nat /\
    SMap.get "n0" (vertices g') = None.
Proof.
  destruct (decomposeTask_result (Some ["A"; "B"]) (new_graph true) [] eq_refl eq_refl)
    as (g' & R & S' & _ & V').
  exists g'. split; [exact R |]. split; [exact S' |].
  rewrite V'; [reflexivity |].
  intros i _. destruct i as [| [| i]]; discriminate.
Defined.


Lemma hypothesis_id_inj (dimId : string) (i j : nat) :
  "h_" ++ dimId ++ "_" ++ string_of_nat (i + 1) = "h_" ++ dimId ++ "_" ++ string_of_nat (j + 1) ->
  i = j.
Proof.
  intros X. apply (append_inj "h_"), append_inj, (append_inj "_"), string_of_nat_inj in X. lia.
Qed.

(** One round of the hypothesis loop of the backup variant. *)
Lemma backup_hypothesis_body (dimId : string) (h : hypothesis_input) (index : nat)
      (g : graph) (nt : list string) (c : string) :
  SMap.get "theoretical" (layers g) = Some nt ->
  content_or_self h = Some c ->
  let nodeId := "h_" ++ dimId ++ "_" ++ string_of_nat (index + 1) in
  exists g',
    hypothesis_body dimId h index g = Ok g' nodeId /\
    currentStage g' = currentStage g /\
    SMap.get "theoretical" (layers g') = Some (set_add nt nodeId) /\
    (exists n, SMap.get nodeId (vertices g') = Some n /\
               type n = hypothesis /\ content n = Some c /\
               confidence n = arr_or (h_confidence (fields_of h)) [0.5; 0.5; 0.5; 0.5] /\
               impact_score (node_metadata n) = num_or (h_impact_score (fields_of h)) 0.6 /\
               layer_id (node_metadata n) = "theoretical") /\
    (forall id, id <> nodeId -> SMap.get id (vertices g') = SMap.get id (vertices g)) /\
    SMap.get ("e_" ++ dimId ++ "_" ++ nodeId) (edges g')
    = Some (mk_edge ("e_" ++ dimId ++ "_" ++ nodeId) dimId nodeId "Hypothesis"
                    [0.8; 0.8; 0.8; 0.8]) /\
    (forall id, id <> "e_" ++ dimId ++ "_" ++ nodeId ->
                SMap.get id (edges g') = SMap.get id (edges g)).
Proof.
  intros Ht Hc nodeId. unfold hypothesis_body. fold nodeId.
  unfold _assessInitialBiasRisk. rewrite Hc.
  unfold bind at 1. unfold ret at 1.
  unfold bind at 1. unfold modify at 1.
  unfold bind at 1. rewrite (backup_layer_add_ok "theoretical" nodeId _ nt) by exact Ht.
  unfold bind, modify, ret.
  eexists. split; [reflexivity |]. simpl.
  split; [reflexivity |].
  split; [apply get_set_same |].
  split.
  { eexists. split; [apply get_set_same |]. repeat split; reflexivity. }
  split; [intros id N; apply get_set_other; exact N |].
  split; [apply get_set_same |].
  intros id N. apply get_set_other. exact N.
Qed.

(** The hypothesis loop from any index on, over elements that all have a
    text. *)
Lemma backup_hypothesis_loop (dimId : string) (l : list hypothesis_input) (index : nat)
      (g : graph) (nt : list string) :
  SMap.get "theoretical" (layers g) = Some nt ->
  Forall (fun h => exists c, content_or_self h = Some c) l ->
  exists g',
    collect_from (hypothesis_body dimId) l index g
    = Ok g' (map (fun i => "h_" ++ dimId ++ "_" ++ string_of_nat (i + 1))
                 (seq index (List.length l))) /\
    currentStage g' = currentStage g /\
    (forall i h,
        nth_error l i = Some h ->
        exists n,
          SMap.get ("h_" ++ dimId ++ "_" ++ string_of_nat (index + i + 1)) (vertices g')
          = Some n /\
          type n = hypothesis /\ content n = content_or_self h /\
          confidence n = arr_or (h_confidence (fields_of h)) [0.5; 0.5; 0.5; 0.5] /\
          impact_score (node_metadata n) = num_or (h_impact_score (fields_of h)) 0.6) /\
    (forall id,
        (forall i, (i < List.length l)%nat ->
                   id <> "h_" ++ dimId ++ "_" ++ string_of_nat (index + i + 1)) ->
        SMap.get id (vertices g') = SMap.get id (vertices g)).
Proof.
  revert index g nt. induction l as [| h l IH]; intros index g nt Ht Hall.
  - exists g. split; [reflexivity |]. split; [reflexivity |].
    split; [intros [| i] d H; discriminate H |]. reflexivity.
  - inversion Hall as [| h' l' [c Hc] Hall']; subst.
    destruct (backup_hypothesis_body dimId h index g nt c Ht Hc)
      as (g1 & R & S1 & L1 & (n & Gn & Tn & Cn & Fn & In & _) & V1 & _).
    destruct (IH (S index) g1 _ L1 Hall') as (g' & R' & S' & N' & V').
    exists g'. split.
    { simpl collect_from. rewrite (bind_ok _ _ _ _ _ R). rewrite (bind_ok _ _ _ _ _ R').
      reflexivity. }
    split; [rewrite S'; exact S1 |].
    split.
    { intros [| i] d H; simpl in H.
      - injection H as <-. exists n. rewrite Nat.add_0_r.
        rewrite V' by (intros i _ X; apply hypothesis_id_inj in X; lia).
        rewrite Hc. repeat split; assumption.
      - replace (index + S i + 1)%nat with (S index + i + 1)%nat by lia.
        apply N'. exact H. }
    intros id H. rewrite V'.
    + apply V1. specialize (H 0%nat). rewrite Nat.add_0_r in H. apply H. simpl. lia.
    + intros i Hi. replace (S index + i + 1)%nat with (index + S i + 1)%nat by lia.
      apply H. simpl. lia.
Qed.


Lemma check_vertex_ok (id : string) (g : graph) :
  SMap.has id (vertices g) = true -> check_vertex id g = Ok g tt.
Proof. unfold check_vertex. intros ->. reflexivity. Qed.

Lemma check_vertex_throw (id : string) (g : graph) :
  SMap.has id (vertices g) = false -> check_vertex id g = Throw g (NotFound id).
Proof. unfold check_vertex. intros ->. reflexivity. Qed.





End Stages.

(** ** The two lexical measures: similarity and novelty *)

Module Similarity.
Import Js Args Backup.

Lemma split_ws_from_nonempty (s cur : string) (gap : bool) : split_ws_from s cur gap <> [].
Proof.
  revert cur gap. induction s as [| c s IH]; intros cur gap; simpl; [discriminate |].
  destruct (is_space c); [destruct gap; [apply IH | discriminate] | apply IH].
Qed.

Lemma set_of_nonempty (l : list string) : l <> [] -> set_of l <> [].
Proof.
  destruct l as [| x l]; [intros H; exfalso; apply H; reflexivity |].
  intros _ E. assert (H : In x (set_of (x :: l))).
  { apply SetFacts.set_of_in. left. reflexivity. }
  rewrite E in H. exact H.
Qed.

(** Two duplicate-free lists with the same elements have the same length. *)
Lemma same_elements_same_length (l1 l2 : list string) :
  NoDup l1 -> NoDup l2 -> (forall x, In x l1 <-> In x l2) ->
  List.length l1 = List.length l2.
Proof.
  intros N1 N2 H. apply Nat.le_antisymm; apply NoDup_incl_length; try assumption;
    intros x Hx; apply H; exact Hx.
Qed.

Lemma filter_mem_in (l1 l2 : list string) (x : string) :
  In x (filter (fun y => mem y l2) l1) <-> In x l1 /\ In x l2.
Proof. rewrite filter_In, SetFacts.mem_in. reflexivity. Qed.

Lemma Qnat_nonneg (n : nat) : 0 <= Qnat n.
Proof. unfold Qnat, Qle. simpl. lia. Qed.

Lemma Qnat_pos (n : nat) : (0 < n)%nat -> 0 < Qnat n.
Proof. unfold Qnat, Qlt. simpl. lia. Qed.

Lemma Qnat_le (n m : nat) : (n <= m)%nat -> Qnat n <= Qnat m.
Proof. unfold Qnat, Qle. simpl. lia. Qed.

(** A ratio of two counts, the first not above the second. *)
Lemma ratio_in_unit_interval (n m : nat) :
  (n <= m)%nat -> (0 < m)%nat -> 0 <= Qnat n / Qnat m /\ Qnat n / Qnat m <= 1.
Proof.
  intros L P. pose proof (Qnat_pos m P) as Pm. split.
  - apply Qle_shift_div_l; [exact Pm |]. rewrite Qmult_0_l. apply Qnat_nonneg.
  - apply Qle_shift_div_r; [exact Pm |]. rewrite Qmult_1_l. apply Qnat_le. exact L.
Qed.

(** X8.  The similarity [_calculateSemanticSimilarity] computes for two
    texts is a number in [0, 1], it is the same in both directions, and it is
    1 for a text compared with itself, whatever the text is (the empty text
    included: its only word is the empty word). *)
Theorem semantic_similarity_bounds (t1 t2 : string) :
  exists q,
    _calculateSemanticSimilarity (Some t1) (Some t2) = Some q /\
    0 <= q /\ q <= 1 /\
    _calculateSemanticSimilarity (Some t2) (Some t1) = Some q /\
    exists q1, _calculateSemanticSimilarity (Some t1) (Some t1) = Some q1 /\ q1 == 1.
Proof.
  unfold _calculateSemanticSimilarity.
  set (w1 := set_of (split_ws (toLowerCase t1))).
  set (w2 := set_of (split_ws (toLowerCase t2))).
  assert (N1 : NoDup w1) by apply SetFacts.set_of_nodup.
  assert (N2 : NoDup w2) by apply SetFacts.set_of_nodup.
  assert (P1 : (0 < List.length w1)%nat).
  { destruct w1 eqn:E; [| simpl; lia]. exfalso.
    apply (set_of_nonempty (split_ws (toLowerCase t1))); [| exact E].
    apply split_ws_from_nonempty. }
  assert (U : forall a b, NoDup a -> (0 < List.length a)%nat ->
                          (List.length a <= List.length (set_of (a ++ b)%list))%nat).
  { intros a b Na _. apply NoDup_incl_length; [exact Na |].
    intros x Hx. apply SetFacts.set_of_in, in_or_app. left. exact Hx. }
  assert (I : forall a b, NoDup a ->
                          (List.length (filter (fun x => mem x b) a) <= List.length a)%nat).
  { intros a b _. apply filter_length_le. }
  pose proof (U w1 w2 N1 P1) as U12. pose proof (I w1 w2 N1) as I12.
  assert (P12 : (0 < List.length (set_of (w1 ++ w2)%list))%nat) by lia.
  apply Nat.ltb_lt in P12. rewrite P12. apply Nat.ltb_lt in P12.
  eexists. split; [reflexivity |].
  destruct (ratio_in_unit_interval (List.length (filter (fun x => mem x w2) w1))
              (List.length (set_of (w1 ++ w2)%list))) as [A B]; [lia | exact P12 |].
  split; [exact A |]. split; [exact B |].
  assert (EI : List.length (filter (fun x => mem x w1) w2)
               = List.length (filter (fun x => mem x w2) w1)).
  { apply same_elements_same_length; try (apply NoDup_filter; assumption).
    intros x. rewrite !filter_mem_in. tauto. }
  assert (EU : List.length (set_of (w2 ++ w1)%list) = List.length (set_of (w1 ++ w2)%list)).
  { apply same_elements_same_length; try apply SetFacts.set_of_nodup.
    intros x. rewrite !SetFacts.set_of_in, !in_app_iff. tauto. }
  split.
  { rewrite EU, EI. apply Nat.ltb_lt in P12. rewrite P12. reflexivity. }
  assert (SI : List.length (filter (fun x => mem x w1) w1) = List.length w1).
  { apply same_elements_same_length; [apply NoDup_filter; exact N1 | exact N1 |].
    intros x. rewrite filter_mem_in. tauto. }
  assert (SU : List.length (set_of (w1 ++ w1)%list) = List.length w1).
  { apply same_elements_same_length; [apply SetFacts.set_of_nodup | exact N1 |].
    intros x. rewrite SetFacts.set_of_in, in_app_iff. tauto. }
  rewrite SU, SI. apply Nat.ltb_lt in P1. rewrite P1. apply Nat.ltb_lt in P1.
  eexists. split; [reflexivity |].
  apply Qmult_inv_r. intros X. pose proof (Qnat_pos _ P1) as Y. rewrite X in Y.
  exact (Qlt_irrefl _ Y).
Qed.

(** X9.  The novelty estimate of [_assessNovelty] is the share of the words
    of the lower-cased text that are longer than six characters: the two
    guards [Math.min(1, ...)] and [Math.max(1, ...)] never change it, because
    [split] always yields at least one word; so it lies in [0, 1]. *)
Theorem assessNovelty_share (ev : evidence_input) :
  let words := split_ws (toLowerCase (str_or (ev_content ev) "")) in
  let long := filter (fun word => (6 <? String.length word)%nat) words in
  _assessNovelty ev == Qnat (List.length long) / Qnat (List.length words) /\
  0 <= _assessNovelty ev /\ _assessNovelty ev <= 1.
Proof.
  intros words long. unfold _assessNovelty. fold words. fold long.
  assert (P : (0 < List.length words)%nat).
  { destruct words eqn:E; [| simpl; lia]. exfalso.
    exact (split_ws_from_nonempty _ _ _ E). }
  assert (L : (List.length long <= List.length words)%nat) by apply filter_length_le.
  destruct (ratio_in_unit_interval _ _ L P) as [A B].
  assert (M : Qmax 1 (Qnat (List.length words)) == Qnat (List.length words)).
  { apply Q.max_r. change 1 with (Qnat 1). apply Qnat_le. lia. }
  assert (E : Qmin 1 (Qnat (List.length long) / Qmax 1 (Qnat (List.length words)))
              == Qnat (List.length long) / Qnat (List.length words)).
  { rewrite M. apply Q.min_r. exact B. }
  split; [exact E |]. rewrite E. split; assumption.
Qed.

End Similarity.

(** ** Stage 4: rejected calls and the direction of the update *)

Module Evidence.
Import Js Args Backup View.

Lemma has_set_keeps {V : Type} (m : list (string * V)) (k k' : string) (v : V) :
  SMap.has k m = true -> SMap.has k (SMap.set k' v m) = true.
Proof.
  unfold SMap.has. destruct (String.eqb_spec k k') as [-> | N].
  - rewrite get_set_same. reflexivity.
  - rewrite get_set_other by exact N. intros H. exact H.
Qed.

(** X10.  A stage-2 or stage-3 call that names an id that is no vertex throws
    the "not found" error for that id and leaves the graph as it was. *)
Theorem unknown_node_rejected (id : string) (g : graph) :
  SMap.has id (vertices g) = false ->
  (currentStage g = 2%nat ->
   forall hs cfg, generateHypotheses id hs cfg g = Throw g (NotFound id)) /\
  (currentStage g = 3%nat ->
   forall ev token decay, integrateEvidence id ev token decay g = Throw g (NotFound id)).
Proof.
  intros H. split; intros Hs; intros.
  - unfold generateHypotheses.
    rewrite (bind_ok _ _ _ _ _ (StageGate.check_stage_ok 2 g Hs)).
    apply bind_throw. unfold check_vertex. rewrite H. reflexivity.
  - unfold integrateEvidence.
    rewrite (bind_ok _ _ _ _ _ (StageGate.check_stage_ok 3 g Hs)).
    apply bind_throw. unfold check_vertex. rewrite H. reflexivity.
Qed.

(** The id "2.1" of the other variant at stage 2, and a hypothesis id that
    was never created at stage 3. *)
Lemma unknown_node_rejected_witness :
  let g2 := state_of ((initialize "Study X" None None ;;; decomposeTask None) (new_graph true)) in
  generateHypotheses "2.1" [HText "h"] None g2 = Throw g2 (NotFound "2.1") /\
  integrateEvidence "h_n2.1_9" Session.observed "abcd1234" 1 Session.stage3_similar
  = Throw Session.stage3_similar (NotFound "h_n2.1_9").
Proof.
  intros g2. split.
  - apply (proj1 (unknown_node_rejected "2.1" g2 eq_refl)). reflexivity.
  - apply (proj2 (unknown_node_rejected "h_n2.1_9" Session.stage3_similar eq_refl)).
    reflexivity.
Defined.

(** X11.  Evidence without a [confidence] property (the tool schema requires
    [content] only): on a stage-3 graph with the layer "empirical" and an
    existing target, the call stores the evidence node with the default
    confidence [0.7, 0.7, 0.7, 0.7] and the edge to the target, then throws a
    type error when the update reads the missing property; the graph stays
    at stage 3 with the node and the edge in place. *)
Theorem integrateEvidence_needs_confidence (hyp : string) (ev : evidence_input)
        (token : string) (decay : Q) (g : graph) (ne : list string) :
  currentStage g = 3%nat ->
  SMap.has hyp (vertices g) = true ->
  SMap.get "empirical" (layers g) = Some ne ->
  ev_confidence ev = None ->
  exists g' n e,
    integrateEvidence hyp ev token decay g = Throw g' TypeError /\
    currentStage g' = 3%nat /\
    SMap.get ("e_" ++ token) (vertices g') = Some n /\
    type n = evidence /\ confidence n = [0.7; 0.7; 0.7; 0.7] /\
    SMap.get ("e_e_" ++ token ++ "_" ++ hyp) (edges g') = Some e /\
    source e = "e_" ++ token /\ target e = hyp.
Proof.
  intros Hs Hv Hl Hc. unfold integrateEvidence.
  rewrite (bind_ok _ _ _ _ _ (StageGate.check_stage_ok 3 g Hs)).
  unfold bind at 1. unfold check_vertex. rewrite Hv.
  unfold bind at 1. unfold modify at 1.
  unfold bind at 1. unfold layer_add. cbn [layers with_vertices]. rewrite Hl.
  unfold bind at 1. unfold modify at 1.
  unfold bind at 1. unfold get_node. cbn [vertices with_edges with_layers with_vertices].
  pose proof (has_set_keeps (vertices g) hyp ("e_" ++ token)) as K.
  unfold SMap.has in K at 2.
  match goal with
  | |- context [SMap.get hyp (SMap.set ("e_" ++ token) ?v (vertices g))] =>
      specialize (K v Hv); destruct (SMap.get hyp (SMap.set ("e_" ++ token) v (vertices g)))
        as [h |] eqn:G; [| discriminate K]
  end.
  cbv beta iota. unfold _calculateBayesianUpdate. rewrite Hc. unfold throw.
  eexists. eexists. eexists. split; [reflexivity |].
  cbn [currentStage vertices edges with_edges with_layers with_vertices].
  split; [exact Hs |].
  split; [apply get_set_same |].
  split; [reflexivity |].
  split; [reflexivity |].
  split; [apply get_set_same |].
  split; reflexivity.
Qed.


(** The stage-3 graph of the usual session and evidence that gives its text
    only. *)
Lemma integrateEvidence_needs_confidence_witness :
  exists g' n,
    integrateEvidence "h_n2.1_1"
      (mk_evidence_input None (Some "skin immune response observed") None None None
                         None None None None None None)
      "abcd1234" 1 Session.stage3_similar
    = Throw g' TypeError /\
    currentStage g' = 3%nat /\
    SMap.get "e_abcd1234" (vertices g') = Some n /\
    confidence n = [0.7; 0.7; 0.7; 0.7].
Proof.
  destruct (integrateEvidence_needs_confidence "h_n2.1_1"
              (mk_evidence_input None (Some "skin immune response observed") None None None
                                 None None None None None None)
              "abcd1234" 1 Session.stage3_similar [] eq_refl eq_refl eq_refl eq_refl)
    as (g' & n & e & R & S' & Gn & _ & Cn & _).
  exists g', n. repeat split; assumption.
Defined.

(** What a returning call read and computed: the target as it was before the
    call, the factors, and the clamped products it returns. *)
Lemma integrateEvidence_update hyp ev token decay g g' r :
  "e_" ++ token <> hyp ->
  integrateEvidence hyp ev token decay g = Ok g' r ->
  exists old uf,
    SMap.get hyp (vertices g) = Some old /\
    _calculateBayesianUpdate ev (str_or (ev_relationship ev) "Supportive") = Some uf /\
    update_confidence (confidence old) uf = Some (updated_confidence r).
Proof.
  intros Hne H.
  destruct (Bounds.integrateEvidence_confidences _ _ _ _ _ _ _ Hne H) as (Hh & _ & _).
  unfold integrateEvidence in H.
  do 6 bind_inv H.
  destruct (_calculateBayesianUpdate ev _) as [uf |] eqn:Hb; [| discriminate H].
  destruct (update_confidence _ uf) as [c' |] eqn:Hu; [| discriminate H].
  do 7 bind_inv H.
  destruct (Bounds.get_node_inv _ _ _ _ E4) as [-> G4].
  assert (Hne' : hyp <> "e_" ++ token) by (intros X; apply Hne; symmetry; exact X).
  assert (G0 : SMap.get hyp (vertices g) = Some a4).
  { unfold modify in E3. injection E3 as <- _.
    rewrite <- G4. simpl vertices.
    rewrite (Bounds.layer_add_vertices _ _ _ _ _ E2).
    unfold modify in E1. injection E1 as <- _. simpl vertices.
    unfold check_vertex in E0. destruct (SMap.has hyp (vertices s)); [| discriminate E0].
    injection E0 as <- _.
    unfold check_stage in E. destruct (currentStage g =? 3)%nat; [| discriminate E].
    injection E as <- _.
    symmetry. apply get_set_other. exact Hne'. }
  exists a4, uf. split; [exact G0 |]. split; [reflexivity |].
  (* the vector returned is the one stored, which is the clamped product *)
  assert (H5 : conf_at s5 hyp = Some c').
  { rewrite (Bounds.update_node_same _ _ _ _ _ E5), G4. reflexivity. }
  destruct (Bounds.ibn_id_fresh ("e_" ++ token) hyp) as [Fh _].
  assert (H10 : conf_at s10 hyp = Some c').
  { unfold modify in E10. injection E10 as <- _.
    rewrite <- H5.
    rewrite <- (Bounds.bridges_conf _ _ _ _ _ _ E6 Fh).
    rewrite <- (Bounds.conf_at_vertices _ _ _ (Bounds.hyperedge_vertices _ _ _ _ E7)).
    unfold _applyTemporalDecay in E8.
    rewrite <- (Bounds.update_node_other _ _ _ _ _ _ E8 Hne').
    rewrite <- (Bounds.adaptTopology_conf _ _ hyp _ _ _ E9). reflexivity. }
  destruct (Bounds.get_node_inv _ _ _ _ E11) as [-> G11].
  unfold ret in H. injection H as <- <-. simpl.
  unfold conf_at in H10. rewrite G11 in H10. simpl in H10. injection H10 as ->.
  exact Hu.
Qed.

Lemma num_or_nonneg (a : option Q) (d : Q) :
  0 <= d -> (forall q, a = Some q -> 0 <= q) -> 0 <= num_or a d.
Proof.
  intros Hd Ha. unfold num_or. destruct a as [q |]; [| exact Hd].
  destruct (Qeq_bool q 0); [exact Hd | apply Ha; reflexivity].
Qed.

Lemma fold_sum_nonneg (l : list Q) (acc : Q) :
  0 <= acc -> Forall (fun x => 0 <= x) l -> 0 <= fold_left Qplus l acc.
Proof.
  intros Ha H. revert acc Ha. induction H as [| x l Hx _ IH]; intros acc Ha; simpl.
  - exact Ha.
  - apply IH. lra.
Qed.

(** The sign of the update: under non-negative inputs every factor is at
    most 1 for a contradiction and at least 1 for any other relationship. *)
Lemma update_factor_sign (ev : evidence_input) (edgeType : string) (c uf : list Q) :
  ev_confidence ev = Some c ->
  Forall (fun x => 0 <= x) c ->
  (forall p, ev_statistical_power ev = Some p -> 0 <= p) ->
  (forall n, ev_novelty_score ev = Some n -> 0 <= n) ->
  _calculateBayesianUpdate ev edgeType = Some uf ->
  (edgeType = "Contradictory" -> Forall (fun f => f <= 1) uf) /\
  (edgeType <> "Contradictory" -> Forall (fun f => 1 <= f) uf).
Proof.
  intros Hc Hpos Hp Hn. unfold _calculateBayesianUpdate. rewrite Hc.
  set (base := sum c / 4 * num_or (ev_statistical_power ev) 0.8
               * num_or (ev_novelty_score ev) 0.5 * 0.3).
  assert (B : 0 <= base).
  { unfold base.
    assert (S0 : 0 <= sum c) by (apply fold_sum_nonneg; [lra | exact Hpos]).
    assert (P0 : 0 <= num_or (ev_statistical_power ev) 0.8)
      by (apply num_or_nonneg; [lra | exact Hp]).
    assert (N0 : 0 <= num_or (ev_novelty_score ev) 0.5)
      by (apply num_or_nonneg; [lra | exact Hn]).
    apply Qmult_le_0_compat; [| discriminate].
    apply Qmult_le_0_compat; [| exact N0].
    apply Qmult_le_0_compat; [| exact P0].
    unfold Qdiv. apply Qmult_le_0_compat; [exact S0 | discriminate]. }
  clearbody base.
  destruct (String.eqb_spec edgeType "Supportive") as [-> | N1].
  { intros [= <-]. split; [discriminate |]. intros _. simpl. repeat constructor; lra. }
  destruct (String.eqb_spec edgeType "Contradictory") as [-> | N2].
  { intros [= <-]. split; [| intros X; exfalso; apply X; reflexivity].
    intros _. simpl. repeat constructor; lra. }
  destruct (String.eqb edgeType "Correlative").
  { intros [= <-]. split; [intros X; contradiction |]. intros _. simpl.
    repeat constructor; lra. }
  destruct (String.eqb edgeType "Causal");
    intros [= <-]; (split; [intros X; contradiction |]); intros _; simpl;
    repeat constructor; lra.
Qed.

Lemma clamp_raises (x f : Q) : Spec.in_update_range x -> 1 <= f -> x <= clamp (x * f).
Proof.
  intros [L U] F. unfold clamp.
  assert (X : x <= x * f).
  { rewrite <- (Qmult_1_r x) at 1. apply Qmult_le_l; [lra | exact F]. }
  apply Q.min_glb; [exact U |].
  apply Qle_trans with (x * f); [exact X | apply Q.le_max_r].
Qed.

Lemma clamp_lowers (x f : Q) : Spec.in_update_range x -> f <= 1 -> clamp (x * f) <= x.
Proof.
  intros [L U] F. unfold clamp.
  assert (X : x * f <= x).
  { rewrite <- (Qmult_1_r x) at 2. apply Qmult_le_l; [lra | exact F]. }
  apply Qle_trans with (Qmax 0.01 (x * f)); [apply Q.le_min_r |].
  apply Q.max_lub; [exact L | exact X].
Qed.

Lemma update_confidence_raises (c uf c' : list Q) :
  update_confidence c uf = Some c' ->
  Forall Spec.in_update_range c -> Forall (fun f => 1 <= f) uf -> Forall2 Qle c c'.
Proof.
  revert uf c'. induction c as [| x c IH]; intros uf c' H Hc Hf; simpl in H.
  - injection H as <-. constructor.
  - destruct uf as [| f uf]; [discriminate H |].
    destruct (update_confidence c uf) as [r |] eqn:E; [| discriminate H].
    injection H as <-. inversion Hc; subst. inversion Hf; subst.
    constructor; [apply clamp_raises; assumption | eapply IH; eassumption].
Qed.

Lemma update_confidence_lowers (c uf c' : list Q) :
  update_confidence c uf = Some c' ->
  Forall Spec.in_update_range c -> Forall (fun f => f <= 1) uf -> Forall2 Qle c' c.
Proof.
  revert uf c'. induction c as [| x c IH]; intros uf c' H Hc Hf; simpl in H.
  - injection H as <-. constructor.
  - destruct uf as [| f uf]; [discriminate H |].
    destruct (update_confidence c uf) as [r |] eqn:E; [| discriminate H].
    injection H as <-. inversion Hc; subst. inversion Hf; subst.
    constructor; [apply clamp_lowers; assumption | eapply IH; eassumption].
Qed.

(** X12.  The direction of the update.  Take a returning call of
    integrateEvidence whose evidence carries non-negative confidence
    components and, when given, non-negative power and novelty, on a target
    of at most four components, all in [0.01, 0.99] (a component beyond the
    fourth has no update factor and becomes NaN, which no order relates to
    the old value).  If the relationship is
    "Contradictory", no component of the target rises; for every other
    relationship, the default "Supportive" and any unknown string included,
    no component falls. *)
Theorem evidence_moves_confidence hyp ev token decay g g' r (old : node) :
  "e_" ++ token <> hyp ->
  integrateEvidence hyp ev token decay g = Ok g' r ->
  SMap.get hyp (vertices g) = Some old ->
  (List.length (confidence old) <= 4)%nat ->
  Forall Spec.in_update_range (confidence old) ->
  Forall (fun x => 0 <= x) (arr_or (ev_confidence ev) []) ->
  (forall p, ev_statistical_power ev = Some p -> 0 <= p) ->
  (forall n, ev_novelty_score ev = Some n -> 0 <= n) ->
  (ev_relationship ev = Some "Contradictory" ->
   Forall2 Qle (updated_confidence r) (confidence old)) /\
  (ev_relationship ev <> Some "Contradictory" ->
   Forall2 Qle (confidence old) (updated_confidence r)).
Proof.
  intros Hne H Hold Hfour Hrange Hpos Hp Hn.
  destruct (integrateEvidence_update _ _ _ _ _ _ _ Hne H) as (old' & uf & G & Hb & Hu).
  rewrite Hold in G. injection G as <-.
  destruct (ev_confidence ev) as [c |] eqn:Hc;
    [| unfold _calculateBayesianUpdate in Hb; rewrite Hc in Hb; discriminate Hb].
  simpl in Hpos.
  destruct (update_factor_sign ev _ c uf Hc Hpos Hp Hn Hb) as [Lo Hi].
  split.
  - intros Hr. apply (update_confidence_lowers _ uf); [exact Hu | exact Hrange |].
    apply Lo. rewrite Hr. reflexivity.
  - intros Hr. apply (update_confidence_raises _ uf); [exact Hu | exact Hrange |].
    apply Hi. intros X. apply Hr.
    destruct (ev_relationship ev) as [[| a s0] |]; try discriminate X.
    simpl in X. rewrite X. reflexivity.
Qed.


(** Supportive evidence on the first hypothesis of the usual session: every
    component goes from 0.5 to 0.554. *)
Lemma evidence_moves_confidence_witness :
  exists g' r,
    Session.first_call Session.stage3_similar "h_n2.1_1" Session.observed = Ok g' r /\
    Forall2 Qle [0.5; 0.5; 0.5; 0.5] (updated_confidence r).
Proof.
  unfold Session.first_call.
  destruct (integrateEvidence "h_n2.1_1" Session.observed "abcd1234" 1 Session.stage3_similar)
    as [g' r | g' err] eqn:H; [| vm_compute in H; discriminate H].
  destruct (SMap.get "h_n2.1_1" (vertices Session.stage3_similar)) as [old |] eqn:G;
    [| vm_compute in G; discriminate G].
  assert (Hne : "e_" ++ "abcd1234" <> "h_n2.1_1") by discriminate.
  assert (Hc : confidence old = [0.5; 0.5; 0.5; 0.5]).
  { vm_compute in G. injection G as <-. reflexivity. }
  assert (Hrange : Forall Spec.in_update_range (confidence old)).
  { rewrite Hc. repeat constructor; discriminate. }
  assert (Hpos : Forall (fun x => 0 <= x) (arr_or (ev_confidence Session.observed) [])).
  { repeat constructor; discriminate. }
  destruct (evidence_moves_confidence "h_n2.1_1" Session.observed "abcd1234" 1
              Session.stage3_similar g' r old Hne H G ltac:(rewrite Hc; simpl; lia)
              Hrange Hpos ltac:(discriminate) ltac:(discriminate)) as [_ Up].
  exists g', r. split; [reflexivity |]. rewrite <- Hc. apply Up. discriminate.
Defined.

End Evidence.

(** ** Stage 5: what _removeNode leaves behind *)

Module Removal.
Import Js Args Backup View.

Lemma in_delete {V : Type} (m : list (string * V)) (k k' : string) (v : V) :
  In (k, v) (SMap.delete k' m) <-> In (k, v) m /\ k <> k'.
Proof.
  unfold SMap.delete. rewrite filter_In. simpl. rewrite negb_true_iff, String.eqb_neq.
  split; intros [A B]; (split; [exact A |]); intros X; apply B; symmetry; exact X.
Qed.

Lemma in_delete_all {V : Type} (ks : list string) (m : list (string * V)) (k : string) (v : V) :
  In (k, v) (fold_left (fun acc id => SMap.delete id acc) ks m) <-> In (k, v) m /\ ~ In k ks.
Proof.
  rewrite Prune.delete_keys, filter_In. simpl. rewrite negb_true_iff.
  split; intros [A B]; (split; [exact A |]).
  - intros X. apply SetFacts.mem_in in X. rewrite X in B. discriminate B.
  - destruct (mem k ks) eqn:E; [| reflexivity]. apply SetFacts.mem_in in E. contradiction.
Qed.

(** X13.  [_removeNode] always returns.  Afterwards the id is no vertex and
    every other vertex is as it was; no remaining edge has the id as an
    endpoint, and no edge is added; when the edge ids are distinct, the edges
    that do not touch the id all remain; the id is in no layer; and the
    hyperedges are left as they were, so a hyperedge that lists the id keeps
    listing it. *)
Theorem removeNode_leaves_no_trace (nodeId : string) (g : graph) :
  exists g',
    _removeNode nodeId g = Ok g' tt /\
    SMap.get nodeId (vertices g') = None /\
    (forall id, id <> nodeId -> SMap.get id (vertices g') = SMap.get id (vertices g)) /\
    (forall k e, In (k, e) (edges g') ->
                 In (k, e) (edges g) /\ source e <> nodeId /\ target e <> nodeId) /\
    (NoDup (SMap.keys (edges g)) ->
     forall k e, In (k, e) (edges g) -> source e <> nodeId -> target e <> nodeId ->
                 In (k, e) (edges g')) /\
    (forall lid ns, In (lid, ns) (layers g') -> ~ In nodeId ns) /\
    SMap.keys (layers g') = SMap.keys (layers g) /\
    hyperedges g' = hyperedges g /\
    currentStage g' = currentStage g.
Proof.
  unfold _removeNode, modify. eexists. split; [reflexivity |].
  cbn [vertices edges layers hyperedges currentStage with_vertices with_layers with_edges].
  split; [apply get_delete_same |].
  split; [intros id N; apply get_delete_other; exact N |].
  split.
  { intros k e H. apply in_delete_all in H. destruct H as [Hin Hk]. split; [exact Hin |].
    destruct (incident nodeId e) eqn:I.
    - exfalso. apply Hk. apply in_map_iff. exists (k, e). split; [reflexivity |].
      apply filter_In. split; [exact Hin | exact I].
    - unfold incident in I. apply orb_false_iff in I. destruct I as [A B].
      apply String.eqb_neq in A. apply String.eqb_neq in B. split; assumption. }
  split.
  { intros ND k e Hin Hs Ht. apply in_delete_all. split; [exact Hin |].
    intros X. apply in_map_iff in X. destruct X as [[k' e'] [Ek Hf]]. simpl in Ek. subst k'.
    apply filter_In in Hf. destruct Hf as [Hin' I]. simpl in I.
    rewrite (Prune.keys_unique (edges g) k e' e ND Hin' Hin) in I.
    unfold incident in I. apply orb_true_iff in I.
    destruct I as [I | I]; apply String.eqb_eq in I; contradiction. }
  split.
  { intros lid ns H. apply in_map_iff in H. destruct H as [[lid' ns'] [E _]].
    injection E as _ <-. simpl. intros X. apply filter_In in X. destruct X as [_ X].
    rewrite String.eqb_refl in X. discriminate X. }
  split; [| split; reflexivity].
  unfold SMap.keys. rewrite map_map. reflexivity.
Qed.

End Removal.

(** ** Stage 6: the extracted subgraph; the guard on initial_confidence *)

Module Selection.
Import Js Args Backup View.

(** The selection test of one entry, read off an empty selection. *)
Lemma select_node_in (cr : criteria) (acc : list string) (nodeId : string) (n : node)
      (id : string) :
  In id (select_node cr acc nodeId n) <->
  In id acc \/ (id = nodeId /\ In nodeId (select_node cr [] nodeId n)).
Proof.
  unfold select_node.
  destruct (Qle_bool _ _ && Qle_bool _ _ && _ && _ && _);
    destruct (default_of (include_bridges cr) true && node_type_eqb (type n) bridge);
    rewrite ?SetFacts.set_add_in; simpl; intuition (subst; auto).
Qed.

Lemma selected_nodes_in (cr : criteria) (vs : list (string * node)) (acc : list string)
      (id : string) :
  In id (fold_left (fun a kv => select_node cr a (fst kv) (snd kv)) vs acc) <->
  In id acc \/ exists n, In (id, n) vs /\ In id (select_node cr [] id n).
Proof.
  revert acc. induction vs as [| [k n] vs IH]; intros acc; simpl.
  - split; [intros H; left; exact H | intros [H | [n [[] _]]]; exact H].
  - rewrite IH, select_node_in. split.
    + intros [[H | [-> H]] | [n' [Hin H]]].
      * left. exact H.
      * right. exists n. split; [left; reflexivity | exact H].
      * right. exists n'. split; [right; exact Hin | exact H].
    + intros [H | [n' [[E | Hin] H]]].
      * left. left. exact H.
      * injection E as -> ->. left. right. split; [reflexivity | exact H].
      * right. exists n'. split; assumption.
Qed.

Lemma selected_edges_in (cr : criteria) (nodes : list string) (es : list (string * edge))
      (acc : list string) (id : string) :
  In id (fold_left (fun a kv => select_edge cr nodes a (fst kv) (snd kv)) es acc) ->
  In id acc \/ exists e, In (id, e) es /\ In (source e) nodes /\ In (target e) nodes.
Proof.
  revert acc. induction es as [| [k e] es IH]; intros acc; simpl.
  - intros H. left. exact H.
  - intros H. apply IH in H. destruct H as [H | [e' [Hin H]]].
    + unfold select_edge in H.
      destruct (mem (source e) nodes && mem (target e) nodes && _) eqn:C;
        [| left; exact H].
      apply SetFacts.set_add_in in H. destruct H as [H | ->]; [left; exact H |].
      right. exists e. split; [left; reflexivity |].
      apply andb_true_iff in C. destruct C as [C _].
      apply andb_true_iff in C. destruct C as [A B].
      split; apply SetFacts.mem_in; assumption.
    + right. exists e'. split; [right; exact Hin | exact H].
Qed.

(** X14.  A returning call of extractSubgraphs on a graph whose vertex ids
    and edge ids are distinct changes nothing but the stage, which becomes 6.
    Every node it returns is a vertex of the graph; every edge it returns is
    an edge of the graph both of whose endpoints are among the returned
    nodes, so the subgraph has no dangling edge; and unless
    [include_bridges] is set to false, every bridge node is returned,
    whatever its confidence and impact are. *)
Theorem extractSubgraphs_closed (cr : criteria) (g g' : graph) (sg : subgraph) :
  NoDup (SMap.keys (vertices g)) ->
  NoDup (SMap.keys (edges g)) ->
  extractSubgraphs cr g = Ok g' sg ->
  vertices g' = vertices g /\ edges g' = edges g /\ currentStage g' = 6%nat /\
  (forall on, In on (sg_nodes sg) -> exists id n, on = Some n /\ In (id, n) (vertices g)) /\
  (forall oe,
      In oe (sg_edges sg) ->
      exists id e a b,
        oe = Some e /\ In (id, e) (edges g) /\
        In (source e, a) (vertices g) /\ In (Some a) (sg_nodes sg) /\
        In (target e, b) (vertices g) /\ In (Some b) (sg_nodes sg)) /\
  (include_bridges cr <> Some false ->
   forall id n, In (id, n) (vertices g) -> type n = bridge -> In (Some n) (sg_nodes sg)) /\
  hyperedges g' = hyperedges g /\ layers g' = layers g.
Proof.
  intros NDv NDe H. unfold extractSubgraphs in H.
  bind_inv H. unfold check_stage in E. destruct (currentStage g =? 5)%nat; [| discriminate E].
  injection E as <- _.
  bind_inv H. unfold get_state in E. injection E as <- <-.
  bind_inv H. unfold modify in E. injection E as <- _.
  unfold ret in H. injection H as <- <-.
  cbn [vertices edges currentStage with_stage sg_nodes sg_edges].
  set (nodes := fold_left (fun a kv => select_node cr a (fst kv) (snd kv)) (vertices g) []).
  assert (Hn : forall id, In id nodes ->
                          exists n, In (id, n) (vertices g) /\ SMap.get id (vertices g) = Some n).
  { intros id Hid. apply selected_nodes_in in Hid. destruct Hid as [[] | [n [Hin _]]].
    exists n. split; [exact Hin | apply in_get; assumption]. }
  split; [reflexivity |]. split; [reflexivity |]. split; [reflexivity |].
  split.
  { intros on Hin. apply in_map_iff in Hin. destruct Hin as [id [<- Hid]].
    destruct (Hn id Hid) as [n [Hv Hg]]. exists id, n. split; [exact Hg | exact Hv]. }
  split.
  { intros oe Hin. apply in_map_iff in Hin. destruct Hin as [id [<- Hid]].
    apply selected_edges_in in Hid. destruct Hid as [[] | [e [He [Hs Ht]]]].
    destruct (Hn _ Hs) as [na [Ha Ga]]. destruct (Hn _ Ht) as [nb [Hb Gb]].
    exists id, e, na, nb. split; [apply in_get; assumption |]. split; [exact He |].
    split; [exact Ha |].
    split; [rewrite <- Ga;
            exact (in_map (fun k => SMap.get k (vertices g)) nodes _ Hs) |].
    split; [exact Hb |]. rewrite <- Gb.
    exact (in_map (fun k => SMap.get k (vertices g)) nodes _ Ht). }
  split; [| split; reflexivity].
  intros Hb id n Hin Ht.
  rewrite <- (in_get _ _ _ NDv Hin).
  apply (in_map (fun k => SMap.get k (vertices g)) nodes).
  apply selected_nodes_in. right. exists n. split; [exact Hin |].
  unfold select_node. rewrite Ht.
  assert (B : default_of (include_bridges cr) true = true).
  { destruct (include_bridges cr) as [[|] |]; try reflexivity.
    exfalso. apply Hb. reflexivity. }
  rewrite B. simpl.
  destruct (Qle_bool _ _ && Qle_bool _ _ && _ && _ && _);
    rewrite ?SetFacts.set_add_in; simpl; tauto.
Qed.


(** Three pairwise linked vertices and no criteria: the three edges are
    returned with their endpoints. *)
Lemma extractSubgraphs_closed_witness :
  exists g' sg,
    extractSubgraphs Session.no_criteria Session.triangle = Ok g' sg /\
    vertices g' = vertices Session.triangle /\
    currentStage g' = 6%nat /\
    List.length (sg_edges sg) = 3%nat.
Proof.
  destruct (extractSubgraphs Session.no_criteria Session.triangle) as [g' sg | g' e] eqn:H;
    [| vm_compute in H; discriminate H].
  assert (NDv : NoDup (SMap.keys (vertices Session.triangle))) by Prune.distinct_keys.
  assert (NDe : NoDup (SMap.keys (edges Session.triangle))) by Prune.distinct_keys.
  destruct (extractSubgraphs_closed _ _ _ _ NDv NDe H) as (V & _ & S' & _).
  exists g', sg. split; [reflexivity |]. split; [exact V |]. split; [exact S' |].
  vm_compute in H. injection H as _ <-. reflexivity.
Defined.

End Selection.

Module Validation.
Import Js.

Lemma validate_each_none (l : list Q) (idx : nat) :
  Hardened.validate_each l idx = None <-> Forall Spec.in_unit_interval l.
Proof.
  revert idx. induction l as [| x l IH]; intros idx; simpl.
  - split; [constructor | reflexivity].
  - unfold Hardened.validateNumber.
    destruct (Qltb x 0) eqn:A.
    { split; [discriminate |]. intros H. inversion H as [| ? ? [L _] _]; subst.
      apply Prune.Qltb_lt in A. exfalso. exact (Qlt_not_le _ _ A L). }
    destruct (Qltb 1 x) eqn:B.
    { split; [discriminate |]. intros H. inversion H as [| ? ? [_ U] _]; subst.
      apply Prune.Qltb_lt in B. exfalso. exact (Qlt_not_le _ _ B U). }
    rewrite IH. split.
    + intros H. constructor; [| exact H]. split.
      * apply Qnot_lt_le. intros X. apply Prune.Qltb_lt in X. rewrite X in A. discriminate A.
      * apply Qnot_lt_le. intros X. apply Prune.Qltb_lt in X. rewrite X in B. discriminate B.
    + intros H. inversion H; subst. assumption.
Qed.

(** X15.  The guard that the last server variant runs before [initialize]
    lets an [initial_confidence] argument through exactly when it is absent
    or is a vector of four numbers that all lie in [0, 1]. *)
Theorem initial_confidence_accepted_iff (c : option (list Q)) :
  Hardened.validate_initial_confidence c = None <->
  c = None \/
  exists l, c = Some l /\ List.length l = 4%nat /\ Forall Spec.in_unit_interval l.
Proof.
  unfold Hardened.validate_initial_confidence. destruct c as [l |].
  - unfold Hardened.validateArray. simpl negb. simpl andb.
    destruct (Nat.ltb_spec 4 (List.length l)) as [A | A].
    { split; [discriminate |]. intros [X | [l' [[= <-] [L _]]]]; [discriminate X | lia]. }
    destruct (Nat.ltb_spec (List.length l) 4) as [B | B].
    { split; [discriminate |]. intros [X | [l' [[= <-] [L _]]]]; [discriminate X | lia]. }
    rewrite validate_each_none. split.
    + intros H. right. exists l. split; [reflexivity |]. split; [lia | exact H].
    + intros [X | [l' [[= <-] [_ H]]]]; [discriminate X | exact H].
  - split; [intros _; left; reflexivity | reflexivity].
Qed.

End Validation.

(** ** The read-only analyses of the graph *)

Module Summary.
Import Js Args Backup Analysis.

Lemma Qle_bool_trans_const (a b x : Q) : a <= b -> Qle_bool b x = true -> Qle_bool a x = true.
Proof.
  intros L H. apply Qle_bool_iff. apply Qle_bool_iff in H. exact (Qle_trans _ _ _ L H).
Qed.

(** Three tests of which exactly one holds split a list into three parts. *)
Lemma three_way_split {A : Type} (p q r : A -> bool) (l : list A) :
  (forall x, (p x = true /\ q x = false /\ r x = false) \/
             (p x = false /\ q x = true /\ r x = false) \/
             (p x = false /\ q x = false /\ r x = true)) ->
  (List.length (filter p l) + List.length (filter q l) + List.length (filter r l)
   = List.length l)%nat.
Proof.
  intros H. induction l as [| x l IH]; simpl; [reflexivity |].
  destruct (H x) as [(-> & -> & ->) | [(-> & -> & ->) | (-> & -> & ->)]]; simpl; lia.
Qed.

Lemma filter_length_all {A : Type} (p : A -> bool) (l : list A) :
  List.length (filter p l) = List.length l <-> forall x, In x l -> p x = true.
Proof.
  induction l as [| x l IH]; simpl.
  - split; [intros _ x [] | reflexivity].
  - pose proof (filter_length_le p l) as L. destruct (p x) eqn:E; simpl.
    + split.
      * intros H y [<- | Hy]; [exact E | apply IH; [lia | exact Hy]].
      * intros H. f_equal. apply IH. intros y Hy. apply H. right. exact Hy.
    + split; [lia |]. intros H. rewrite (H x (or_introl eq_refl)) in E. discriminate E.
Qed.

Lemma ratio_one (k n : nat) : (0 < n)%nat -> (Qnat k / Qnat n == 1 <-> k = n).
Proof.
  intros P. pose proof (Similarity.Qnat_pos n P) as Pq.
  assert (NZ : ~ Qnat n == 0) by (intros X; rewrite X in Pq; exact (Qlt_irrefl _ Pq)).
  split.
  - intros E. assert (K : Qnat k == Qnat n).
    { apply Qeq_trans with (Qnat k / Qnat n * Qnat n).
      - field. exact NZ.
      - rewrite E. apply Qmult_1_l. }
    unfold Qnat in K. rewrite inject_Z_injective in K. lia.
  - intros ->. apply Qmult_inv_r. exact NZ.
Qed.

(** X17.  [_assessFalsifiabilityCoverage] is a number in [0, 1]; it is 1
    exactly when every hypothesis node has a non-empty falsification
    criterion, which includes the graph that has no hypothesis at all. *)
Theorem falsifiability_coverage_range (g : graph) :
  0 <= _assessFalsifiabilityCoverage g /\
  _assessFalsifiabilityCoverage g <= 1 /\
  (_assessFalsifiabilityCoverage g == 1 <->
   forall id n, In (id, n) (vertices g) -> type n = hypothesis -> lacks_criteria n = false).
Proof.
  unfold _assessFalsifiabilityCoverage.
  set (hs := filter (fun n => node_type_eqb (type n) hypothesis) (map snd (vertices g))).
  assert (Hall : (forall n, In n hs -> has_criteria n = true) <->
                 forall id n, In (id, n) (vertices g) -> type n = hypothesis ->
                              lacks_criteria n = false).
  { unfold has_criteria. split.
    - intros H id n Hin Ht. apply negb_true_iff. apply H. apply filter_In. split.
      + apply in_map_iff. exists (id, n). split; [reflexivity | exact Hin].
      + rewrite Ht. reflexivity.
    - intros H n Hin. apply filter_In in Hin. destruct Hin as [Hin Ht].
      apply in_map_iff in Hin. destruct Hin as [[id n'] [E Hin]]. simpl in E. subst n'.
      apply negb_true_iff. apply (H id n Hin).
      destruct (type n); try discriminate Ht. reflexivity. }
  pose proof (filter_length_le has_criteria hs) as L.
  destruct (Nat.ltb_spec 0 (List.length hs)) as [P | P].
  - destruct (Similarity.ratio_in_unit_interval _ _ L P) as [A B].
    split; [exact A |]. split; [exact B |].
    rewrite <- Hall, <- filter_length_all. apply ratio_one. exact P.
  - split; [discriminate |]. split; [discriminate |].
    split; [| reflexivity]. intros _. apply Hall.
    destruct hs; [intros n [] | simpl in P; lia].
Qed.


(** X18.  [_getNeighbors] ignores the direction of the edges: it lists, each
    once, the ids at the other end of an edge that starts or ends at the
    node; so one node is a neighbour of another exactly when the other is a
    neighbour of the first, and a node with a self-loop is its own
    neighbour. *)
Theorem neighbors_symmetric (g : graph) (a b : string) :
  NoDup (_getNeighbors g a) /\
  (In b (_getNeighbors g a) <->
   exists k e, In (k, e) (edges g) /\
               ((source e = a /\ target e = b) \/ (source e = b /\ target e = a))) /\
  (In b (_getNeighbors g a) <-> In a (_getNeighbors g b)).
Proof.
  assert (Spec : forall x y,
             In y (_getNeighbors g x) <->
             exists k e, In (k, e) (edges g) /\
                         ((source e = x /\ target e = y) \/ (source e = y /\ target e = x))).
  { intros x y. unfold _getNeighbors. rewrite SetFacts.set_of_in, in_flat_map. split.
    - intros [[k e] [Hin H]]. simpl in H. exists k, e. split; [exact Hin |].
      apply in_app_or in H. destruct H as [H | H].
      + destruct (String.eqb_spec (source e) x) as [E |]; [| contradiction].
        destruct H as [<- | []]. left. split; [exact E | reflexivity].
      + destruct (String.eqb_spec (target e) x) as [E |]; [| contradiction].
        destruct H as [<- | []]. right. split; [reflexivity | exact E].
    - intros [k [e [Hin H]]]. exists (k, e). split; [exact Hin |]. simpl.
      apply in_or_app. destruct H as [[<- <-] | [<- <-]].
      + left. rewrite String.eqb_refl. left. reflexivity.
      + right. rewrite String.eqb_refl. left. reflexivity. }
  split; [apply SetFacts.set_of_nodup |].
  split; [apply Spec |].
  rewrite !Spec. split; intros [k [e [Hin H]]]; exists k, e; (split; [exact Hin | tauto]).
Qed.

Lemma count_up_total (table : list (string * nat)) (key : string) :
  list_sum (map snd (count_up table key)) = S (list_sum (map snd table)).
Proof.
  unfold count_up. induction table as [| [k n] table IH]; simpl; [reflexivity |].
  rewrite (String.eqb_sym key k).
  destruct (String.eqb k key) eqn:E; simpl.
  - unfold default_of. lia.
  - rewrite IH. lia.
Qed.

Lemma count_up_all_total (keys : list string) (table : list (string * nat)) :
  list_sum (map snd (fold_left count_up keys table))
  = (list_sum (map snd table) + List.length keys)%nat.
Proof.
  revert table. induction keys as [| k keys IH]; intros table; simpl; [lia |].
  rewrite IH, count_up_total. lia.
Qed.

(** X16.  The tallies of the graph summary count every vertex once.  The
    three classes of [_getImpactDistribution] (impact at least 0.7, from 0.4
    up to 0.7, below 0.4, a zero score counting as 0.5) partition the
    vertices; the counts of [_getNodeTypeBreakdown] add up to the number of
    vertices, and a type has an entry exactly when some vertex has it. *)
Theorem summary_tallies (g : graph) :
  (let d := _getImpactDistribution g in
   (high_impact d + medium_impact d + low_impact d = List.length (vertices g))%nat) /\
  list_sum (map snd (_getNodeTypeBreakdown g)) = List.length (vertices g) /\
  (forall t, SMap.has (type_name t) (_getNodeTypeBreakdown g) = true <->
             exists id n, In (id, n) (vertices g) /\ type n = t).
Proof.
  split.
  {
    intros d. subst d. unfold _getImpactDistribution.
    cbn [high_impact medium_impact low_impact].
    rewrite three_way_split; [apply length_map |].
    intros i. unfold Qltb.
    destruct (Qle_bool 0.7 i) eqn:A.
    - left. rewrite (Qle_bool_trans_const 0.4 0.7 i) by (discriminate || exact A).
      repeat split; reflexivity.
    - destruct (Qle_bool 0.4 i); [right; left | right; right]; repeat split; reflexivity.
  }
  unfold _getNodeTypeBreakdown.
  assert (G : forall (vs : list (string * node)) (table : list (string * nat)),
             fold_left (fun breakdown kv => count_up breakdown (type_name (type (snd kv))))
                       vs table
             = fold_left count_up (map (fun kv => type_name (type (snd kv))) vs) table).
  { induction vs as [| kv vs IH]; intros table; simpl; [reflexivity | apply IH]. }
  rewrite G. split.
  - rewrite count_up_all_total, length_map. reflexivity.
  - intros t.
    assert (K : forall keys table k,
               SMap.has k (fold_left count_up keys table) = true <->
               SMap.has k table = true \/ In k keys).
    { induction keys as [| x keys IH]; intros table k; simpl.
      - tauto.
      - rewrite IH. unfold count_up, SMap.has.
        destruct (String.eqb_spec k x) as [-> | N].
        + rewrite get_set_same. intuition.
        + rewrite get_set_other by exact N. split.
          * intros [H | H]; [left; exact H | right; right; exact H].
          * intros [H | [H | H]]; [left; exact H | | right; exact H].
            exfalso. apply N. symmetry. exact H. }
    rewrite K. split.
    + intros [H | H]; [discriminate H |]. apply in_map_iff in H.
      destruct H as [[id n] [E Hin]]. exists id, n. split; [exact Hin |].
      simpl in E. destruct (type n), t; try discriminate E; reflexivity.
    + intros [id [n [Hin <-]]]. right. apply in_map_iff. exists (id, n).
      split; [reflexivity | exact Hin].
Qed.

End Summary.

(** ** The analysis tools of the handler *)

Module Tools.
Import Js Args Backup Analysis Server.


(** What [_identifyKnowledgeGaps] lists. *)
Lemma identified_gap (g : graph) (x : gap) :
  In x (_identifyKnowledgeGaps g) -> gap_confidence x < 0.4 /\ 0.6 < gap_impact x.
Proof.
  unfold _identifyKnowledgeGaps. rewrite in_flat_map. intros [[id n] [_ H]]. simpl in H.
  destruct (Qltb (avgConfidence n) 0.4) eqn:A; [| contradiction].
  destruct (Qltb 0.6 (impact_score (node_metadata n))) eqn:B; [| contradiction].
  destruct H as [<- | []]. simpl. split; apply Prune.Qltb_lt; assumption.
Qed.

Lemma filter_keeps_all {A : Type} (p : A -> bool) (l : list A) :
  (forall x, In x l -> p x = true) -> filter p l = l.
Proof.
  induction l as [| x l IH]; intros H; simpl; [reflexivity |].
  rewrite (H x (or_introl eq_refl)). f_equal. apply IH.
  intros y Hy. apply H. right. exact Hy.
Qed.

(** X20.  The thresholds of analyze_knowledge_gaps can only narrow the list
    that [_identifyKnowledgeGaps] fixes with its own bounds (mean confidence
    below 0.4, impact above 0.6): with an impact threshold of at most 0.6 and
    a confidence threshold of at least 0.4 (absent and zero values count as
    0.6 and 0.4) every gap is reported, so asking for gaps up to a higher
    confidence or down to a lower impact returns nothing more. *)
Theorem gap_thresholds_only_narrow (impact_threshold confidence_threshold : option Q)
        (g : graph) :
  num_or impact_threshold 0.6 <= 0.6 ->
  0.4 <= num_or confidence_threshold 0.4 ->
  let r := analyze_gaps impact_threshold confidence_threshold g in
  knowledge_gaps r = _identifyKnowledgeGaps g /\ critical_gaps r = total_gaps r.
Proof.
  intros Hi Hc r. subst r. unfold analyze_gaps.
  cbn [knowledge_gaps critical_gaps total_gaps].
  rewrite filter_keeps_all; [split; reflexivity |].
  intros x Hx. destruct (identified_gap g x Hx) as [A B].
  apply andb_true_iff. split; apply Qle_bool_iff.
  - apply Qle_trans with 0.6; [exact Hi | apply Qlt_le_weak; exact B].
  - apply Qle_trans with 0.4; [apply Qlt_le_weak; exact A | exact Hc].
Qed.

(** A hypothesis at mean confidence 0.2 with impact 0.9, asked for with the
    thresholds 0.5 and 0.9: it is the one gap, and it is reported. *)
Lemma gap_thresholds_only_narrow_witness :
  let r := analyze_gaps (Some 0.5) (Some 0.9) Scenario.stage3_bold in
  map gap_node_id (knowledge_gaps r) = ["h_n2.1_1"] /\ critical_gaps r = total_gaps r.
Proof.
  intros r. subst r.
  destruct (gap_thresholds_only_narrow (Some 0.5) (Some 0.9) Scenario.stage3_bold
              ltac:(vm_compute; discriminate) ltac:(vm_compute; discriminate)) as [K C].
  split; [rewrite K; vm_compute; reflexivity | exact C].
Defined.

Lemma bias_round_total (vs : list (string * node))
      (acc : list (string * list string) * list (string * nat)) :
  list_sum (map snd (snd (fold_left bias_round vs acc)))
  = (list_sum (map snd (snd acc))
     + fold_left (fun total kv => (total + List.length (bias_flags (node_metadata (snd kv))))%nat)
                 vs 0)%nat.
Proof.
  assert (Shift : forall (l : list (string * node)) a,
             fold_left (fun total kv =>
                          (total + List.length (bias_flags (node_metadata (snd kv))))%nat) l a
             = (a + fold_left (fun total kv =>
                                 (total + List.length (bias_flags (node_metadata (snd kv))))%nat)
                              l 0)%nat).
  { induction l as [| kv l IH]; intros a; simpl; [lia |].
    rewrite IH. rewrite (IH (List.length _)). lia. }
  revert acc. induction vs as [| kv vs IH]; intros acc; simpl; [lia |].
  rewrite IH. rewrite (Shift vs (List.length _)).
  unfold bias_round. destruct (Nat.ltb_spec 0 (List.length (bias_flags (node_metadata (snd kv)))))
    as [P | P]; simpl.
  - rewrite Summary.count_up_all_total. lia.
  - lia.
Qed.

(** X21.  In the result of detect_biases the counts in [bias_types] add up
    to [total_bias_flags], which is the number of flags over all vertices;
    the two recommendations are given exactly when that number is not zero. *)
Theorem bias_types_total (g : graph) :
  let r := detect g in
  list_sum (map snd (bias_types r)) = total_bias_flags r /\
  total_bias_flags r
  = list_sum (map (fun kv => List.length (bias_flags (node_metadata (snd kv)))) (vertices g)) /\
  (recommendations r = [] <-> total_bias_flags r = 0%nat).
Proof.
  intros r. subst r. unfold detect. cbn [bias_types total_bias_flags recommendations].
  split; [rewrite bias_round_total; reflexivity |].
  split.
  { unfold _countBiasFlags.
    assert (G : forall (l : list (string * node)) a,
               fold_left (fun total kv =>
                            (total + List.length (bias_flags (node_metadata (snd kv))))%nat) l a
               = (a + list_sum (map (fun kv => List.length (bias_flags (node_metadata (snd kv))))
                                    l))%nat).
    { induction l as [| kv l IH]; intros a; simpl; [lia | rewrite IH; lia]. }
    rewrite G. reflexivity. }
  destruct (Nat.ltb_spec 0 (_countBiasFlags g)); split; try discriminate; try lia.
  reflexivity.
Qed.













End Tools.

(** ** The stage discipline of the stage methods *)

Module Protocol.
Import Js Args Backup Discipline Server.


Section Rules.
Context {A B : Type}.
Variable P : graph -> Prop.

Lemma steady_ret (a : A) : steady P (ret a).
Proof. intros g Hp. split; [reflexivity |]. intros g' a' [= <- _]. exact Hp. Qed.

Lemma steady_throw (e : error) : steady P (@throw graph A e).
Proof. intros g Hp. split; [reflexivity | discriminate]. Qed.

Lemma steady_bind (c : M graph A) (k : A -> M graph B) :
  steady P c -> (forall a, steady P (k a)) -> steady P (bind c k).
Proof.
  intros Hc Hk g Hp. destruct (Hc g Hp) as [S1 P1]. unfold bind.
  destruct (c g) as [g1 a | g1 e] eqn:E; simpl in S1.
  - destruct (Hk a g1 (P1 g1 a eq_refl)) as [S2 P2]. split.
    + rewrite S2. exact S1.
    + exact P2.
  - split; [exact S1 | discriminate].
Qed.

Lemma finishes_bind (k : nat) (c : M graph A) (f : A -> M graph B) :
  steady P c -> (forall a, finishes P k (f a)) -> finishes P k (bind c f).
Proof.
  intros Hc Hf g Hp. destruct (Hc g Hp) as [S1 P1]. unfold bind.
  destruct (c g) as [g1 a | g1 e] eqn:E; simpl in S1.
  - specialize (Hf a g1 (P1 g1 a eq_refl)).
    destruct (f a g1) as [g2 b | g2 e]; [exact Hf | rewrite Hf; exact S1].
  - exact S1.
Qed.
End Rules.

Lemma steady_modify (P : graph -> Prop) (f : graph -> graph) :
  (forall g, P g -> currentStage (f g) = currentStage g /\ P (f g)) -> steady P (modify f).
Proof.
  intros H g Hp. destruct (H g Hp) as [S1 P1]. split; [exact S1 |].
  intros g' a [= <- _]. exact P1.
Qed.

Lemma steady_get_state (P : graph -> Prop) : steady P get_state.
Proof. intros g Hp. split; [reflexivity |]. intros g' a [= <- _]. exact Hp. Qed.

(** A computation that leaves the graph as it is. *)
Lemma steady_reader {A : Type} (P : graph -> Prop) (c : M graph A) :
  (forall g, state_of (c g) = g) -> steady P c.
Proof.
  intros H g Hp. split; [rewrite H; reflexivity |].
  intros g' a E. specialize (H g). rewrite E in H. simpl in H. subst g'. exact Hp.
Qed.

Lemma steady_check_vertex (P : graph -> Prop) (id : string) : steady P (check_vertex id).
Proof.
  apply steady_reader. intros g. unfold check_vertex.
  destruct (SMap.has id (vertices g)); reflexivity.
Qed.

Lemma steady_get_node (P : graph -> Prop) (id : string) : steady P (get_node id).
Proof.
  apply steady_reader. intros g. unfold get_node.
  destruct (SMap.get id (vertices g)); reflexivity.
Qed.

Lemma steady_community (P : graph -> Prop) : steady P _updateCommunityStructure.
Proof.
  apply steady_reader. intros g. unfold _updateCommunityStructure.
  destruct (existsb _ _); reflexivity.
Qed.

(** The steps of stages 2 to 4 under an invariant that survives every write
    they make: a vertex stored, and any change of the edges, the layers and
    the hyperedges. *)
Section Writes.
Variable P : graph -> Prop.
Hypothesis P_vertex : forall g k n, P g -> P (with_vertices (SMap.set k n) g).
Hypothesis P_edges : forall g f, P g -> P (with_edges f g).
Hypothesis P_layers : forall g f, P g -> P (with_layers f g).
Hypothesis P_hyperedges : forall g f, P g -> P (with_hyperedges f g).

Lemma steady_store (k : string) (n : node) : steady P (modify (with_vertices (SMap.set k n))).
Proof. apply steady_modify. intros g Hp. split; [reflexivity | apply P_vertex; exact Hp]. Qed.

Lemma steady_edges (f : list (string * edge) -> list (string * edge)) :
  steady P (modify (with_edges f)).
Proof. apply steady_modify. intros g Hp. split; [reflexivity | apply P_edges; exact Hp]. Qed.

Lemma steady_hyperedges (f : list (string * hyperedge) -> list (string * hyperedge)) :
  steady P (modify (with_hyperedges f)).
Proof. apply steady_modify. intros g Hp. split; [reflexivity | apply P_hyperedges; exact Hp]. Qed.

Lemma steady_layer_add (lid nid : string) : steady P (layer_add lid nid).
Proof.
  intros g Hp. unfold layer_add. destruct (SMap.get lid (layers g));
    (split; [reflexivity |]); [| discriminate].
  intros g' a [= <- _]. apply P_layers. exact Hp.
Qed.

Lemma steady_update_node (k : string) (f : node -> node) : steady P (update_node k f).
Proof.
  intros g Hp. unfold update_node. destruct (SMap.get k (vertices g));
    (split; [reflexivity |]); [| discriminate].
  intros g' a [= <- _]. apply P_vertex. exact Hp.
Qed.

Ltac steady_steps :=
  repeat first
    [ apply steady_ret | apply steady_throw | apply steady_get_state
    | apply steady_get_node | apply steady_check_vertex | apply steady_community
    | apply steady_store | apply steady_edges | apply steady_hyperedges
    | apply steady_layer_add | apply steady_update_node
    | apply steady_bind; [| intro]
    | match goal with
      | |- steady _ (match ?x with _ => _ end) => destruct x
      end ].

Lemma steady_decompose_body (dim : string) (index : nat) : steady P (decompose_body dim index).
Proof. unfold decompose_body. steady_steps. Qed.

Lemma steady_hypothesis_body (dimId : string) (h : hypothesis_input) (index : nat) :
  steady P (hypothesis_body dimId h index).
Proof. unfold hypothesis_body, _assessInitialBiasRisk. steady_steps. Qed.

Lemma steady_collect_from {X : Type} (body : X -> nat -> M graph string) (l : list X)
      (index : nat) :
  (forall x i, steady P (body x i)) -> steady P (collect_from body l index).
Proof.
  intros Hb. revert index. induction l as [| x l IH]; intros index; simpl.
  - apply steady_ret.
  - apply steady_bind; [apply Hb | intros id].
    apply steady_bind; [apply IH | intros ids]. apply steady_ret.
Qed.

Lemma steady_bridges (evidenceId hypothesisId : string) :
  steady P (_checkInterdisciplinaryBridges evidenceId hypothesisId).
Proof. unfold _checkInterdisciplinaryBridges. steady_steps. Qed.

Lemma steady_hyperedge_creation (evidenceId : string) :
  steady P (_checkHyperedgeCreation evidenceId).
Proof. unfold _checkHyperedgeCreation. steady_steps. Qed.

Lemma steady_decay (nodeId : string) (decay : Q) : steady P (_applyTemporalDecay nodeId decay).
Proof. unfold _applyTemporalDecay. steady_steps. Qed.

Lemma steady_adaptTopology (evidenceId hypothesisId : string) :
  steady P (_adaptTopology evidenceId hypothesisId).
Proof. unfold _adaptTopology. steady_steps. Qed.

End Writes.

Lemma has_vertex_writes (id : string) :
  (forall g k n, has_vertex id g -> has_vertex id (with_vertices (SMap.set k n) g)) /\
  (forall g f, has_vertex id g -> has_vertex id (with_edges f g)) /\
  (forall g f, has_vertex id g -> has_vertex id (with_layers f g)) /\
  (forall g f, has_vertex id g -> has_vertex id (with_hyperedges f g)).
Proof.
  unfold has_vertex. repeat split; intros; simpl; try assumption.
  apply Evidence.has_set_keeps. assumption.
Qed.

Lemma finishes_throw {A : Type} (P : graph -> Prop) (k : nat) (e : error) :
  finishes P k (@throw graph A e).
Proof. intros g _. reflexivity. Qed.

Lemma finishes_end {A : Type} (P : graph -> Prop) (k : nat) (a : A) :
  finishes P k (modify (with_stage (S k)) ;;; ret a).
Proof. intros g _. reflexivity. Qed.

Lemma advances_gate {A : Type} (k : nat) (c : M graph A) :
  finishes anywhere k c -> advances k (check_stage k ;;; c).
Proof.
  intros H g. unfold bind, check_stage.
  destruct (Nat.eqb_spec (currentStage g) k) as [E | N]; [| reflexivity].
  specialize (H g I). destruct (c g); [split; [exact E | exact H] | exact H].
Qed.

Lemma finishes_check_vertex {A : Type} (k : nat) (id : string) (c : M graph A) :
  finishes (has_vertex id) k c -> finishes anywhere k (check_vertex id ;;; c).
Proof.
  intros H g _. unfold bind, check_vertex.
  destruct (SMap.has id (vertices g)) eqn:E; [| reflexivity].
  exact (H g E).
Qed.

Lemma decomposeTask_advances (dims : option (list string)) : advances 1 (decomposeTask dims).
Proof.
  unfold decomposeTask. apply advances_gate.
  apply finishes_bind; [| intros ids; apply finishes_end].
  apply steady_collect_from. intros x i. apply steady_decompose_body; intros; exact I.
Qed.

Lemma generateHypotheses_advances (dimId : string) (hs : list hypothesis_input)
      (cfg : option Q) :
  advances 2 (generateHypotheses dimId hs cfg).
Proof.
  unfold generateHypotheses. apply advances_gate.
  apply finishes_bind; [apply steady_check_vertex | intros _].
  apply finishes_bind; [| intros ids; apply finishes_end].
  apply steady_collect_from. intros x i. apply steady_hypothesis_body; intros; exact I.
Qed.

(** The last steps of [integrateEvidence]: the target is still a vertex, so
    the read that follows the change of stage returns. *)
Lemma finishes_integration (hyp evidenceId : string) :
  finishes (has_vertex hyp) 3
           (modify (with_stage 4%nat) ;;;
            hyp' <- get_node hyp ;;
            ret (mk_evidence_result evidenceId (confidence hyp'))).
Proof.
  intros g Hp. unfold bind, modify, get_node. simpl.
  unfold has_vertex, SMap.has in Hp.
  destruct (SMap.get hyp (vertices g)); [reflexivity | discriminate Hp].
Qed.

Lemma integrateEvidence_advances (hyp : string) (ev : evidence_input) (token : string)
      (decay : Q) :
  advances 3 (integrateEvidence hyp ev token decay).
Proof.
  destruct (has_vertex_writes hyp) as (Wv & We & Wl & Wh).
  unfold integrateEvidence. apply advances_gate. apply finishes_check_vertex.
  apply finishes_bind; [apply steady_store; exact Wv | intros _].
  apply finishes_bind; [apply steady_layer_add; exact Wl | intros _].
  apply finishes_bind; [apply steady_edges; exact We | intros _].
  apply finishes_bind; [apply steady_get_node | intros old].
  destruct (_calculateBayesianUpdate ev _) as [uf |]; [| apply finishes_throw].
  destruct (update_confidence (confidence old) uf) as [c' |]; [| apply finishes_throw].
  apply finishes_bind; [apply steady_update_node; exact Wv | intros _].
  apply finishes_bind; [apply steady_bridges; assumption | intros _].
  apply finishes_bind; [apply steady_hyperedge_creation; assumption | intros _].
  apply finishes_bind; [apply steady_decay; assumption | intros _].
  apply finishes_bind; [apply steady_adaptTopology; assumption | intros _].
  apply finishes_integration.
Qed.

Lemma steady_removeNode (nodeId : string) : steady anywhere (_removeNode nodeId).
Proof. apply steady_modify. intros g _. split; [reflexivity | exact I]. Qed.

Lemma steady_prune_loop (thr : Binary64.number) (entries : list (string * node)) :
  steady anywhere (prune_loop thr entries).
Proof.
  induction entries as [| [nodeId n] entries IH]; simpl; [apply steady_ret |].
  destruct (prunable thr nodeId n); [| exact IH].
  apply steady_bind; [apply steady_removeNode | intros _].
  apply steady_bind; [exact IH | intros ids]. apply steady_ret.
Qed.

Lemma steady_mergeNodes (id1 id2 : string) : steady anywhere (_mergeNodes id1 id2).
Proof.
  unfold _mergeNodes.
  apply steady_bind; [apply steady_get_node | intros n1].
  apply steady_bind; [apply steady_get_node | intros n2].
  destruct (max_components _ _); [| apply steady_throw].
  apply steady_bind; [apply steady_edges; intros; exact I | intros _].
  apply steady_bind; [apply steady_removeNode | intros _].
  apply steady_bind; [apply steady_removeNode | intros _].
  apply steady_bind; [apply steady_store; intros; exact I | intros _].
  apply steady_ret.
Qed.

Lemma steady_merge_inner (thr : Q) (id_i : string) (rest : list string) :
  steady anywhere (merge_inner thr id_i rest).
Proof.
  induction rest as [| id_j rest IH]; simpl; [apply steady_ret |].
  apply steady_bind; [apply steady_get_state | intros g0].
  destruct (SMap.get id_i (vertices g0)) as [n1 |]; [| apply steady_throw].
  destruct (SMap.get id_j (vertices g0)) as [n2 |]; [| apply steady_throw].
  destruct (node_type_eqb (type n1) (type n2)).
  - destruct (_calculateSemanticSimilarity _ _) as [sim |]; [| apply steady_throw].
    destruct (Qle_bool thr sim).
    + apply steady_bind; [apply steady_mergeNodes | intros mergedId].
      apply steady_bind; [exact IH | intros out]. apply steady_ret.
    + apply steady_bind; [exact IH | intros out]. apply steady_ret.
  - apply steady_bind; [exact IH | intros out]. apply steady_ret.
Qed.

Lemma steady_merge_outer (fuel : nat) (thr : Q) (remaining : list string) :
  steady anywhere (merge_outer fuel thr remaining).
Proof.
  revert remaining. induction fuel as [| fuel IH]; intros remaining; simpl;
    [apply steady_ret |].
  destruct remaining as [| id_i rest]; [apply steady_ret |].
  apply steady_bind; [apply steady_merge_inner | intros out].
  apply steady_bind; [apply IH | intros more]. apply steady_ret.
Qed.

Lemma pruneAndMergeNodes_advances (pt mt : option Q) : advances 4 (pruneAndMergeNodes pt mt).
Proof.
  unfold pruneAndMergeNodes. apply advances_gate.
  apply finishes_bind; [apply steady_get_state | intros g0].
  apply finishes_bind; [apply steady_prune_loop | intros pruned].
  apply finishes_bind; [apply steady_get_state | intros g1].
  apply finishes_bind; [apply steady_merge_outer | intros merged].
  apply finishes_end.
Qed.

Lemma extractSubgraphs_advances (cr : criteria) : advances 5 (extractSubgraphs cr).
Proof.
  unfold extractSubgraphs. apply advances_gate.
  apply finishes_bind; [apply steady_get_state | intros g0].
  apply finishes_end.
Qed.


(** X24.  The stage discipline of the handler.  For each of the five stage
    tools after initialize, called on a session that holds a graph: the
    session keeps holding a graph; if the reply is a result, the graph was
    at the stage the tool requires and is now at the next one; if the reply
    is an error, the stage is the one it was, whatever the call had written
    before it failed.  So a stage tool never succeeds twice in a row, and a
    failed call never moves the session to another stage. *)
Theorem stage_discipline (r : request) (k : nat) (g : graph) :
  required_stage r = Some k ->
  exists g',
    session (handle r (Some g)) = Some g' /\
    (is_result (handle r (Some g)) = true ->
     currentStage g = k /\ currentStage g' = S k) /\
    (is_result (handle r (Some g)) = false -> currentStage g' = currentStage g).
Proof.
  assert (Run : forall (A : Type) (m : M graph A) (wrap : A -> response),
             advances k m ->
             exists g',
               session (on_graph (Some g) m wrap) = Some g' /\
               (is_result (on_graph (Some g) m wrap) = true ->
                currentStage g = k /\ currentStage g' = S k) /\
               (is_result (on_graph (Some g) m wrap) = false ->
                currentStage g' = currentStage g)).
  { intros A m wrap H. specialize (H g). unfold on_graph, is_result.
    destruct (m g) as [g' a | g' e]; exists g'; simpl;
      (split; [reflexivity |]); split; intros X; try discriminate X; exact H. }
  destruct r; simpl; intros [= <-]; apply Run.
  - apply decomposeTask_advances.
  - apply generateHypotheses_advances.
  - apply integrateEvidence_advances.
  - apply pruneAndMergeNodes_advances.
  - apply extractSubgraphs_advances.
Qed.

(** A second decompose_research_task call in the usual session: the first
    one returned at stage 2, so the second is an error and the stage stays
    2. *)
Lemma stage_discipline_witness :
  let g2 := state_of ((initialize "Study X" None None ;;; decomposeTask None) (new_graph true)) in
  exists g',
    session (handle (decompose_research_task None) (Some g2)) = Some g' /\
    is_result (handle (decompose_research_task None) (Some g2)) = false /\
    currentStage g' = 2%nat.
Proof.
  intros g2.
  destruct (stage_discipline (decompose_research_task None) 1 g2 eq_refl) as (g' & S' & _ & F).
  exists g'. split; [exact S' |].
  assert (R : is_result (handle (decompose_research_task None) (Some g2)) = false)
    by reflexivity.
  split; [exact R | exact (F R)].
Defined.

End Protocol.

(** ** Graphs without layers *)

Module Layers.
Import Js Args Backup Discipline Server.

Section Rules.
Context {A B : Type}.

Lemma layerless_ret (a : A) : layerless (@ret graph A a).
Proof. intros g H. exact H. Qed.

Lemma layerless_throw (e : error) : layerless (@throw graph A e).
Proof. intros g H. exact H. Qed.

Lemma layerless_bind (c : M graph A) (k : A -> M graph B) :
  layerless c -> (forall a, layerless (k a)) -> layerless (bind c k).
Proof.
  intros Hc Hk g H. specialize (Hc g H). unfold bind.
  destruct (c g) as [g1 a | g1 e]; simpl in Hc; [apply Hk; exact Hc | exact Hc].
Qed.

(** A computation that leaves the graph as it is. *)
Lemma layerless_reader (c : M graph A) : (forall g, state_of (c g) = g) -> layerless c.
Proof. intros H g L. rewrite H. exact L. Qed.
End Rules.

Lemma layerless_modify (f : graph -> graph) :
  (forall g, layers g = [] -> layers (f g) = []) -> layerless (modify f).
Proof. intros H g L. apply H. exact L. Qed.

Lemma layerless_layer_add (lid nid : string) : layerless (layer_add lid nid).
Proof. intros g L. unfold layer_add. rewrite L. exact L. Qed.

Lemma layerless_update_node (k : string) (f : node -> node) : layerless (update_node k f).
Proof.
  intros g L. unfold update_node. destruct (SMap.get k (vertices g)); exact L.
Qed.

Lemma layerless_get_node (id : string) : layerless (get_node id).
Proof.
  apply layerless_reader. intros g. unfold get_node.
  destruct (SMap.get id (vertices g)); reflexivity.
Qed.

Lemma layerless_check_vertex (id : string) : layerless (check_vertex id).
Proof.
  apply layerless_reader. intros g. unfold check_vertex.
  destruct (SMap.has id (vertices g)); reflexivity.
Qed.

Lemma layerless_check_stage (k : nat) : layerless (check_stage k).
Proof.
  apply layerless_reader. intros g. unfold check_stage.
  destruct (currentStage g =? k)%nat; reflexivity.
Qed.

Lemma layerless_removeNode (nodeId : string) : layerless (_removeNode nodeId).
Proof. apply layerless_modify. intros g L. simpl. rewrite L. reflexivity. Qed.

Ltac layerless_steps :=
  repeat first
    [ apply layerless_ret | apply layerless_throw
    | apply layerless_get_node | apply layerless_check_vertex | apply layerless_check_stage
    | apply layerless_layer_add | apply layerless_update_node | apply layerless_removeNode
    | apply layerless_reader; intros ?; reflexivity
    | apply layerless_modify; intros ? ?; assumption
    | apply layerless_bind; [| intro]
    | match goal with
      | |- layerless (match ?x with _ => _ end) => destruct x
      end ].

Lemma layerless_collect_from {X : Type} (body : X -> nat -> M graph string) (l : list X)
      (index : nat) :
  (forall x i, layerless (body x i)) -> layerless (collect_from body l index).
Proof.
  intros Hb. revert index. induction l as [| x l IH]; intros index; simpl.
  - apply layerless_ret.
  - apply layerless_bind; [apply Hb | intros id].
    apply layerless_bind; [apply IH | intros ids]. apply layerless_ret.
Qed.

Lemma decomposeTask_layerless (dims : option (list string)) : layerless (decomposeTask dims).
Proof.
  unfold decomposeTask. apply layerless_bind; [apply layerless_check_stage | intros _].
  apply layerless_bind; [| intros ids; layerless_steps].
  apply layerless_collect_from. intros x i. unfold decompose_body. layerless_steps.
Qed.

Lemma generateHypotheses_layerless (dimId : string) (hs : list hypothesis_input)
      (cfg : option Q) :
  layerless (generateHypotheses dimId hs cfg).
Proof.
  unfold generateHypotheses. apply layerless_bind; [apply layerless_check_stage | intros _].
  apply layerless_bind; [apply layerless_check_vertex | intros _].
  apply layerless_bind; [| intros ids; layerless_steps].
  apply layerless_collect_from. intros x i.
  unfold hypothesis_body, _assessInitialBiasRisk. layerless_steps.
Qed.

(** Without the layer "empirical" the call cannot return: it throws at the
    gate, at the check of the target, or when it adds the new node to the
    layer. *)
Lemma integrateEvidence_needs_layer (hyp : string) (ev : evidence_input) (token : string)
      (decay : Q) (g : graph) :
  SMap.get "empirical" (layers g) = None ->
  succeeded (integrateEvidence hyp ev token decay g) = false /\
  layers (state_of (integrateEvidence hyp ev token decay g)) = layers g.
Proof.
  intros L. unfold integrateEvidence, bind, check_stage, check_vertex.
  destruct (currentStage g =? 3)%nat; [| split; reflexivity].
  destruct (SMap.has hyp (vertices g)); [| split; reflexivity].
  unfold modify, layer_add. simpl. rewrite L. split; reflexivity.
Qed.

Lemma steps_layerless :
  (forall thr entries, layerless (prune_loop thr entries)) /\
  (forall id1 id2, layerless (_mergeNodes id1 id2)).
Proof.
  split.
  - intros thr entries. induction entries as [| [nodeId n] entries IH]; simpl;
      [apply layerless_ret |].
    destruct (prunable thr nodeId n); [| exact IH].
    apply layerless_bind; [apply layerless_removeNode | intros _].
    apply layerless_bind; [exact IH | intros ids]. apply layerless_ret.
  - intros id1 id2. unfold _mergeNodes. layerless_steps.
Qed.

Lemma merge_inner_layerless (thr : Q) (id_i : string) (rest : list string) :
  layerless (merge_inner thr id_i rest).
Proof.
  destruct steps_layerless as [_ Hm].
  induction rest as [| id_j rest IH]; simpl; [apply layerless_ret |].
  apply layerless_bind; [apply layerless_reader; intros ?; reflexivity | intros g0].
  destruct (SMap.get id_i (vertices g0)) as [n1 |]; [| apply layerless_throw].
  destruct (SMap.get id_j (vertices g0)) as [n2 |]; [| apply layerless_throw].
  destruct (node_type_eqb (type n1) (type n2)).
  - destruct (_calculateSemanticSimilarity _ _) as [sim |]; [| apply layerless_throw].
    destruct (Qle_bool thr sim).
    + apply layerless_bind; [apply Hm | intros mergedId].
      apply layerless_bind; [exact IH | intros out]. apply layerless_ret.
    + apply layerless_bind; [exact IH | intros out]. apply layerless_ret.
  - apply layerless_bind; [exact IH | intros out]. apply layerless_ret.
Qed.

Lemma merge_outer_layerless (fuel : nat) (thr : Q) (remaining : list string) :
  layerless (merge_outer fuel thr remaining).
Proof.
  revert remaining. induction fuel as [| fuel IH]; intros remaining; simpl;
    [apply layerless_ret |].
  destruct remaining as [| id_i rest]; [apply layerless_ret |].
  apply layerless_bind; [apply merge_inner_layerless | intros out].
  apply layerless_bind; [apply IH | intros more]. apply layerless_ret.
Qed.

Lemma pruneAndMergeNodes_layerless (pt mt : option Q) : layerless (pruneAndMergeNodes pt mt).
Proof.
  destruct steps_layerless as [Hp _].
  unfold pruneAndMergeNodes. apply layerless_bind; [apply layerless_check_stage | intros _].
  apply layerless_bind; [apply layerless_reader; intros ?; reflexivity | intros g0].
  apply layerless_bind; [apply Hp | intros pruned].
  apply layerless_bind; [apply layerless_reader; intros ?; reflexivity | intros g1].
  apply layerless_bind; [apply merge_outer_layerless | intros merged].
  layerless_steps.
Qed.

Lemma extractSubgraphs_layerless (cr : criteria) : layerless (extractSubgraphs cr).
Proof. unfold extractSubgraphs. layerless_steps. Qed.

End Layers.

(** ** Sessions of the handler *)

Module Sessions.
Import Js Args Backup Discipline Server.

Lemma str_or_null_some (task : string) : task <> "" -> str_or_null (Some task) = Some task.
Proof. destruct task; [intros H; exfalso; apply H; reflexivity | reflexivity]. Qed.

(** X25.  initialize_asr_got_graph with a non-empty description always
    starts from a new graph: whatever the session held, the session it
    leaves holds a graph whose only vertex is the root "n0" with the given
    description and confidence (or [0.8, 0.8, 0.8, 0.8]), without edges or
    hyperedges, at stage 1.  Unless [config.enable_multi_layer] is false the
    reply is the result for "n0" and the root is in the layer "base"; when
    it is false, the graph has no layers and the reply is an internal error
    that wraps the type error of the layer access, after the root was
    stored. *)
Theorem initialize_starts_afresh (task : string) (conf : option (list Q))
        (cfg : option init_config) (s : option graph) :
  task <> "" ->
  let out := handle (initialize_asr_got_graph (Some task) conf cfg) s in
  exists g root,
    session out = Some g /\
    vertices g = [("n0", root)] /\ edges g = [] /\ hyperedges g = [] /\
    currentStage g = 1%nat /\
    type root = Backup.root /\ content root = Some task /\
    confidence root = arr_or conf [0.8; 0.8; 0.8; 0.8] /\
    (enable_multi_layer (default_of cfg no_config) <> Some false ->
     answer out = inl (initialized "n0") /\ SMap.get "base" (layers g) = Some ["n0"]) /\
    (enable_multi_layer (default_of cfg no_config) = Some false ->
     answer out = inr (InternalError TypeError) /\ layers g = []).
Proof.
  intros Ht out. subst out. unfold handle. rewrite (str_or_null_some task Ht).
  destruct (enable_multi_layer (default_of cfg no_config)) as [[|] |];
    unfold on_graph, initialize, bind, modify, layer_add; simpl;
    eexists; eexists;
    (split; [reflexivity |]); (split; [reflexivity |]); (split; [reflexivity |]);
    (split; [reflexivity |]); (split; [reflexivity |]); (split; [reflexivity |]);
    (split; [reflexivity |]); (split; [reflexivity |]); split; intros X;
    try discriminate X; try (split; reflexivity);
    exfalso; apply X; reflexivity.
Qed.

(** A session at stage 4 with thirteen vertices, re-initialised. *)
Lemma initialize_starts_afresh_witness :
  List.length (vertices Session.stage4_similar) = 13%nat /\
  exists g,
    session (handle (initialize_asr_got_graph (Some "Study Y") None None)
                    (Some Session.stage4_similar)) = Some g /\
    SMap.keys (vertices g) = ["n0"] /\ currentStage g = 1%nat.
Proof.
  split; [vm_compute; reflexivity |].
  destruct (initialize_starts_afresh "Study Y" None None (Some Session.stage4_similar)
              ltac:(discriminate)) as (g & root & S' & V & _ & _ & St & _).
  exists g. split; [exact S' |]. rewrite V. split; [reflexivity | exact St].
Defined.

(** X26.  Before a graph exists, nothing but an initialize call with a
    non-empty description has any effect: along any sequence of other calls
    on the empty session, every reply is an error (a missing description for
    an initialize call, "no graph initialized" for every other tool) and the
    session stays empty. *)
Theorem nothing_before_initialize (rs : list request) :
  Forall (fun r => starts_session r = false) rs ->
  Forall (fun out => session out = None /\ is_result out = false) (serve rs None).
Proof.
  intros H. induction H as [| r rs Hr _ IH]; simpl; [constructor |].
  assert (E : session (handle r None) = None /\ is_result (handle r None) = false).
  { destruct r as [t c cfg | | | | | | | |]; simpl in Hr |- *; try (split; reflexivity).
    destruct (str_or_null t); [discriminate Hr | split; reflexivity]. }
  constructor; [exact E |]. destruct E as [-> _]. exact IH.
Qed.

Lemma nothing_before_initialize_witness :
  Forall (fun out => session out = None /\ is_result out = false)
         (serve [decompose_research_task None;
                 initialize_asr_got_graph (Some "") None None;
                 detect_biases;
                 extract_subgraphs None] None).
Proof.
  apply nothing_before_initialize. repeat constructor.
Defined.


(** One call on a graph without layers that has not passed stage 3. *)
Lemma layerless_session_step (r : request) (g : graph) :
  is_initialize r = false ->
  layers g = [] -> (currentStage g <= 3)%nat ->
  exists g',
    session (handle r (Some g)) = Some g' /\
    layers g' = [] /\ (currentStage g' <= 3)%nat /\
    (forall k, required_stage r = Some k -> (3 <= k)%nat ->
               is_result (handle r (Some g)) = false).
Proof.
  intros Hi L St.
  assert (Run : forall (A : Type) (m : M graph A) (wrap : A -> response) (k : nat),
             advances k m -> layerless m ->
             ((3 <= k)%nat -> currentStage g = k -> succeeded (m g) = false) ->
             exists g',
               session (on_graph (Some g) m wrap) = Some g' /\
               layers g' = [] /\ (currentStage g' <= 3)%nat /\
               ((3 <= k)%nat -> is_result (on_graph (Some g) m wrap) = false)).
  { intros A m wrap k Ha Hl Hk. specialize (Ha g). specialize (Hl g L).
    unfold on_graph, is_result. destruct (m g) as [g' a | g' e]; exists g'; simpl in *.
    - destruct Ha as [E1 E2]. split; [reflexivity |]. split; [exact Hl |].
      destruct (Nat.le_gt_cases 3 k) as [K | K].
      + specialize (Hk K E1). discriminate Hk.
      + split; [lia |]. intros X. lia.
    - split; [reflexivity |]. split; [exact Hl |]. split; [lia | reflexivity]. }
  destruct r as [t c cfg | dims | dimId hs cfg | hyp ev token decay | pt mt | cr | it ct | | ivs];
    try discriminate Hi; cbn [handle required_stage].
  - destruct (Run _ (decomposeTask dims) decomposed 1%nat
                  (Protocol.decomposeTask_advances _) (Layers.decomposeTask_layerless _))
      as (g' & A & B & C & D); [intros X; lia |].
    exists g'. repeat split; try assumption. intros k [= <-] X. lia.
  - destruct (Run _ (generateHypotheses dimId hs cfg)
                  hypotheses_generated 2%nat
                  (Protocol.generateHypotheses_advances _ _ _)
                  (Layers.generateHypotheses_layerless _ _ _))
      as (g' & A & B & C & D); [intros X; lia |].
    exists g'. repeat split; try assumption. intros k [= <-] X. lia.
  - assert (Hl : layerless (integrateEvidence hyp ev token decay)).
    { intros g0 L0.
      rewrite (proj2 (Layers.integrateEvidence_needs_layer _ _ _ _ g0
                        ltac:(rewrite L0; reflexivity))).
      exact L0. }
    destruct (Run _ (integrateEvidence hyp ev token decay)
                  evidence_integrated 3%nat
                  (Protocol.integrateEvidence_advances _ _ _ _) Hl)
      as (g' & A & B & C & D).
    { intros _ _. apply Layers.integrateEvidence_needs_layer. rewrite L. reflexivity. }
    exists g'. repeat split; try assumption. intros k [= <-] X. apply D. exact X.
  - destruct (Run _ (pruneAndMergeNodes pt mt)
                  pruned_and_merged 4%nat
                  (Protocol.pruneAndMergeNodes_advances _ _)
                  (Layers.pruneAndMergeNodes_layerless _ _))
      as (g' & A & B & C & D); [intros _ X; lia |].
    exists g'. repeat split; try assumption. intros k [= <-] X. apply D. exact X.
  - destruct (Run _ (extractSubgraphs (default_of cr no_criteria))
                  subgraphs_extracted 5%nat
                  (Protocol.extractSubgraphs_advances _) (Layers.extractSubgraphs_layerless _))
      as (g' & A & B & C & D); [intros _ X; lia |].
    exists g'. repeat split; try assumption. intros k [= <-] X. apply D. exact X.
  - exists g. repeat split; try assumption. discriminate.
  - exists g. repeat split; try assumption. discriminate.
  - exists g. repeat split; try assumption. discriminate.
Qed.

Lemma layerless_session_run (rs : list request) (g : graph) :
  Forall (fun r => is_initialize r = false) rs ->
  layers g = [] -> (currentStage g <= 3)%nat ->
  Forall2 (fun r out => forall k, required_stage r = Some k -> (3 <= k)%nat ->
                                  is_result out = false)
          rs (serve rs (Some g)).
Proof.
  intros H. revert g. induction H as [| r rs Hr _ IH]; intros g L St; simpl; [constructor |].
  destruct (layerless_session_step r g Hr L St) as (g' & S' & L' & St' & R).
  constructor; [exact R |]. rewrite S'. apply IH; assumption.
Qed.

(** X27.  A session initialised with [enable_multi_layer: false] is a dead
    end.  The initialize call itself is answered with an internal error; and
    in any sequence of later calls that does not initialize again, no
    integrate_evidence, prune_and_merge_nodes or extract_subgraphs call is
    ever answered with a result: the graph has no layer to put an evidence
    node in, so stage 4 is never reached. *)
Theorem multi_layer_off_dead_end (task : string) (conf : option (list Q))
        (tags : option (list string)) (rs : list request) (s : option graph) :
  task <> "" ->
  Forall (fun r => is_initialize r = false) rs ->
  let start :=
    initialize_asr_got_graph (Some task) conf (Some (mk_init_config (Some false) tags)) in
  exists first rest,
    serve (start :: rs) s = first :: rest /\
    answer first = inr (InternalError TypeError) /\
    Forall2 (fun r out => forall k, required_stage r = Some k -> (3 <= k)%nat ->
                                    is_result out = false)
            rs rest.
Proof.
  intros Ht Hrs start. subst start. cbn [serve].
  eexists. eexists. split; [reflexivity |].
  unfold handle at 1. rewrite (str_or_null_some task Ht).
  split; [reflexivity |].
  unfold handle at 1. rewrite (str_or_null_some task Ht).
  apply layerless_session_run; [exact Hrs | reflexivity | simpl; lia].
Qed.

(** The usual session after such an initialize call: the decomposition fails
    on its first node, a hypothesis call fails at its gate, and so does the
    evidence call. *)
Lemma multi_layer_off_dead_end_witness :
  map is_result
      (serve [initialize_asr_got_graph (Some "Study X") None
                (Some (mk_init_config (Some false) None));
              decompose_research_task None;
              generate_hypotheses "n0" [HText "h"] None;
              integrate_evidence "n0" Session.observed "abcd1234" 1]
             None)
  = [false; false; false; false].
Proof.
  destruct (multi_layer_off_dead_end "Study X" None None
              [decompose_research_task None;
               generate_hypotheses "n0" [HText "h"] None;
               integrate_evidence "n0" Session.observed "abcd1234" 1]
              None ltac:(discriminate) ltac:(repeat constructor))
    as (first & rest & E & A & R).
  rewrite E. injection E as <- <-. reflexivity.
Defined.

End Sessions.

(** ** Hyperedges during evidence integration *)

Module Hyperedges.
Import Js Args Backup View.

(** The steps of stage 4 that write vertices and layers only. *)
Lemma update_node_links (k : string) (f : node -> node) (g g' : graph) (u : unit) :
  update_node k f g = Ok g' u -> edges g' = edges g /\ hyperedges g' = hyperedges g.
Proof.
  unfold update_node. destruct (SMap.get k (vertices g)); [| discriminate].
  intros [= <- _]. split; reflexivity.
Qed.

Lemma layer_add_links (lid nid : string) (g g' : graph) (u : unit) :
  layer_add lid nid g = Ok g' u -> edges g' = edges g /\ hyperedges g' = hyperedges g.
Proof.
  unfold layer_add. destruct (SMap.get lid (layers g)); [| discriminate].
  intros [= <- _]. split; reflexivity.
Qed.

Lemma bridges_links (evidenceId hypothesisId : string) (g g' : graph) (u : unit) :
  _checkInterdisciplinaryBridges evidenceId hypothesisId g = Ok g' u ->
  edges g' = edges g /\ hyperedges g' = hyperedges g.
Proof.
  unfold _checkInterdisciplinaryBridges, bind, get_node. intros H.
  destruct (SMap.get evidenceId (vertices g)) as [ev |]; [| discriminate H].
  destruct (SMap.get hypothesisId (vertices g)) as [hyp |]; [| discriminate H].
  destruct (_calculateSemanticSimilarity (content ev) (content hyp)) as [sim |];
    [| discriminate H].
  destruct ((List.length _ =? 0)%nat && Qltb 0.5 sim).
  - unfold modify, layer_add in H. simpl in H.
    destruct (SMap.get "interdisciplinary" (layers g)); [| discriminate H].
    injection H as <- _. split; reflexivity.
  - unfold ret in H. injection H as <- _. split; reflexivity.
Qed.

Lemma adaptTopology_links (evidenceId hypothesisId : string) (g g' : graph) (u : unit) :
  _adaptTopology evidenceId hypothesisId g = Ok g' u ->
  edges g' = edges g /\ hyperedges g' = hyperedges g.
Proof.
  unfold _adaptTopology. intros H.
  bind_inv H. bind_inv H. bind_inv H. bind_inv H.
  unfold get_state in E, E1. injection E as <- _. injection E1 as <- _.
  unfold _updateCommunityStructure in H.
  destruct (existsb _ _); [discriminate H |]. injection H as <- _.
  destruct (update_node_links _ _ _ _ _ E0) as [A0 B0].
  destruct (update_node_links _ _ _ _ _ E2) as [A2 B2].
  split; [rewrite A2; exact A0 | rewrite B2; exact B0].
Qed.

Lemma filter_none {X : Type} (p : X -> bool) (l : list X) :
  (forall x, In x l -> p x = false) -> filter p l = [].
Proof.
  induction l as [| x l IH]; intros H; simpl; [reflexivity |].
  rewrite (H x (or_introl eq_refl)). apply IH. intros y Hy. apply H. right. exact Hy.
Qed.

(** Writing one entry adds at most one entry that passes a test. *)
Lemma filter_set_length {V : Type} (p : string * V -> bool) (k : string) (v : V)
      (m : list (string * V)) :
  (List.length (filter p (SMap.set k v m)) <= List.length (filter p m) + 1)%nat.
Proof.
  induction m as [| [k' v'] m IH]; simpl.
  - destruct (p (k, v)); simpl; lia.
  - destruct (String.eqb k k'); simpl.
    + destruct (p (k, v)); destruct (p (k', v')); simpl; lia.
    + destruct (p (k', v')); simpl; lia.
Qed.

(** X28.  The hyperedge step of stage 4 never fires for a new evidence id.
    If no edge of the graph points at the id the call gives the evidence
    node, a returning call of integrateEvidence leaves the hyperedges exactly
    as they were: [_checkHyperedgeCreation] looks for more than two edges
    that point at the new node, and the call has created only the edge that
    leaves it. *)
Theorem integrateEvidence_no_hyperedge hyp ev token decay g g' r :
  (forall k e, In (k, e) (edges g) -> target e <> "e_" ++ token) ->
  integrateEvidence hyp ev token decay g = Ok g' r ->
  hyperedges g' = hyperedges g.
Proof.
  intros Hfresh H. unfold integrateEvidence in H.
  do 6 bind_inv H.
  destruct (_calculateBayesianUpdate ev _) as [uf |]; [| discriminate H].
  destruct (update_confidence _ uf) as [c' |]; [| discriminate H].
  do 7 bind_inv H.
  set (evidenceId := "e_" ++ token) in *.
  unfold check_stage in E. destruct (currentStage g =? 3)%nat; [| discriminate E].
  injection E as <- _.
  unfold check_vertex in E0. destruct (SMap.has hyp (vertices g)); [| discriminate E0].
  injection E0 as <- _.
  unfold modify in E1. injection E1 as <- _.
  destruct (layer_add_links _ _ _ _ _ E2) as [A2 B2]. simpl in A2, B2.
  unfold modify in E3. injection E3 as <- _.
  destruct (Bounds.get_node_inv _ _ _ _ E4) as [-> _].
  destruct (update_node_links _ _ _ _ _ E5) as [A5 B5]. simpl in A5, B5.
  destruct (bridges_links _ _ _ _ _ E6) as [A6 B6].
  assert (Edges6 : exists e0, edges s6 = SMap.set ("e_" ++ evidenceId ++ "_" ++ hyp) e0 (edges g)).
  { eexists. rewrite A6, A5, A2. reflexivity. }
  assert (Hyper6 : hyperedges s6 = hyperedges g) by (rewrite B6, B5, B2; reflexivity).
  assert (Hyper7 : hyperedges s7 = hyperedges g /\ edges s7 = edges s6).
  { unfold _checkHyperedgeCreation, bind, get_state in E7.
    destruct Edges6 as [e0 Ee].
    pose proof (filter_set_length (fun kv => String.eqb (target (snd kv)) evidenceId)
                  ("e_" ++ evidenceId ++ "_" ++ hyp) e0 (edges g)) as Len.
    rewrite (filter_none _ (edges g)) in Len.
    - rewrite <- Ee in Len. rewrite length_map in E7. simpl in Len.
      destruct (Nat.ltb_spec 2 (List.length
                  (filter (fun kv => String.eqb (target (snd kv)) evidenceId) (edges s6))))
        as [X | X]; [lia |].
      unfold ret in E7. injection E7 as <- _. split; [exact Hyper6 | reflexivity].
    - intros [k e] Hin. simpl. apply String.eqb_neq. exact (Hfresh k e Hin). }
  destruct Hyper7 as [Hyper7 _].
  unfold _applyTemporalDecay in E8.
  destruct (update_node_links _ _ _ _ _ E8) as [_ B8].
  destruct (adaptTopology_links _ _ _ _ _ E9) as [_ B9].
  unfold modify in E10. injection E10 as <- _.
  destruct (Bounds.get_node_inv _ _ _ _ E11) as [-> _].
  unfold ret in H. injection H as <- _. simpl.
  rewrite B9, B8. exact Hyper7.
Qed.


(** The first evidence of the usual session. *)
Lemma integrateEvidence_no_hyperedge_witness :
  exists g' r,
    Session.first_call Session.stage3_similar "h_n2.1_1" Session.observed = Ok g' r /\
    hyperedges g' = [].
Proof.
  unfold Session.first_call.
  destruct (integrateEvidence "h_n2.1_1" Session.observed "abcd1234" 1 Session.stage3_similar)
    as [g' r | g' err] eqn:H; [| vm_compute in H; discriminate H].
  exists g', r. split; [reflexivity |].
  assert (Hfresh : forall k e, In (k, e) (edges Session.stage3_similar) ->
                               target e <> "e_" ++ "abcd1234").
  { intros k e Hin. vm_compute in Hin.
    repeat (destruct Hin as [Hin | Hin];
            [injection Hin as _ <-; vm_compute; discriminate |]).
    contradiction. }
  rewrite (integrateEvidence_no_hyperedge _ _ _ _ _ _ _ Hfresh H).
  reflexivity.
Defined.

End Hyperedges.

(** ** A failure in the middle of generateHypotheses *)

Module Atomicity.
Import Js Args Backup View.

(** A loop whose body throws at some element: the rounds before it have
    run. *)
Lemma collect_from_throws {X : Type} (body : X -> nat -> M graph string)
      (pre : list X) (x : X) (post : list X) (index : nat) (g g1 g2 : graph)
      (ids : list string) (e : error) :
  collect_from body pre index g = Ok g1 ids ->
  body x (index + List.length pre)%nat g1 = Throw g2 e ->
  collect_from body (pre ++ x :: post) index g = Throw g2 e.
Proof.
  revert index g ids. induction pre as [| y pre IH]; intros index g ids Hpre Hx; simpl in *.
  - unfold ret in Hpre. injection Hpre as <- _. rewrite Nat.add_0_r in Hx.
    apply bind_throw. exact Hx.
  - bind_inv Hpre. bind_inv Hpre. unfold ret in Hpre. injection Hpre as <- _.
    rewrite (bind_ok _ _ _ _ _ E).
    apply bind_throw. apply (IH (S index) s a0 E0).
    replace (S index + List.length pre)%nat with (index + S (List.length pre))%nat by lia.
    exact Hx.
Qed.

(** X29.  generateHypotheses is not atomic.  On a stage-2 graph with the
    layer "theoretical" and an existing id, when the hypotheses before
    position [n] all carry a text, the one at position [n] is an object
    without a non-empty [content], and position [n] is among those that
    [slice] keeps, the call throws a type error; the graph it leaves is
    still at stage 2 and holds the [n] hypothesis nodes created before the
    failure, while the id of the failing position is as it was. *)
Theorem generateHypotheses_partial_failure (dimId : string)
        (pre : list hypothesis_input) (h : hypothesis_input) (post : list hypothesis_input)
        (cfg : option Q) (g : graph) (nt : list string) :
  currentStage g = 2%nat ->
  SMap.has dimId (vertices g) = true ->
  SMap.get "theoretical" (layers g) = Some nt ->
  Forall (fun x => exists c, content_or_self x = Some c) pre ->
  content_or_self h = None ->
  (List.length pre
   < List.length (slice_to (maxHypotheses cfg) (pre ++ h :: post)%list))%nat ->
  exists g',
    generateHypotheses dimId (pre ++ h :: post) cfg g = Throw g' TypeError /\
    currentStage g' = 2%nat /\
    (forall i x,
        nth_error pre i = Some x ->
        exists n,
          SMap.get ("h_" ++ dimId ++ "_" ++ string_of_nat (i + 1)) (vertices g') = Some n /\
          type n = hypothesis /\ content n = content_or_self x) /\
    SMap.get ("h_" ++ dimId ++ "_" ++ string_of_nat (List.length pre + 1)) (vertices g')
    = SMap.get ("h_" ++ dimId ++ "_" ++ string_of_nat (List.length pre + 1)) (vertices g).
Proof.
  intros Hs Hv Ht Hpre Hh Hlen.
  unfold slice_to in Hlen.
  match type of Hlen with
  | context [firstn ?c _] => set (cap := c) in *
  end.
  rewrite length_firstn in Hlen.
  destruct (Stages.backup_hypothesis_loop dimId pre 0 g nt Ht Hpre)
    as (g1 & R & S1 & N1 & V1).
  exists g1. split.
  { unfold generateHypotheses.
    rewrite (bind_ok _ _ _ _ _ (StageGate.check_stage_ok 2 g Hs)).
    rewrite (bind_ok _ _ _ _ _ (Stages.check_vertex_ok dimId g Hv)).
    unfold slice_to. fold cap. apply bind_throw.
    assert (F : firstn cap (pre ++ h :: post)
                = (pre ++ h :: firstn (cap - List.length pre - 1) post)%list).
    { rewrite firstn_app. rewrite firstn_all2 by lia. f_equal.
      destruct (cap - List.length pre)%nat as [| d] eqn:D; [lia |].
      simpl. rewrite Nat.sub_0_r. reflexivity. }
    rewrite F. apply (collect_from_throws _ _ _ _ _ _ g1 _ _ _ R).
    unfold hypothesis_body, _assessInitialBiasRisk. rewrite Hh. reflexivity. }
  split; [rewrite S1; exact Hs |].
  split.
  { intros i x H. destruct (N1 i x H) as (n & Gn & Tn & Cn & _).
    exists n. simpl in Gn. repeat split; assumption. }
  apply V1. intros i Hi X. apply Stages.hypothesis_id_inj in X. lia.
Qed.

(** A text followed by an object without content. *)
Lemma generateHypotheses_partial_failure_witness :
  let g2 := state_of ((initialize "Study X" None None ;;; decomposeTask None) (new_graph true)) in
  exists g',
    generateHypotheses "n2.1" [HText "first"; HObject no_fields; HText "third"] None g2
    = Throw g' TypeError /\
    currentStage g' = 2%nat /\
    SMap.has "h_n2.1_1" (vertices g') = true /\
    SMap.has "h_n2.1_2" (vertices g') = false.
Proof.
  intros g2.
  destruct (generateHypotheses_partial_failure "n2.1" [HText "first"] (HObject no_fields)
              [HText "third"] None g2 [] eq_refl eq_refl eq_refl
              ltac:(repeat constructor; eexists; reflexivity) eq_refl
              ltac:(vm_compute; lia))
    as (g' & R & S' & N' & V').
  exists g'. split; [exact R |]. split; [exact S' |]. split.
  - destruct (N' 0%nat (HText "first") eq_refl) as (n & Gn & _).
    change ("h_" ++ "n2.1" ++ "_" ++ string_of_nat (0 + 1)) with "h_n2.1_1" in Gn.
    unfold SMap.has. rewrite Gn. reflexivity.
  - change ("h_" ++ "n2.1" ++ "_" ++ string_of_nat (List.length [HText "first"] + 1))
      with "h_n2.1_2" in V'.
    unfold SMap.has. rewrite V'. reflexivity.
Defined.

End Atomicity.

(** ** The community pass in full *)

Module Community.
Import Js Args Backup Components.

Section Search.
Variable es : list (string * edge).
Variable start : string.

Lemma mem_false (x : string) (l : list string) : mem x l = false <-> ~ In x l.
Proof.
  split.
  - intros H X. apply SetFacts.mem_in in X. rewrite X in H. discriminate H.
  - intros H. destruct (mem x l) eqn:E; [| reflexivity].
    apply SetFacts.mem_in in E. contradiction.
Qed.

Lemma cond_push (c : bool) (z : string) (st : list string) (y : string) :
  In y (if c then z :: st else st) <-> In y st \/ (c = true /\ z = y).
Proof.
  destruct c; simpl; split.
  - intros [H | H]; [right; split; [reflexivity | exact H] | left; exact H].
  - intros [H | [_ H]]; [right; exact H | left; exact H].
  - intros H. left. exact H.
  - intros [H | [H _]]; [exact H | discriminate H].
Qed.

Lemma unvisited_end (c x : string) (other : string) (visited : list string) :
  String.eqb c x && negb (mem other visited) = true <-> c = x /\ ~ In other visited.
Proof. rewrite andb_true_iff, String.eqb_eq, negb_true_iff, mem_false. reflexivity. Qed.

(** What the inner loop pushes. *)
Lemma push_neighbours_in (sub : list (string * edge)) (x : string) (visited stack : list string)
      (y : string) :
  In y (push_neighbours sub x visited stack) <->
  In y stack \/ (adjacent sub x y /\ ~ In y visited).
Proof.
  unfold push_neighbours. revert stack.
  induction sub as [| [k e] sub IH]; intros stack; simpl.
  - split; [intros H; left; exact H |].
    intros [H | [[k [e [[] _]]] _]]. exact H.
  - rewrite IH. clear IH. rewrite !cond_push, !unvisited_end. unfold adjacent. split.
    + intros [[[H | [[S1 N] T]] | [[T1 N] S]] | [[k' [e' [Hin H]]] N]].
      * left. exact H.
      * right. subst y. split; [| exact N]. exists k, e.
        split; [left; reflexivity | left; split; [exact S1 | reflexivity]].
      * right. subst y. split; [| exact N]. exists k, e.
        split; [left; reflexivity | right; split; [exact T1 | reflexivity]].
      * right. split; [| exact N]. exists k', e'. split; [right; exact Hin | exact H].
    + intros [H | [[k' [e' [[E | Hin] H]]] N]].
      * left. left. left. exact H.
      * injection E as <- <-. left. destruct H as [[S1 T] | [T1 S]].
        -- left. right. subst y. split; [split; [exact S1 | exact N] | reflexivity].
        -- right. subst y. split; [split; [exact T1 | exact N] | reflexivity].
      * right. split; [| exact N]. exists k', e'. split; assumption.
Qed.

Lemma push_neighbours_length (sub : list (string * edge)) (x : string)
      (visited stack : list string) :
  (List.length (push_neighbours sub x visited stack)
   <= List.length stack + 2 * List.length sub)%nat.
Proof.
  unfold push_neighbours. revert stack.
  induction sub as [| [k e] sub IH]; intros stack; simpl; [lia |].
  eapply Nat.le_trans; [apply IH |].
  destruct (String.eqb (target e) x && negb (mem (source e) visited));
    destruct (String.eqb (source e) x && negb (mem (target e) visited)); simpl; lia.
Qed.

(** Every id that a walk reaches is the start or an end of an edge. *)
Lemma reaches_universe (y : string) : reaches es start y -> In y (universe es start).
Proof.
  intros H. destruct H as [| x y _ [k [e [Hin H]]]]; [left; reflexivity |].
  right. apply in_flat_map. exists (k, e). split; [exact Hin |]. simpl.
  destruct H as [[_ <-] | [_ <-]]; [right; left | left]; reflexivity.
Qed.

(** Visiting an id of the universe that was not visited leaves less to do. *)
Lemma unvisited_shrinks (us : list string) (x : string) (visited : list string) :
  In x us -> ~ In x visited ->
  (List.length (filter (fun u => negb (mem u (visited ++ [x])%list)) us)
   < List.length (filter (fun u => negb (mem u visited)) us))%nat.
Proof.
  intros Hx Hv.
  assert (Le : forall l,
             (List.length (filter (fun u => negb (mem u (visited ++ [x])%list)) l)
              <= List.length (filter (fun u => negb (mem u visited)) l))%nat).
  { induction l as [| u l IH]; simpl; [lia |].
    destruct (mem u visited) eqn:M; simpl.
    - assert (M' : mem u (visited ++ [x])%list = true).
      { apply SetFacts.mem_in, in_or_app. left. apply SetFacts.mem_in. exact M. }
      rewrite M'. simpl. exact IH.
    - destruct (mem u (visited ++ [x])%list); simpl; lia. }
  induction us as [| u us IH]; [contradiction |]. simpl.
  destruct Hx as [-> | Hx].
  - assert (M : mem x visited = false) by (apply mem_false; exact Hv).
    assert (M' : mem x (visited ++ [x])%list = true).
    { apply SetFacts.mem_in, in_or_app. right. left. reflexivity. }
    rewrite M, M'. simpl. specialize (Le us). lia.
  - specialize (IH Hx). destruct (mem u visited) eqn:M; simpl.
    + assert (M' : mem u (visited ++ [x])%list = true).
      { apply SetFacts.mem_in, in_or_app. left. apply SetFacts.mem_in. exact M. }
      rewrite M'. simpl. exact IH.
    + destruct (mem u (visited ++ [x])%list); simpl; lia.
Qed.

(** The search: with fuel for what is left to do it returns, and it returns
    the ids that a walk from the start reaches, each once. *)
Lemma component_loop_spec (fuel : nat) (stack visited : list string) :
  NoDup visited ->
  (forall x, In x stack \/ In x visited -> reaches es start x) ->
  (forall x y, In x visited -> adjacent es x y -> In y visited \/ In y stack) ->
  (In start visited \/ In start stack) ->
  (measure es start stack visited <= fuel)%nat ->
  exists comp,
    component_loop fuel es stack visited = Some comp /\
    NoDup comp /\
    (forall y, In y comp <-> reaches es start y).
Proof.
  revert stack visited. induction fuel as [| fuel IH]; intros stack visited ND R C S M;
    destruct stack as [| x rest].
  1, 3: (exists visited; split; [reflexivity |]; split; [exact ND |];
         intros y; split; [intros H; apply R; right; exact H |];
         intros H; induction H as [| a b _ IHa Hab];
         [destruct S as [S | []]; exact S |];
         destruct (C a b IHa Hab) as [X | []]; exact X).
  - unfold measure in M. simpl in M. lia.
  - simpl. destruct (mem x visited) eqn:Mx.
    + apply SetFacts.mem_in in Mx. apply IH.
      * exact ND.
      * intros z [H | H]; apply R; [left; right; exact H | right; exact H].
      * intros a b Ha Hab. destruct (C a b Ha Hab) as [H | [<- | H]];
          [left; exact H | left; exact Mx | right; exact H].
      * destruct S as [H | [<- | H]]; [left; exact H | left; exact Mx | right; exact H].
      * unfold measure in *. simpl in M. lia.
    + apply mem_false in Mx.
      assert (Rx : reaches es start x) by (apply R; left; left; reflexivity).
      apply IH.
      * apply NoDup_app; [exact ND | constructor; [intros [] | constructor] |].
        intros z Hz [<- | []]. exact (Mx Hz).
      * intros z [H | H].
        -- apply push_neighbours_in in H. destruct H as [H | [H _]].
           ++ apply R. left. right. exact H.
           ++ exact (reaches_step es start x z Rx H).
        -- apply in_app_or in H. destruct H as [H | [<- | []]];
             [apply R; right; exact H | exact Rx].
      * intros a b Ha Hab. apply in_app_or in Ha.
        destruct (mem b (visited ++ [x])%list) eqn:Mb;
          [left; apply SetFacts.mem_in; exact Mb |].
        apply mem_false in Mb. right. apply push_neighbours_in.
        destruct Ha as [Ha | [<- | []]].
        -- destruct (C a b Ha Hab) as [H | [<- | H]].
           ++ exfalso. apply Mb. apply in_or_app. left. exact H.
           ++ exfalso. apply Mb. apply in_or_app. right. left. reflexivity.
           ++ left. exact H.
        -- right. split; [exact Hab | exact Mb].
      * destruct S as [H | [<- | H]].
        -- left. apply in_or_app. left. exact H.
        -- left. apply in_or_app. right. left. reflexivity.
        -- right. apply push_neighbours_in. left. exact H.
      * unfold measure in *. simpl in M.
        pose proof (push_neighbours_length es x (visited ++ [x])%list rest) as L.
        pose proof (unvisited_shrinks (universe es start) x visited
                      (reaches_universe x Rx) Mx) as U.
        unfold unvisited in *.
        set (a := List.length (filter (fun u => negb (mem u (visited ++ [x])%list))
                                      (universe es start))) in *.
        set (b := List.length (filter (fun u => negb (mem u visited)) (universe es start))) in *.
        assert (K : (2 * List.length es * a + 2 * List.length es
                     <= 2 * List.length es * b)%nat) by nia.
        lia.
Qed.

(** [_findConnectedComponent] returns, and its result lists, each once, the
    ids that a walk along the edges, in either direction, reaches from the
    start. *)
Lemma component_spec :
  exists comp,
    component_loop (rounds es) es [start] [] = Some comp /\
    NoDup comp /\
    (forall y, In y comp <-> reaches es start y).
Proof.
  apply component_loop_spec.
  - constructor.
  - intros x [[<- | []] | []]. constructor.
  - intros x y [].
  - right. left. reflexivity.
  - assert (L : (List.length (unvisited es start []) <= 1 + 2 * List.length es)%nat).
    { unfold unvisited. eapply Nat.le_trans; [apply filter_length_le |].
      unfold universe. simpl.
      rewrite (flat_map_constant_length (c := 2%nat)) by reflexivity. lia. }
    pose proof (Nat.mul_le_mono_l _ _ (2 * List.length es) L) as K.
    unfold measure, rounds. change (List.length [start]) with 1%nat. lia.
Qed.

End Search.

Lemma has_written (comp : list string) (n : nat) (m : list (string * nat)) (y : string) :
  SMap.has y (fold_left (fun acc id => SMap.set id n acc) comp m) = true <->
  SMap.has y m = true \/ In y comp.
Proof.
  revert m. induction comp as [| x comp IH]; intros m; simpl.
  - split; [intros H; left; exact H | intros [H | []]; exact H].
  - rewrite IH. unfold SMap.has. destruct (String.eqb_spec y x) as [-> | N].
    + rewrite get_set_same. split; [intros _; right; left; reflexivity | intros _; left; reflexivity].
    + rewrite get_set_other by exact N. split.
      * intros [H | H]; [left; exact H | right; right; exact H].
      * intros [H | [H | H]]; [left; exact H | | right; exact H].
        exfalso. apply N. symmetry. exact H.
Qed.

Lemma has_key {V : Type} (m : list (string * V)) (k : string) :
  SMap.has k m = true <-> In k (SMap.keys m).
Proof.
  split.
  - intros H. apply has_get in H. destruct H as [v H]. apply get_in in H.
    unfold SMap.keys. apply in_map_iff. exists (k, v). split; [reflexivity | exact H].
  - unfold SMap.keys, SMap.has. intros H. induction m as [| [k' v'] m IH]; simpl in *;
      [contradiction |].
    destruct (String.eqb_spec k k') as [| N]; [reflexivity |].
    destruct H as [H | H]; [exfalso; apply N; symmetry; exact H | apply IH; exact H].
Qed.

Lemma community_rounds (g : graph) (ks : list string) (communities : list (string * nat))
      (n : nat) :
  (forall k, In k ks -> SMap.has k (vertices g) = true) ->
  sound g communities ->
  exists communities' n',
    fold_left (community_round g) ks (Some (communities, n)) = Some (communities', n') /\
    sound g communities' /\
    (forall k, SMap.has k communities = true \/ In k ks -> SMap.has k communities' = true).
Proof.
  revert communities n. induction ks as [| k ks IH]; intros communities n Hks Hs.
  - exists communities, n. split; [reflexivity |]. split; [exact Hs |].
    intros k [H | []]. exact H.
  - simpl. destruct (SMap.has k communities) eqn:Hk.
    + destruct (IH communities n) as (c' & n' & R & S' & K');
        [intros x Hx; apply Hks; right; exact Hx | exact Hs |].
      exists c', n'. split; [exact R |]. split; [exact S' |].
      intros x [H | [<- | H]]; apply K'; [left; exact H | left; exact Hk | right; exact H].
    + unfold _findConnectedComponent.
      destruct (component_spec (edges g) k) as (comp & Rc & _ & Spec). rewrite Rc.
      set (c1 := fold_left (fun m id => SMap.set id n m) comp communities).
      assert (S1 : sound g c1).
      { destruct Hs as [Closed Rooted]. split.
        - intros x y Hx Hxy. apply has_written. apply has_written in Hx.
          destruct Hx as [Hx | Hx].
          + left. exact (Closed x y Hx Hxy).
          + right. apply Spec. apply Spec in Hx. exact (reaches_step _ _ x y Hx Hxy).
        - intros x Hx. apply has_written in Hx. destruct Hx as [Hx | Hx].
          + exact (Rooted x Hx).
          + exists k. split; [apply Hks; left; reflexivity | apply Spec; exact Hx]. }
      destruct (IH c1 (S n)) as (c' & n' & R & S' & K');
        [intros x Hx; apply Hks; right; exact Hx | exact S1 |].
      exists c', n'. split; [exact R |]. split; [exact S' |].
      intros x [H | [<- | H]]; apply K'.
      * left. apply has_written. left. exact H.
      * left. apply has_written. right. apply Spec. constructor.
      * right. exact H.
Qed.

Lemma half_dangling_false (g : graph) (e : edge) :
  half_dangling g e = false <->
  SMap.has (source e) (vertices g) = SMap.has (target e) (vertices g).
Proof.
  unfold half_dangling.
  destruct (SMap.has (source e) (vertices g)), (SMap.has (target e) (vertices g)); simpl;
    split; intros H; try reflexivity; discriminate H.
Qed.

(** X30.  The community pass of stage 4, followed step by step, does what
    its short form in [Backup] says.  The depth-first search of
    [_findConnectedComponent] always ends within the rounds it is given;
    [_updateCommunityStructure] then throws a type error exactly when some
    edge joins a vertex to an id that is no vertex, and otherwise returns
    and leaves the graph as it was. *)
Theorem updateCommunityStructure_refines (g : graph) :
  Components._updateCommunityStructure g = Some (Backup._updateCommunityStructure g).
Proof.
  unfold Components._updateCommunityStructure, communities_of.
  destruct (community_rounds g (SMap.keys (vertices g)) [] 0%nat)
    as (c & n & R & [Closed Rooted] & K).
  { intros k Hk. apply has_key. exact Hk. }
  { split; intros x; [intros y H | intros H]; discriminate H. }
  rewrite R. simpl. f_equal. unfold Backup._updateCommunityStructure.
  destruct (existsb (fun kv => half_dangling g (snd kv)) (edges g)) eqn:D.
  - (* an edge with one end among the vertices: the other end is in the map *)
    apply existsb_exists in D. destruct D as [[k e] [Hin D]]. simpl in D.
    assert (Bad : exists x, SMap.has x c = true /\ SMap.has x (vertices g) = false).
    { unfold half_dangling in D.
      destruct (SMap.has (source e) (vertices g)) eqn:Hs;
        destruct (SMap.has (target e) (vertices g)) eqn:Ht; try discriminate D.
      - exists (target e). split; [| exact Ht].
        apply (Closed (source e)).
        + apply K. right. apply has_key. exact Hs.
        + exists k, e. split; [exact Hin | left; split; reflexivity].
      - exists (source e). split; [| exact Hs].
        apply (Closed (target e)).
        + apply K. right. apply has_key. exact Ht.
        + exists k, e. split; [exact Hin | right; split; reflexivity]. }
    destruct Bad as (x & Hc & Hv).
    destruct (forallb (fun kv => SMap.has (fst kv) (vertices g)) c) eqn:F; [| reflexivity].
    exfalso. apply has_get in Hc. destruct Hc as [v Hc]. apply get_in in Hc.
    rewrite forallb_forall in F. specialize (F (x, v) Hc). simpl in F.
    rewrite F in Hv. discriminate Hv.
  - (* no such edge: a walk from a vertex stays among the vertices *)
    assert (Stay : forall v x, SMap.has v (vertices g) = true -> reaches (edges g) v x ->
                               SMap.has x (vertices g) = true).
    { intros v x Hv H. induction H as [| a b _ IHa [k [e [Hin Hab]]]]; [exact Hv |].
      assert (De : half_dangling g e = false).
      { destruct (half_dangling g e) eqn:X; [| reflexivity].
        assert (T : existsb (fun kv => half_dangling g (snd kv)) (edges g) = true).
        { apply existsb_exists. exists (k, e). split; [exact Hin | exact X]. }
        rewrite T in D. discriminate D. }
      apply half_dangling_false in De.
      destruct Hab as [[<- <-] | [<- <-]]; [rewrite <- De | rewrite De]; exact IHa. }
    assert (F : forallb (fun kv => SMap.has (fst kv) (vertices g)) c = true).
    { apply forallb_forall. intros [x v] Hin. simpl.
      assert (Hc : SMap.has x c = true).
      { apply has_key. unfold SMap.keys. apply in_map_iff. exists (x, v).
        split; [reflexivity | exact Hin]. }
      destruct (Rooted x Hc) as (r & Hr & Hx). exact (Stay r x Hr Hx). }
    rewrite F. reflexivity.
Qed.

End Community.

(** ** Pruning and merging when nothing merges *)

Module Quiet.
Import Js Args Backup View Separation.








End Quiet.
